(** * Zabbia: the natural-language query engine

    A shallow embedding of [zabbia/backend/nlp_processor.py] (intent
    detection, parameter extraction, time ranges, SQL / API / chart
    synthesis), of the [/query] and [/maintenance] routes and the license
    middleware of [backend/api.py], and of the methods of the client of
    [backend/zabbix_api.py] that these call.

    Conventions of the embedding.
    - A Python [str] is a list of code points.  The development covers the
      queries whose code points lie in U+0000..U+00FF (Latin-1, which holds
      every letter the patterns of the processor mention); a code point is
      an [ascii] read as that number.  On this repertoire [str.lower], the
      regex classes [\d] and [\s] and [.] are the ones defined below.
    - Regular expressions are kept as the pattern text of the source and
      turned into syntax trees by [parse_regex]; [re.search] and [re.match]
      are a backtracking matcher with greedy quantifiers, ordered
      alternation and numbered capture groups.
    - An instant ([datetime]) is a number of microseconds since the epoch in
      a zone of fixed offset, a [timedelta] a number of microseconds;
      [int(d.timestamp())] truncates towards zero.  The readings of the
      clock by the processor and the [/query] route within one request are
      one instant; the readings by the client are instants of their own.
      Where the local offset changes (daylight saving), the timestamps of
      an instant and of the instant a period before it are not that period
      apart, and may even be inverted: the theorems below state a timestamp
      as the expression the source takes it of, and none states how far
      apart, or in which order, the timestamps of a window are.
    - A period or a duration the caller chooses can take an instant out of
      the range of [datetime].  [from_period_raises] is the exception
      [from_period] then raises, and the [/query] route, which resolves the
      window of every query, answers with it; [from_period] itself is the
      window when nothing is raised.  The [/maintenance] route checks its
      own sum with [valid_datetime].  The clock is taken not to read the
      last day of year 9999, where the timestamp of now itself fails in
      some zones.  The rounding of floats (the source adds
      the duration to a float in [active_till] of [generate_api_call],
      after a second reading of the clock) and the bound of recent
      interpreters on the length of a decimal numeral are not part of the
      model.
    - The Zabbix API is what [api_call] returns or raises for a method and
      its parameters; its answers are read as the API documents them. *)

From Stdlib Require Import List String Ascii Bool ZArith NArith Lia Sorted.
From Stdlib Require Import DecimalFacts DecimalN.
Import ListNotations.

Set Warnings "-register-all".

Local Open Scope char_scope.
Local Open Scope list_scope.

(* ================================================================== *)
(** ** Strings *)

Module PyStr.

Definition char := ascii.
Definition str := list char.

Definition cp (c : char) : N := N_of_ascii c.
Definition chr (n : N) : char := ascii_of_N n.

Definition char_eqb (a b : char) : bool := Ascii.eqb a b.

Definition in_range (lo hi : N) (c : char) : bool :=
  (N.leb lo (cp c) && N.leb (cp c) hi)%bool.

(** Source literals are written in UTF-8; [lit] reads one as code points
    (two-byte sequences led by 0xC2 or 0xC3 are the code points
    U+0080..U+00FF). *)
Fixpoint decode (bs : list ascii) : str :=
  match bs with
  | [] => []
  | b :: rest =>
      match rest with
      | c :: rest' =>
          if N.eqb (cp b) 194 then c :: decode rest'
          else if N.eqb (cp b) 195 then chr (cp c + 64) :: decode rest'
          else b :: decode rest
      | [] => [b]
      end
  end.

Definition lit (s : string) : str := decode (list_ascii_of_string s).

(** [str.lower] on U+0000..U+00FF: A-Z and the capital letters U+00C0..U+00DE
    (all but the multiplication sign U+00D7) move up by 32. *)
Definition lower_char (c : char) : char :=
  if in_range 65 90 c then chr (cp c + 32)
  else if (in_range 192 222 c && negb (N.eqb (cp c) 215))%bool then chr (cp c + 32)
  else c.

Definition lower (s : str) : str := map lower_char s.

(** [\d]: the decimal digits of the repertoire are 0-9. *)
Definition is_digit (c : char) : bool := in_range 48 57 c.

(** [\s] and [str.isspace]: TAB..CR, FS..US, space, NEL and NBSP. *)
Definition is_space (c : char) : bool :=
  (in_range 9 13 c || in_range 28 32 c || N.eqb (cp c) 133 || N.eqb (cp c) 160)%bool.

Fixpoint str_eqb (a b : str) : bool :=
  match a, b with
  | [], [] => true
  | x :: a', y :: b' => (char_eqb x y && str_eqb a' b')%bool
  | _, _ => false
  end.

Fixpoint starts_with (p s : str) : bool :=
  match p, s with
  | [], _ => true
  | x :: p', y :: s' => (char_eqb x y && starts_with p' s')%bool
  | _ :: _, [] => false
  end.

(** [p in s] *)
Fixpoint contains (p s : str) : bool :=
  if starts_with p s then true
  else match s with
       | [] => false
       | _ :: s' => contains p s'
       end.


(** [int(s)] on a run of decimal digits, and [str(n)] / [f"{n}"]. *)
Fixpoint uint_of_chars (ds : str) : Decimal.uint :=
  match ds with
  | "0" :: ds' => Decimal.D0 (uint_of_chars ds')
  | "1" :: ds' => Decimal.D1 (uint_of_chars ds')
  | "2" :: ds' => Decimal.D2 (uint_of_chars ds')
  | "3" :: ds' => Decimal.D3 (uint_of_chars ds')
  | "4" :: ds' => Decimal.D4 (uint_of_chars ds')
  | "5" :: ds' => Decimal.D5 (uint_of_chars ds')
  | "6" :: ds' => Decimal.D6 (uint_of_chars ds')
  | "7" :: ds' => Decimal.D7 (uint_of_chars ds')
  | "8" :: ds' => Decimal.D8 (uint_of_chars ds')
  | "9" :: ds' => Decimal.D9 (uint_of_chars ds')
  | _ => Decimal.Nil
  end.

Definition int_of_digits (ds : str) : N := N.of_uint (uint_of_chars ds).

Fixpoint uint_chars (d : Decimal.uint) : str :=
  match d with
  | Decimal.Nil => []
  | Decimal.D0 d' => "0" :: uint_chars d'
  | Decimal.D1 d' => "1" :: uint_chars d'
  | Decimal.D2 d' => "2" :: uint_chars d'
  | Decimal.D3 d' => "3" :: uint_chars d'
  | Decimal.D4 d' => "4" :: uint_chars d'
  | Decimal.D5 d' => "5" :: uint_chars d'
  | Decimal.D6 d' => "6" :: uint_chars d'
  | Decimal.D7 d' => "7" :: uint_chars d'
  | Decimal.D8 d' => "8" :: uint_chars d'
  | Decimal.D9 d' => "9" :: uint_chars d'
  end.

Definition str_of_N (n : N) : str := uint_chars (N.to_uint n).

Definition str_of_Z (z : Z) : str :=
  match z with
  | Zneg p => "-" :: str_of_N (Npos p)
  | _ => str_of_N (Z.to_N z)
  end.

End PyStr.
Export PyStr.

(* ================================================================== *)
(** ** Regular expressions ([re]) *)

Module Re.

(** An item of a bracketed class. *)
Inductive citem : Type :=
| CChar (c : char)
| CRange (lo hi : char)
| CDigit
| CSpace.

Inductive regex : Type :=
| Empty
| Lit (c : char)
| Any
| Class (items : list citem)
| Cat (r1 r2 : regex)
| Alt (r1 r2 : regex)
| Opt (r : regex)
| Star (r : regex)
| Group (n : nat) (r : regex).

(** [r+] *)
Definition Plus (r : regex) : regex := Cat r (Star r).

Definition item_accepts (i : citem) (c : char) : bool :=
  match i with
  | CChar x => char_eqb x c
  | CRange lo hi => in_range (cp lo) (cp hi) c
  | CDigit => is_digit c
  | CSpace => is_space c
  end.

Definition class_accepts (items : list citem) (c : char) : bool :=
  existsb (fun i => item_accepts i c) items.

(** [.] without DOTALL: anything but a line feed. *)
Definition any_accepts (c : char) : bool := negb (N.eqb (cp c) 10).

(** *** Pattern syntax *)

Definition cat (a b : regex) : regex :=
  match b with
  | Empty => a
  | _ => Cat a b
  end.

Definition escape_item (c : char) : citem :=
  match c with
  | "d" => CDigit
  | "s" => CSpace
  | _ => CChar c
  end.

(** The items of a class, up to the closing bracket. *)
Fixpoint parse_class (fuel : nat) (s : str) : option (list citem * str) :=
  match fuel with
  | O => None
  | S fuel' =>
      match s with
      | [] => None
      | "]" :: rest => Some ([], rest)
      | "\" :: e :: rest =>
          match parse_class fuel' rest with
          | Some (items, rest') => Some (escape_item e :: items, rest')
          | None => None
          end
      | lo :: "-" :: hi :: rest =>
          if char_eqb hi "]" then
            match parse_class fuel' ("-" :: hi :: rest) with
            | Some (items, rest') => Some (CChar lo :: items, rest')
            | None => None
            end
          else
            match parse_class fuel' rest with
            | Some (items, rest') => Some (CRange lo hi :: items, rest')
            | None => None
            end
      | c :: rest =>
          match parse_class fuel' rest with
          | Some (items, rest') => Some (CChar c :: items, rest')
          | None => None
          end
      end
  end.

(** A quantifier after an atom. *)
Definition parse_quant (a : regex) (s : str) : regex * str :=
  match s with
  | "*" :: rest => (Star a, rest)
  | "+" :: rest => (Plus a, rest)
  | "?" :: rest => (Opt a, rest)
  | _ => (a, s)
  end.

(** Alternations, sequences and atoms; [g] is the number of the next
    capture group, counted by opening parentheses. *)
Fixpoint parse_alt (fuel : nat) (s : str) (g : nat) : option (regex * str * nat) :=
  match fuel with
  | O => None
  | S fuel' =>
      match parse_seq fuel' s g with
      | Some (r1, "|" :: rest, g1) =>
          match parse_alt fuel' rest g1 with
          | Some (r2, rest', g2) => Some (Alt r1 r2, rest', g2)
          | None => None
          end
      | other => other
      end
  end
with parse_seq (fuel : nat) (s : str) (g : nat) : option (regex * str * nat) :=
  match fuel with
  | O => None
  | S fuel' =>
      match s with
      | [] => Some (Empty, [], g)
      | "|" :: _ => Some (Empty, s, g)
      | ")" :: _ => Some (Empty, s, g)
      | _ =>
          match parse_atom fuel' s g with
          | Some (a, rest, g1) =>
              let (a', rest') := parse_quant a rest in
              match parse_seq fuel' rest' g1 with
              | Some (r, rest'', g2) => Some (cat a' r, rest'', g2)
              | None => None
              end
          | None => None
          end
      end
  end
with parse_atom (fuel : nat) (s : str) (g : nat) : option (regex * str * nat) :=
  match fuel with
  | O => None
  | S fuel' =>
      match s with
      | "(" :: "?" :: ":" :: rest =>
          match parse_alt fuel' rest g with
          | Some (r, ")" :: rest', g1) => Some (r, rest', g1)
          | _ => None
          end
      | "(" :: rest =>
          match parse_alt fuel' rest (S g) with
          | Some (r, ")" :: rest', g1) => Some (Group g r, rest', g1)
          | _ => None
          end
      | "[" :: rest =>
          match parse_class (S (List.length rest)) rest with
          | Some (items, rest') => Some (Class items, rest', g)
          | None => None
          end
      | "\" :: e :: rest =>
          match escape_item e with
          | CChar c => Some (Lit c, rest, g)
          | i => Some (Class [i], rest, g)
          end
      | "." :: rest => Some (Any, rest, g)
      | c :: rest => Some (Lit c, rest, g)
      | [] => None
      end
  end.

Definition parse_regex (pattern : string) : option regex :=
  let s := lit pattern in
  match parse_alt (3 * List.length s + 3) s 1 with
  | Some (r, [], _) => Some r
  | _ => None
  end.

(** [re.compile]: the patterns of the processor are all well formed. *)
Definition compile (pattern : string) : regex :=
  match parse_regex pattern with
  | Some r => r
  | None => Class []
  end.

(** *** Matching *)

(** Capture groups: number and matched text, latest first. *)
Definition captures := list (nat * str).

Fixpoint group (n : nat) (cs : captures) : option str :=
  match cs with
  | [] => None
  | (k, v) :: cs' => if Nat.eqb k n then Some v else group n cs'
  end.

(** What was read between [s] and its suffix [s']. *)
Definition consumed (s s' : str) : str :=
  firstn (List.length s - List.length s') s.

(** The backtracking matcher: [run r s cs k] matches [r] at the head of [s]
    and hands the rest and the captures to the continuation [k]; when [k]
    fails the next alternative is tried, greedy choices first. *)
Fixpoint run {A : Type} (r : regex) (s : str) (cs : captures)
    (k : str -> captures -> option A) {struct r} : option A :=
  match r with
  | Empty => k s cs
  | Lit c =>
      match s with
      | x :: s' => if char_eqb c x then k s' cs else None
      | [] => None
      end
  | Any =>
      match s with
      | x :: s' => if any_accepts x then k s' cs else None
      | [] => None
      end
  | Class items =>
      match s with
      | x :: s' => if class_accepts items x then k s' cs else None
      | [] => None
      end
  | Cat r1 r2 => run r1 s cs (fun s' cs' => run r2 s' cs' k)
  | Alt r1 r2 =>
      match run r1 s cs k with
      | Some x => Some x
      | None => run r2 s cs k
      end
  | Opt r1 =>
      match run r1 s cs k with
      | Some x => Some x
      | None => k s cs
      end
  | Star r1 =>
      (fix loop (fuel : nat) (s : str) (cs : captures) {struct fuel} : option A :=
         match fuel with
         | O => k s cs
         | S fuel' =>
             match run r1 s cs
                     (fun s' cs' =>
                        if Nat.ltb (List.length s') (List.length s)
                        then loop fuel' s' cs' else None) with
             | Some x => Some x
             | None => k s cs
             end
         end) (List.length s) s cs
  | Group n r1 =>
      run r1 s cs (fun s' cs' => k s' ((n, consumed s s') :: cs'))
  end.

(** What a match is: [matches r w cs cs'] when [r] reads exactly [w] and
    takes the captures from [cs] to [cs']. *)
Inductive matches : regex -> str -> captures -> captures -> Prop :=
| M_Empty : forall cs, matches Empty [] cs cs
| M_Lit : forall c cs, matches (Lit c) [c] cs cs
| M_Any : forall c cs, any_accepts c = true -> matches Any [c] cs cs
| M_Class : forall items c cs,
    class_accepts items c = true -> matches (Class items) [c] cs cs
| M_Cat : forall r1 r2 w1 w2 cs cs1 cs2,
    matches r1 w1 cs cs1 -> matches r2 w2 cs1 cs2 ->
    matches (Cat r1 r2) (w1 ++ w2) cs cs2
| M_AltL : forall r1 r2 w cs cs1,
    matches r1 w cs cs1 -> matches (Alt r1 r2) w cs cs1
| M_AltR : forall r1 r2 w cs cs1,
    matches r2 w cs cs1 -> matches (Alt r1 r2) w cs cs1
| M_OptSome : forall r w cs cs1,
    matches r w cs cs1 -> matches (Opt r) w cs cs1
| M_OptNone : forall r cs, matches (Opt r) [] cs cs
| M_StarNil : forall r cs, matches (Star r) [] cs cs
| M_StarCons : forall r w1 w2 cs cs1 cs2,
    matches r w1 cs cs1 -> matches (Star r) w2 cs1 cs2 ->
    matches (Star r) (w1 ++ w2) cs cs2
| M_Group : forall n r w cs cs1,
    matches r w cs cs1 -> matches (Group n r) w cs ((n, w) :: cs1).

(** [re.match]: anchored at the start of the text. *)
Definition re_match (r : regex) (s : str) : option captures :=
  run r s [] (fun _ cs => Some cs).

(** [re.search]: the first position, from the left, with a match. *)
Fixpoint re_search (r : regex) (s : str) : option captures :=
  match re_match r s with
  | Some cs => Some cs
  | None =>
      match s with
      | [] => None
      | _ :: s' => re_search r s'
      end
  end.

Definition found (m : option captures) : bool :=
  match m with
  | Some _ => true
  | None => false
  end.

End Re.
Export Re.

(* ================================================================== *)
(** ** Time ([datetime], [timedelta]) *)

Module Datetime.

(** Microseconds since the epoch. *)
Definition datetime := Z.
Definition timedelta := Z.

Definition timedelta_minutes (n : Z) : timedelta := (n * 60 * 1000000)%Z.
Definition timedelta_hours (n : Z) : timedelta := (n * 3600 * 1000000)%Z.
Definition timedelta_days (n : Z) : timedelta := (n * 86400 * 1000000)%Z.

(** [int(d.timestamp())] *)
Definition timestamp_int (d : datetime) : Z := Z.quot d 1000000.

(** [datetime.min], 0001-01-01 00:00:00. *)
Definition datetime_min : datetime := (-62135596800000000)%Z.

(** [timedelta(days=n)], [timedelta(hours=n)] and [timedelta(minutes=n)]
    for [n >= 0] raise [OverflowError] when the whole days of the amount do
    not fit a C [int], or exceed 999999999. *)
Definition timedelta_raises (days : Z) : option str :=
  if (2147483647 <? days)%Z then
    Some (lit "Python int too large to convert to C int")
  else if (999999999 <? days)%Z then
    Some (lit "days=" ++ str_of_Z days ++ lit "; must have magnitude <= 999999999")
  else None.

(** [int((now - delta).timestamp())] for [delta >= 0]: the subtraction
    raises [OverflowError] when the difference is before [datetime.min];
    [timestamp()], which looks at the local time one day earlier, raises
    [ValueError] when the difference is in the first day of [datetime]. *)
Definition minus_raises (now : datetime) (delta : timedelta) : option str :=
  if (now - delta <? datetime_min)%Z then Some (lit "date value out of range")
  else if (now - delta <? datetime_min + 86400 * 1000000)%Z then
    Some (lit "year 0 is out of range")
  else None.

Definition pad2 (n : Z) : str :=
  if (n <? 10)%Z then "0" :: str_of_Z n else str_of_Z n.

Definition pad4 (n : Z) : str :=
  if (n <? 10)%Z then "0" :: "0" :: "0" :: str_of_Z n
  else if (n <? 100)%Z then "0" :: "0" :: str_of_Z n
  else if (n <? 1000)%Z then "0" :: str_of_Z n
  else str_of_Z n.

Definition seconds_of_day (d : datetime) : Z := ((d / 1000000) mod 86400)%Z.

(** [d.strftime("%H:%M")] *)
Definition strftime_HM (d : datetime) : str :=
  let s := seconds_of_day d in
  pad2 (s / 3600) ++ ":" :: pad2 ((s / 60) mod 60).

(** The proleptic Gregorian date of a day number counted from 1970-01-01. *)
Definition civil_from_days (days : Z) : Z * Z * Z :=
  let z := (days + 719468)%Z in
  let era := (z / 146097)%Z in
  let doe := (z - era * 146097)%Z in
  let yoe := ((doe - doe / 1460 + doe / 36524 - doe / 146096) / 365)%Z in
  let doy := (doe - (365 * yoe + yoe / 4 - yoe / 100))%Z in
  let mp := ((5 * doy + 2) / 153)%Z in
  let d := (doy - (153 * mp + 2) / 5 + 1)%Z in
  let m := (if (mp <? 10)%Z then mp + 3 else mp - 9)%Z in
  let y := (yoe + era * 400 + (if (m <=? 2)%Z then 1 else 0))%Z in
  (y, m, d).

(** [d.strftime('%Y-%m-%d %H:%M:%S')] *)
Definition strftime_full (d : datetime) : str :=
  let '(y, m, dd) := civil_from_days ((d / 1000000) / 86400)%Z in
  let s := seconds_of_day d in
  pad4 y ++ "-" :: pad2 m ++ "-" :: pad2 dd ++ " " ::
  pad2 (s / 3600) ++ ":" :: pad2 ((s / 60) mod 60) ++ ":" :: pad2 (s mod 60).

End Datetime.
Export Datetime.

(* ================================================================== *)
(** ** Values of dictionaries and lists *)

Module Data.

Record TimeRange : Type := mkTimeRange {
  from_timestamp : Z;
  to_timestamp : Z;
  time_period : str
}.

(** [VDec n k] is the decimal literal [n / 10^k]. *)
Inductive value : Type :=
| VNone
| VBool (b : bool)
| VInt (z : Z)
| VDec (n : Z) (k : nat)
| VStr (s : str)
| VTime (t : TimeRange)
| VList (items : list value)
| VDict (entries : list (string * value)).

(** A [dict] in insertion order. *)
Definition dict := list (string * value).

Fixpoint dict_get (key : string) (d : dict) : option value :=
  match d with
  | [] => None
  | (k, v) :: d' => if String.eqb k key then Some v else dict_get key d'
  end.

Definition dict_has (key : string) (d : dict) : bool :=
  match dict_get key d with
  | Some _ => true
  | None => false
  end.

(** [d[key] = v] *)
Fixpoint dict_set (key : string) (v : value) (d : dict) : dict :=
  match d with
  | [] => [(key, v)]
  | (k, w) :: d' =>
      if String.eqb k key then (k, v) :: d' else (k, w) :: dict_set key v d'
  end.

End Data.
Export Data.

(* ================================================================== *)
(** ** [nlp_processor.py] *)

Module NLP.

Inductive QueryIntent : Type :=
| HIGH_CPU
| MEMORY_USAGE
| DISK_USAGE
| HOST_STATUS
| HOST_UPTIME
| UNAVAILABLE_SERVICES
| ALERT_SUMMARY
| GRAPH_REQUEST
| HOST_MAINTENANCE
| GENERAL_QUERY
| UNKNOWN.

(** The string each intent stands for. *)
Definition intent_value (i : QueryIntent) : str :=
  match i with
  | HIGH_CPU => lit "high_cpu"
  | MEMORY_USAGE => lit "memory_usage"
  | DISK_USAGE => lit "disk_usage"
  | HOST_STATUS => lit "host_status"
  | HOST_UPTIME => lit "host_uptime"
  | UNAVAILABLE_SERVICES => lit "unavailable_services"
  | ALERT_SUMMARY => lit "alert_summary"
  | GRAPH_REQUEST => lit "graph_request"
  | HOST_MAINTENANCE => lit "host_maintenance"
  | GENERAL_QUERY => lit "general_query"
  | UNKNOWN => lit "unknown"
  end.

Definition intent_eqb (a b : QueryIntent) : bool :=
  str_eqb (intent_value a) (intent_value b).

(** *** [TimeRange.from_period] *)

Definition period_token_re : regex := Eval vm_compute in compile "(\d+)([dhm])".

(** The text of a group of a match. *)
Definition group_text (n : nat) (m : captures) : str :=
  match group n m with
  | Some v => v
  | None => []
  end.

Definition from_period (now : datetime) (period : str) : TimeRange :=
  let to_timestamp := timestamp_int now in
  match re_match period_token_re (lower period) with
  | None =>
      let from_timestamp := timestamp_int (now - timedelta_hours 24)%Z in
      mkTimeRange from_timestamp to_timestamp (lit "24h")
  | Some m =>
      let value := int_of_digits (group_text 1 m) in
      let unit := group_text 2 m in
      let '(delta, period_str) :=
        if str_eqb unit (lit "m") then
          (timedelta_minutes (Z.of_N value), str_of_N value ++ lit "m")
        else if str_eqb unit (lit "h") then
          (timedelta_hours (Z.of_N value), str_of_N value ++ lit "h")
        else if str_eqb unit (lit "d") then
          (timedelta_days (Z.of_N value), str_of_N value ++ lit "d")
        else
          (timedelta_hours 24, lit "24h") in
      let from_timestamp := timestamp_int (now - delta)%Z in
      mkTimeRange from_timestamp to_timestamp period_str
  end.

(** The exception [from_period] raises, if any: taking the timestamp of
    [now], building [delta], or subtracting it from [now] and taking the
    timestamp. *)
Definition from_period_raises (now : datetime) (period : str) : option str :=
  match minus_raises now 0%Z with
  | Some e => Some e
  | None =>
  match re_match period_token_re (lower period) with
  | None => minus_raises now (timedelta_hours 24)
  | Some m =>
      let value := int_of_digits (group_text 1 m) in
      let unit := group_text 2 m in
      let '(overflow, delta) :=
        if str_eqb unit (lit "m") then
          (timedelta_raises (Z.of_N value / 1440), timedelta_minutes (Z.of_N value))
        else if str_eqb unit (lit "h") then
          (timedelta_raises (Z.of_N value / 24), timedelta_hours (Z.of_N value))
        else if str_eqb unit (lit "d") then
          (timedelta_raises (Z.of_N value), timedelta_days (Z.of_N value))
        else
          (None, timedelta_hours 24) in
      match overflow with
      | Some e => Some e
      | None => minus_raises now delta
      end
  end
  end.

(** *** [NLPProcessor.__init__] *)

Definition intent_patterns : list (QueryIntent * list regex) :=
  Eval vm_compute in
  [ (HIGH_CPU,
      [ compile "(?:hosts?|servidore?s?).*(?:cpu|processador).*(?:alta|elevad[ao]|acima|maior)";
        compile "cpu.*(?:acima|maior).*(?:\d+)[%\s]";
        compile "quais? hosts? (?:est[áa][ão]o|com) cpu (?:alta|acima)" ]);
    (MEMORY_USAGE,
      [ compile "(?:hosts?|servidore?s?).*(?:mem[óo]ria|ram).*(?:alta|elevad[ao]|acima|maior)";
        compile "(?:mem[óo]ria|ram).*(?:acima|maior).*(?:\d+)[%\s]";
        compile "uso de mem[óo]ria" ]);
    (DISK_USAGE,
      [ compile "(?:hosts?|servidore?s?).*(?:disco|armazenamento|fs|filesystem).*(?:alta|elevad[ao]|acima|maior)";
        compile "(?:disco|armazenamento).*(?:acima|maior).*(?:\d+)[%\s]";
        compile "uso de disco" ]);
    (HOST_STATUS,
      [ compile "status.*(?:hosts?|servidore?s?)";
        compile "(?:hosts?|servidore?s?).*(?:status|estado)";
        compile "quais? hosts? (?:est[áa][ão]o) (?:online|offline|down|up)" ]);
    (HOST_UPTIME,
      [ compile "uptime.*(?:hosts?|servidore?s?)";
        compile "(?:hosts?|servidore?s?).*uptime";
        compile "(?:quanto tempo|desde quando).*(?:hosts?|servidore?s?).*(?:online|ativ[oa]s?)" ]);
    (UNAVAILABLE_SERVICES,
      [ compile "(?:servi[çc]os?|aplica[çc][õo]es?).*(?:indispon[íi]ve(?:l|is)|offline|down|fora do ar)";
        compile "quais?.*(?:servi[çc]os?|aplica[çc][õo]es?).*(?:est[áa][ão]o).*(?:indispon[íi]ve(?:l|is)|offline|down)" ]);
    (ALERT_SUMMARY,
      [ compile "(?:resumo|sum[áa]rio).*(?:alerta|problema)s?";
        compile "(?:alerta|problema)s?.*(?:resumo|sum[áa]rio)";
        compile "(?:alertas|problemas).*(?:cr[íi]tico|grave)s?" ]);
    (GRAPH_REQUEST,
      [ compile "(?:gr[áa]fico|chart).*(?:cpu|mem[óo]ria|ram|disco|rede|network)";
        compile "(?:gerar?|criar?|mostrar?).*(?:gr[áa]fico|chart)";
        compile "visualizar?.*(?:gr[áa]fico|chart)" ]);
    (HOST_MAINTENANCE,
      [ compile "(?:colocar?|colocar?|por?|botar?).*(?:em manuten[çc][ãa]o|manutenir)";
        compile "manuten[çc][ãa]o.*(?:hosts?|servidore?s?)";
        compile "(?:hosts?|servidore?s?).*manuten[çc][ãa]o" ]) ].

Definition host_pattern : regex :=
  Eval vm_compute in compile "(?:host|servidor[a]?|maquina)[:\s]+([a-zA-Z0-9\-_\.]+)".
Definition threshold_pattern : regex :=
  Eval vm_compute in compile "(?:acima|maior|superior|mais)[:\s]+(?:de|que)?[:\s]*(\d+)[%\s]".
Definition period_pattern : regex :=
  Eval vm_compute in compile "(?:últim(?:as?|os?))[:\s]+(\d+)[:\s]*(minutos?|horas?|dias?|m|h|d)".
Definition duration_pattern : regex :=
  Eval vm_compute in compile "(?:por|durante)[:\s]+(\d+)[:\s]*(minutos?|horas?|dias?|m|h|d)".

(** *** [detect_intent] *)

(** The inner loop: does one of the patterns of an intent match? *)
Fixpoint any_pattern (patterns : list regex) (text : str) : bool :=
  match patterns with
  | [] => false
  | pattern :: rest =>
      if found (re_search pattern text) then true else any_pattern rest text
  end.

(** The outer loop over the table, in insertion order. *)
Fixpoint first_intent (table : list (QueryIntent * list regex)) (text : str)
    : QueryIntent :=
  match table with
  | [] => GENERAL_QUERY
  | (intent, patterns) :: rest =>
      if any_pattern patterns text then intent else first_intent rest text
  end.

Definition detect_intent (query : str) : QueryIntent :=
  let normalized_query := lower query in
  first_intent intent_patterns normalized_query.

(** *** The extractors *)

Definition extract_host (query : str) : option str :=
  match re_search host_pattern (lower query) with
  | Some m => Some (group_text 1 m)
  | None => None
  end.

Definition extract_threshold (query : str) (default : Z) : Z :=
  match re_search threshold_pattern (lower query) with
  | Some m => Z.of_N (int_of_digits (group_text 1 m))
  | None => default
  end.

(** The period token [extract_time_range] hands to [from_period]. *)
Definition period_token (query : str) : str :=
  match re_search period_pattern (lower query) with
  | Some period_match =>
      let value := int_of_digits (group_text 1 period_match) in
      let unit := lower (firstn 1 (group_text 2 period_match)) in
      if (str_eqb unit (lit "m") || starts_with (lit "m") unit)%bool then
        str_of_N value ++ lit "m"
      else if (str_eqb unit (lit "h") || starts_with (lit "h") unit)%bool then
        str_of_N value ++ lit "h"
      else if (str_eqb unit (lit "d") || starts_with (lit "d") unit)%bool then
        str_of_N value ++ lit "d"
      else lit "24h"
  | None => lit "24h"
  end.

Definition extract_time_range (now : datetime) (query : str) : TimeRange :=
  from_period now (period_token query).

(** The exception [extract_time_range] raises, if any. *)
Definition extract_time_range_raises (now : datetime) (query : str) : option str :=
  from_period_raises now (period_token query).

Definition extract_duration (query : str) (default : Z) : Z :=
  match re_search duration_pattern (lower query) with
  | Some m =>
      let value := Z.of_N (int_of_digits (group_text 1 m)) in
      let unit := lower (firstn 1 (group_text 2 m)) in
      if (str_eqb unit (lit "m") || starts_with (lit "m") unit)%bool then value
      else if (str_eqb unit (lit "h") || starts_with (lit "h") unit)%bool then
        (value * 60)%Z
      else if (str_eqb unit (lit "d") || starts_with (lit "d") unit)%bool then
        (value * 60 * 24)%Z
      else default
  | None => default
  end.

(** *** [generate_sql] *)

Definition sql_high_cpu : str := lit "
            -- Hosts com CPU acima do threshold
            SELECT h.hostid, h.name,
                   100 - AVG(hu.value) AS cpu_usage
            FROM hosts h
            JOIN items i ON h.hostid = i.hostid
            JOIN history_uint hu ON i.itemid = hu.itemid
            WHERE i.key_ = 'system.cpu.util[,idle]'
              AND hu.clock > :from_time
              AND hu.clock <= :to_time
            ".

Definition sql_high_cpu_tail : str := lit "
            GROUP BY h.hostid, h.name
            HAVING 100 - AVG(hu.value) > :threshold
            ORDER BY cpu_usage DESC;
            ".

Definition sql_memory_usage : str := lit "
            -- Hosts com uso de memória acima do threshold
            SELECT h.hostid, h.name,
                   (1 - AVG(hm.value) / AVG(ht.value)) * 100 AS memory_usage
            FROM hosts h
            JOIN items im ON h.hostid = im.hostid
            JOIN items it ON h.hostid = it.hostid
            JOIN history hm ON im.itemid = hm.itemid
            JOIN history ht ON it.itemid = ht.itemid
            WHERE im.key_ = 'vm.memory.size[available]'
              AND it.key_ = 'vm.memory.size[total]'
              AND hm.clock > :from_time
              AND hm.clock <= :to_time
              AND ht.clock > :from_time
              AND ht.clock <= :to_time
            ".

Definition sql_memory_usage_tail : str := lit "
            GROUP BY h.hostid, h.name
            HAVING (1 - AVG(hm.value) / AVG(ht.value)) * 100 > :threshold
            ORDER BY memory_usage DESC;
            ".

Definition sql_host_status : str := lit "
            -- Status dos hosts
            SELECT h.hostid, h.name,
                   CASE h.status
                       WHEN 0 THEN 'Enabled'
                       WHEN 1 THEN 'Disabled'
                       ELSE 'Unknown'
                   END AS status,
                   CASE h.available
                       WHEN 0 THEN 'Unknown'
                       WHEN 1 THEN 'Available'
                       WHEN 2 THEN 'Unavailable'
                       ELSE 'Unknown'
                   END AS availability
            FROM hosts h
            ".

Definition sql_host_uptime : str := lit "
            -- Uptime dos hosts
            SELECT h.hostid, h.name,
                   hu.value AS uptime_seconds,
                   hu.value / 86400 AS uptime_days
            FROM hosts h
            JOIN items i ON h.hostid = i.hostid
            JOIN history_uint hu ON i.itemid = hu.itemid
            WHERE i.key_ = 'system.uptime'
              AND hu.clock > (UNIX_TIMESTAMP() - 300)
            ".

Definition sql_unavailable_services : str := lit "
            -- Serviços indisponíveis
            SELECT h.hostid, h.name AS host,
                   i.name AS service,
                   FROM_UNIXTIME(t.lastchange) AS since,
                   t.description AS problem
            FROM triggers t
            JOIN functions f ON t.triggerid = f.triggerid
            JOIN items i ON f.itemid = i.itemid
            JOIN hosts h ON i.hostid = h.hostid
            WHERE t.value = 1
              AND t.status = 0
              AND t.state = 0
            ".

Definition sql_alert_summary : str := lit "
            -- Resumo de alertas
            SELECT p.eventid,
                   h.name AS host,
                   p.name AS problem,
                   p.severity,
                   FROM_UNIXTIME(p.clock) AS timestamp,
                   p.r_eventid IS NOT NULL AS resolved
            FROM problem p
            JOIN events e ON p.eventid = e.eventid
            JOIN triggers t ON e.objectid = t.triggerid
            JOIN functions f ON t.triggerid = f.triggerid
            JOIN items i ON f.itemid = i.itemid
            JOIN hosts h ON i.hostid = h.hostid
            WHERE p.clock > :from_time
              AND p.clock <= :to_time
            ".

Definition sql_generic : str := lit "
            -- Consulta genérica
            SELECT h.hostid, h.name, h.status, h.available
            FROM hosts h
            WHERE 1=1
            ".

(** [if host: sql += clause; context["host_pattern"] = f"%{host}%"] *)
Definition add_host_filter (clause : str) (host : option str)
    (sql : str) (context : dict) : str * dict :=
  match host with
  | Some h =>
      if negb (str_eqb h [])
      then (sql ++ clause, dict_set "host_pattern" (VStr ("%" :: h ++ ["%"])) context)
      else (sql, context)
  | None => (sql, context)
  end.

Definition generate_sql (now : datetime) (query : str) : str * dict :=
  let intent := detect_intent query in
  let context : dict :=
    [ ("intent"%string, VStr (intent_value intent));
      ("query"%string, VStr query) ] in
  let host := extract_host query in
  let context :=
    match host with
    | Some h => if negb (str_eqb h []) then dict_set "host" (VStr h) context else context
    | None => context
    end in
  let time_range := extract_time_range now query in
  let context := dict_set "time_range" (VTime time_range) context in
  if intent_eqb intent HIGH_CPU then
    let threshold := extract_threshold query 80 in
    let context := dict_set "threshold" (VInt threshold) context in
    let sql := sql_high_cpu in
    let '(sql, context) :=
      add_host_filter (lit " AND h.name LIKE :host_pattern") host sql context in
    let sql := sql ++ sql_high_cpu_tail in
    (sql, context)
  else if intent_eqb intent MEMORY_USAGE then
    let threshold := extract_threshold query 80 in
    let context := dict_set "threshold" (VInt threshold) context in
    let sql := sql_memory_usage in
    let '(sql, context) :=
      add_host_filter (lit " AND h.name LIKE :host_pattern") host sql context in
    let sql := sql ++ sql_memory_usage_tail in
    (sql, context)
  else if intent_eqb intent HOST_STATUS then
    let sql := sql_host_status in
    let '(sql, context) :=
      add_host_filter (lit " WHERE h.name LIKE :host_pattern") host sql context in
    let sql := sql ++ lit " ORDER BY h.name;" in
    (sql, context)
  else if intent_eqb intent HOST_UPTIME then
    let sql := sql_host_uptime in
    let '(sql, context) :=
      add_host_filter (lit " AND h.name LIKE :host_pattern") host sql context in
    let sql := sql ++ lit " ORDER BY h.name;" in
    (sql, context)
  else if intent_eqb intent UNAVAILABLE_SERVICES then
    let sql := sql_unavailable_services in
    let '(sql, context) :=
      add_host_filter (lit " AND h.name LIKE :host_pattern") host sql context in
    let sql := sql ++ lit " ORDER BY t.lastchange DESC;" in
    (sql, context)
  else if intent_eqb intent ALERT_SUMMARY then
    let sql := sql_alert_summary in
    let '(sql, context) :=
      add_host_filter (lit " AND h.name LIKE :host_pattern") host sql context in
    let sql := sql ++ lit " ORDER BY p.clock DESC;" in
    (sql, context)
  else
    let sql := sql_generic in
    let '(sql, context) :=
      add_host_filter (lit " AND h.name LIKE :host_pattern") host sql context in
    let sql := sql ++ lit " ORDER BY h.name;" in
    (sql, context).

(** *** [generate_api_call] *)

(** [active_since] and [active_till] are written for one reading of the
    clock and in exact arithmetic; the source reads the clock once more
    for [active_till] and adds the seconds to a float. *)
Definition generate_api_call (now : datetime) (query : str) : option str * dict :=
  let intent := detect_intent query in
  let host := extract_host query in
  let time_range := extract_time_range now query in
  if intent_eqb intent HOST_MAINTENANCE then
    let method := lit "maintenance.create" in
    let host_ids : list value := [] in
    let duration := extract_duration query 60 in
    let params : dict :=
      [ ("name"%string, VStr (lit "Manutenção automática via Zabbia"));
        ("active_since"%string, VInt (timestamp_int now));
        ("active_till"%string, VInt (timestamp_int (now + duration * 60 * 1000000)%Z));
        ("hostids"%string, VList host_ids);
        ("timeperiods"%string,
           VList [ VDict [ ("timeperiod_type"%string, VInt 0);
                           ("period"%string, VInt (duration * 60)%Z) ] ]);
        ("description"%string,
           VStr (lit "Manutenção criada via Zabbia em " ++ strftime_full now));
        ("maintenance_type"%string, VInt 0) ] in
    (Some method, params)
  else if intent_eqb intent HIGH_CPU then
    let method := lit "item.get" in
    let threshold := extract_threshold query 80 in
    let params : dict :=
      [ ("output"%string,
           VList [VStr (lit "itemid"); VStr (lit "name"); VStr (lit "lastvalue");
                  VStr (lit "units")]);
        ("selectHosts"%string, VList [VStr (lit "hostid"); VStr (lit "name")]);
        ("search"%string, VDict [ ("key_"%string, VStr (lit "system.cpu.util")) ]);
        ("monitored"%string, VBool true) ] in
    let params :=
      match host with
      | Some h => if negb (str_eqb h []) then dict_set "host" (VStr h) params else params
      | None => params
      end in
    (Some method, params)
  else if intent_eqb intent HOST_STATUS then
    let method := lit "host.get" in
    let params : dict :=
      [ ("output"%string,
           VList [VStr (lit "hostid"); VStr (lit "name"); VStr (lit "status");
                  VStr (lit "available")]);
        ("selectInterfaces"%string,
           VList [VStr (lit "ip"); VStr (lit "type"); VStr (lit "useip");
                  VStr (lit "main")]);
        ("selectGroups"%string, VStr (lit "extend")) ] in
    let params :=
      match host with
      | Some h =>
          if negb (str_eqb h []) then
            dict_set "searchWildcardsEnabled" (VBool true)
              (dict_set "search" (VDict [ ("name"%string, VStr h) ]) params)
          else params
      | None => params
      end in
    (Some method, params)
  else if intent_eqb intent UNAVAILABLE_SERVICES then
    let method := lit "problem.get" in
    let params : dict :=
      [ ("output"%string, VStr (lit "extend"));
        ("selectHosts"%string, VList [VStr (lit "hostid"); VStr (lit "name")]);
        ("recent"%string, VBool true);
        ("sortfield"%string, VList [VStr (lit "eventid")]);
        ("sortorder"%string, VStr (lit "DESC")) ] in
    let params :=
      match host with
      | Some h => if negb (str_eqb h []) then dict_set "host" (VStr h) params else params
      | None => params
      end in
    (Some method, params)
  else (None, []).

(** *** [generate_graph_data] *)

(** [d[key].append(item)] *)
Definition list_append (key : string) (item : value) (d : dict) : dict :=
  match dict_get key d with
  | Some (VList items) => dict_set key (VList (items ++ [item])) d
  | _ => d
  end.

(** [f" - {host}" if host else ""] *)
Definition host_suffix (host : option str) : str :=
  match host with
  | Some h => if negb (str_eqb h []) then lit " - " ++ h else []
  | None => []
  end.

Definition dataset (label color : str) : value :=
  VDict [ ("label"%string, VStr label);
          ("data"%string, VList []);
          ("color"%string, VStr color);
          ("fill"%string, VBool false) ].

Definition generate_graph_data (now : datetime) (query : str) : dict :=
  let intent := detect_intent query in
  let host := extract_host query in
  let time_range := extract_time_range now query in
  let chart_data : dict :=
    [ ("chartType"%string, VStr (lit "line"));
      ("labels"%string, VList []);
      ("datasets"%string, VList []) ] in
  if contains (lit "cpu") (lower query) then
    let chart_data :=
      dict_set "title" (VStr (lit "Uso de CPU" ++ host_suffix host)) chart_data in
    list_append "datasets" (dataset (lit "CPU %") (lit "#1f77b4")) chart_data
  else if (contains (lit "memória") (lower query)
           || contains (lit "ram") (lower query))%bool then
    let chart_data :=
      dict_set "title" (VStr (lit "Uso de Memória" ++ host_suffix host)) chart_data in
    list_append "datasets" (dataset (lit "Memória %") (lit "#ff7f0e")) chart_data
  else if contains (lit "disco") (lower query) then
    let chart_data :=
      dict_set "title" (VStr (lit "Uso de Disco" ++ host_suffix host)) chart_data in
    list_append "datasets" (dataset (lit "Disco %") (lit "#2ca02c")) chart_data
  else chart_data.

End NLP.
Export NLP.

(* ================================================================== *)
(** ** [api.py]: the [/query] route *)

Module Api.

Local Open Scope string_scope.
Local Open Scope list_scope.

Record ZabbiaQuery : Type := mkQuery {
  query : str;
  request_conversation_id : option str
}.

Record ZabbiaResponse : Type := mkResponse {
  response : str;
  data : dict;
  sql : option str;
  charts : option (list value);
  conversation_id : option str
}.

(** A call that returns or raises. *)
Inductive outcome (A : Type) : Type :=
| Returns (a : A)
| Raises (message : str).
Arguments Returns {A} a.
Arguments Raises {A} message.

(** What a request reads from outside the processor: the clock, the random
    generator, the settings and the Zabbix client. *)
Record World : Type := mkWorld {
  (** [datetime.now()] *)
  w_now : datetime;
  (** [f"{processing_time:.2f}"], from the two readings of [time()] *)
  w_processing_time : str;
  (** [int(time())] when the response is built *)
  w_time : Z;
  (** the successive values of [random.randint(10, 90)] *)
  w_randint : nat -> Z;
  (** [settings.environment] *)
  w_environment : str;
  (** [api_client.get_host_by_name] *)
  w_get_host_by_name : str -> outcome (option dict);
  (** [api_client.set_host_maintenance(hostid, name=..., duration=...)] *)
  w_set_host_maintenance : value -> str -> Z -> outcome (option str)
}.

(** [datasets[0]["data"] = draws] *)
Definition set_first_dataset_data (draws : list value) (chart_data : dict) : dict :=
  match dict_get "datasets" chart_data with
  | Some (VList (VDict first :: rest)) =>
      dict_set "datasets" (VList (VDict (dict_set "data" (VList draws) first) :: rest))
        chart_data
  | _ => chart_data
  end.

Definition host_row3 (name status : string) : value :=
  VDict [ ("name"%string, VStr (lit name)); ("status"%string, VStr (lit status)) ].

(** The body of the [try] block, up to the response text. *)
Definition process_body (w : World) (q : str)
    : outcome (str * dict * option str * option (list value)) :=
  let intent := detect_intent q in
  let host := extract_host q in
  match extract_time_range_raises (w_now w) q with
  | Some e => Raises e
  | None =>
  let time_range := extract_time_range (w_now w) q in
  if intent_eqb intent GRAPH_REQUEST then
    let chart_data := generate_graph_data (w_now w) q in
    let now := w_now w in
    let chart_data :=
      dict_set "labels"
        (VList (map (fun i => VStr (strftime_HM (now - timedelta_hours (Z.of_nat i))%Z))
                    (rev (seq 1 12))))
        chart_data in
    let chart_data :=
      match dict_get "datasets" chart_data with
      | Some (VList (_ :: _)) =>
          set_first_dataset_data
            (map (fun i => VInt (w_randint w i)) (seq 0 12)) chart_data
      | _ => chart_data
      end in
    let charts := [VDict chart_data] in
    match dict_get "title" chart_data with
    | Some (VStr title) =>
        Returns (lit "Aqui está o gráfico solicitado para " ++ title,
                 [], None, Some charts)
    | _ => Raises (lit "'title'")
    end
  else if intent_eqb intent HOST_MAINTENANCE then
    match host with
    | None =>
        Returns (lit "Por favor, especifique qual host deseja colocar em manutenção.",
                 [], None, None)
    | Some h =>
        if str_eqb h [] then
          Returns (lit "Por favor, especifique qual host deseja colocar em manutenção.",
                   [], None, None)
        else
        match w_get_host_by_name w h with
        | Raises e => Raises e
        | Returns None =>
            Returns (lit "Host '" ++ h ++ lit "' não encontrado no Zabbix.",
                     [], None, None)
        | Returns (Some []) =>
            Returns (lit "Host '" ++ h ++ lit "' não encontrado no Zabbix.",
                     [], None, None)
        | Returns (Some host_obj) =>
            let duration := extract_duration q 60 in
            match dict_get "hostid" host_obj with
            | None => Raises (lit "'hostid'")
            | Some hostid =>
                match w_set_host_maintenance w hostid
                        (lit "Manutenção via Zabbia - " ++ h) (duration * 60)%Z with
                | Raises e => Raises e
                | Returns (Some (c :: id)) =>
                    Returns (lit "Host " ++ h ++ lit " colocado em manutenção por "
                               ++ str_of_Z duration ++ lit " minutos.",
                             [ ("maintenance_id"%string, VStr (c :: id));
                               ("host"%string, VStr h);
                               ("duration_minutes"%string, VInt duration) ],
                             None, None)
                | Returns _ =>
                    Returns (lit "Erro ao colocar host " ++ h ++ lit " em manutenção.",
                             [], None, None)
                end
            end
        end
    end
  else if (intent_eqb intent HIGH_CPU || intent_eqb intent MEMORY_USAGE
           || intent_eqb intent HOST_STATUS || intent_eqb intent HOST_UPTIME
           || intent_eqb intent UNAVAILABLE_SERVICES
           || intent_eqb intent ALERT_SUMMARY)%bool then
    let '(generated_sql, context) := generate_sql (w_now w) q in
    let sql := Some generated_sql in
    if intent_eqb intent HIGH_CPU then
      let threshold :=
        match dict_get "threshold" context with
        | Some v => v
        | None => VInt 80
        end in
      let data : dict :=
        [ ("hosts"%string,
             VList [ VDict [ ("name"%string, VStr (lit "web01.example.com"));
                             ("cpu_usage"%string, VDec 925 1) ];
                     VDict [ ("name"%string, VStr (lit "web02.example.com"));
                             ("cpu_usage"%string, VDec 887 1) ];
                     VDict [ ("name"%string, VStr (lit "db01.example.com"));
                             ("cpu_usage"%string, VDec 853 1) ] ]);
          ("count"%string, VInt 3);
          ("threshold"%string, threshold) ] in
      let shown :=
        match threshold with
        | VInt t => str_of_Z t
        | _ => []
        end in
      Returns (lit "Encontrados 3 hosts com CPU acima de " ++ shown ++ lit "%.",
               data, sql, None)
    else if intent_eqb intent HOST_STATUS then
      let row (name availability : string) : value :=
        VDict [ ("name"%string, VStr (lit name));
                ("status"%string, VStr (lit "Enabled"));
                ("availability"%string, VStr (lit availability)) ] in
      let data : dict :=
        [ ("hosts"%string,
             VList [ row "web01.example.com" "Available";
                     row "web02.example.com" "Available";
                     row "db01.example.com" "Available";
                     row "monitor01.example.com" "Unavailable" ]);
          ("count"%string, VInt 4);
          ("available"%string, VInt 3);
          ("unavailable"%string, VInt 1) ] in
      Returns (lit "Status atual dos hosts: 3 disponíveis, 1 indisponíveis.",
               data, sql, None)
    else if intent_eqb intent UNAVAILABLE_SERVICES then
      let row (host service since : string) : value :=
        VDict [ ("host"%string, VStr (lit host));
                ("service"%string, VStr (lit service));
                ("since"%string, VStr (lit since)) ] in
      let data : dict :=
        [ ("services"%string,
             VList [ row "web01.example.com" "HTTP Service" "2023-06-15T14:30:00";
                     row "db01.example.com" "MySQL Service" "2023-06-15T15:45:00" ]);
          ("count"%string, VInt 2) ] in
      Returns (lit "Há 2 serviços indisponíveis atualmente.", data, sql, None)
    else if intent_eqb intent HOST_UPTIME then
      let host_name :=
        match host with
        | Some h => if negb (str_eqb h []) then h else lit "todos os hosts"
        | None => lit "todos os hosts"
        end in
      let row (name : string) (uptime_days : Z) : value :=
        VDict [ ("name"%string, VStr (lit name));
                ("uptime_days"%string, VDec uptime_days 1) ] in
      let data : dict :=
        [ ("hosts"%string,
             VList [ row "web01.example.com" 452%Z;
                     row "web02.example.com" 127%Z;
                     row "db01.example.com" 785%Z ]) ] in
      Returns (lit "Uptime para " ++ host_name ++ lit ":", data, sql, None)
    else if intent_eqb intent ALERT_SUMMARY then
      let row (host problem severity : string) : value :=
        VDict [ ("host"%string, VStr (lit host));
                ("problem"%string, VStr (lit problem));
                ("severity"%string, VStr (lit severity)) ] in
      let data : dict :=
        [ ("alerts"%string,
             VList [ row "web01.example.com" "CPU alto" "High";
                     row "db01.example.com" "Disco cheio" "Disaster";
                     row "web02.example.com" "Serviço HTTP indisponível" "Average" ]);
          ("count"%string, VInt 3);
          ("by_severity"%string,
             VDict [ ("Disaster"%string, VInt 1);
                     ("High"%string, VInt 1);
                     ("Average"%string, VInt 1) ]) ] in
      Returns (lit "Resumo de alertas: 3 problemas ativos, incluindo 1 críticos.",
               data, sql, None)
    else Returns ([], [], sql, None)
  else
    let '(method, params) := generate_api_call (w_now w) q in
    match method with
    | Some (_ :: _) =>
        let data : dict :=
          [ ("hosts"%string,
               VList [ host_row3 "web01.example.com" "Enabled";
                       host_row3 "web02.example.com" "Enabled";
                       host_row3 "db01.example.com" "Enabled" ]);
            ("count"%string, VInt 3) ] in
        Returns (lit "Encontrados 3 hosts no sistema.", data, None, None)
    | _ =>
        Returns (lit "Não consegui entender sua consulta. Pode reformular de outra forma?",
                 [], None, None)
    end
  end.

(** The answer of the route: a response, or the HTTP 500 raised from the
    [except] clause with its detail. *)
Inductive answer : Type :=
| Respond (r : ZabbiaResponse)
| Http500 (detail : str).

Definition process_query (w : World) (request : ZabbiaQuery) : answer :=
  match process_body w (query request) with
  | Raises e => Http500 (lit "Erro ao processar consulta: " ++ e)
  | Returns (response_text, data, sql, charts) =>
      let response_text :=
        if negb (str_eqb (w_environment w) (lit "production")) then
          response_text ++ lit "

Consulta processada em " ++ w_processing_time w ++ lit " segundos."
        else response_text in
      let conversation_id :=
        match request_conversation_id request with
        | Some (c :: id) => c :: id
        | _ => lit "zabbia-" ++ str_of_Z (w_time w)
        end in
      Respond (mkResponse response_text data sql charts (Some conversation_id))
  end.

End Api.
Export Api.

(* ================================================================== *)
(** ** The vocabulary of the specification *)

Module Spec.

(** The declaration order of the intents. *)
Definition canonical_order : list QueryIntent :=
  [ HIGH_CPU; MEMORY_USAGE; DISK_USAGE; HOST_STATUS; HOST_UPTIME;
    UNAVAILABLE_SERVICES; ALERT_SUMMARY; GRAPH_REQUEST; HOST_MAINTENANCE ].

(** The table as one sequence of (intent, pattern) pairs, intent by intent
    and pattern by pattern. *)
Definition flat_table : list (QueryIntent * regex) :=
  flat_map (fun entry => map (fun p => (fst entry, p)) (snd entry)) intent_patterns.

(** The classifier in the words of the specification: the intent of the
    first pair whose pattern matches somewhere in the text, and
    [GENERAL_QUERY] when there is none. *)
Definition classify_spec (text : str) : QueryIntent :=
  match find (fun ip => found (re_search (snd ip) text)) flat_table with
  | Some (intent, _) => intent
  | None => GENERAL_QUERY
  end.

(** Some pattern declared for the intent matches somewhere in the text. *)
Definition intent_matches (i : QueryIntent) (text : str) : bool :=
  existsb (fun ip => (intent_eqb (fst ip) i && found (re_search (snd ip) text))%bool)
    flat_table.

(** The position of an intent in a list of intents. *)
Fixpoint position (i : QueryIntent) (l : list QueryIntent) : nat :=
  match l with
  | [] => O
  | j :: l' => if intent_eqb j i then O else S (position i l')
  end.

Definition declared_before (i j : QueryIntent) : bool :=
  Nat.ltb (position i canonical_order) (position j canonical_order).

(** Period tokens: [^\d+[mhd]$] read as a match of the whole token. *)
Definition is_unit (c : char) : bool :=
  (char_eqb c "m" || char_eqb c "h" || char_eqb c "d")%bool.

Definition is_period_token (t : str) : bool :=
  match rev t with
  | u :: (d :: ds) => (is_unit u && forallb is_digit (d :: ds))%bool
  | _ => false
  end.

Definition token_digits (t : str) : str := removelast t.
Definition token_unit (t : str) : char := last t " ".

(** A decimal numeral without superfluous leading zeros. *)
Definition canonical_digits (ds : str) : bool :=
  match ds with
  | ["0"] => true
  | d :: _ => (is_digit d && negb (char_eqb d "0"))%bool
  | [] => false
  end.

Fixpoint skip_digits (s : str) : str :=
  match s with
  | c :: s' => if is_digit c then skip_digits s' else s
  | [] => []
  end.

(** The text starts with a run of digits followed by [m], [h] or [d]. *)
Definition has_period_prefix (t : str) : bool :=
  match t with
  | c :: _ =>
      (is_digit c &&
       match skip_digits t with
       | u :: _ => is_unit u
       | [] => false
       end)%bool
  | [] => false
  end.

Definition unit_seconds (u : char) : Z :=
  if char_eqb u "m" then 60%Z
  else if char_eqb u "h" then 3600%Z
  else 86400%Z.

(** The window of the last 24 hours. *)
Definition default_window (now : datetime) : TimeRange :=
  mkTimeRange (timestamp_int (now - 24 * 3600 * 1000000)%Z) (timestamp_int now)
    (lit "24h").

(** Host names: ASCII letters, digits, dot, dash and underscore. *)
Definition host_char (c : char) : bool :=
  (in_range 97 122 c || in_range 65 90 c || in_range 48 57 c
   || N.eqb (cp c) 46 || N.eqb (cp c) 45 || N.eqb (cp c) 95)%bool.



(** The host filter of the SQL statements. *)
Definition host_filter : str := lit "h.name LIKE :host_pattern".

(** The statement of each intent without a host filter. *)
Definition base_template (i : QueryIntent) : str :=
  match i with
  | HIGH_CPU => sql_high_cpu ++ sql_high_cpu_tail
  | MEMORY_USAGE => sql_memory_usage ++ sql_memory_usage_tail
  | HOST_STATUS => sql_host_status ++ lit " ORDER BY h.name;"
  | HOST_UPTIME => sql_host_uptime ++ lit " ORDER BY h.name;"
  | UNAVAILABLE_SERVICES => sql_unavailable_services ++ lit " ORDER BY t.lastchange DESC;"
  | ALERT_SUMMARY => sql_alert_summary ++ lit " ORDER BY p.clock DESC;"
  | _ => sql_generic ++ lit " ORDER BY h.name;"
  end.

(** The sentence that asks for a host. *)
Definition ask_for_host : str :=
  lit "Por favor, especifique qual host deseja colocar em manutenção.".

(** The sentence given when nothing was understood. *)
Definition not_understood : str :=
  lit "Não consegui entender sua consulta. Pode reformular de outra forma?".

(** The same world with another random generator. *)
Definition with_randint (w : World) (draws : nat -> Z) : World :=
  mkWorld (w_now w) (w_processing_time w) (w_time w) draws (w_environment w)
    (w_get_host_by_name w) (w_set_host_maintenance w).

(** A production world whose Zabbix client knows no host, at the instant
    [now], with every random draw equal to [draw]. *)
Definition sample_world (now : datetime) (draw : Z) : World :=
  mkWorld now (lit "0.00") (timestamp_int now) (fun _ => draw) (lit "production")
    (fun _ => Returns None) (fun _ _ _ => Returns None).

(** The class of the host pattern. *)
Definition host_class : list citem :=
  [CRange "a" "z"; CRange "A" "Z"; CRange "0" "9"; CChar "-"; CChar "_"; CChar "."].

Definition is_some {A : Type} (o : option A) : bool :=
  match o with
  | Some _ => true
  | None => false
  end.

(** The queries of the end-to-end scenarios, and a few more. *)
Definition scenario_1 : str :=
  lit "quais hosts estão com cpu acima de 90% nas últimas 3 horas".
Definition scenario_2 : str := lit "status dos hosts".
Definition scenario_3 : str := lit "colocar host app01 em manutenção por 2 horas".
Definition scenario_4 : str := lit "manutenção".
Definition tie_example : str := lit "status dos hosts com cpu alta".
Definition maintenance_without_host : str := lit "colocar em manutenção".
Definition general_example : str := lit "bom dia".
Definition graph_example : str := lit "gráfico de cpu".

(** Queries with a period that reaches behind the first year of [datetime]. *)
Definition maintenance_long_ago : str :=
  lit "colocar em manutenção últimos 800000 dias".
Definition general_long_ago : str := lit "bom dia últimos 800000 dias".

(** 2023-11-14 22:13:20 UTC *)
Definition sample_now : datetime := 1700000000000000%Z.

End Spec.
Export Spec.

(* ================================================================== *)
(** ** [api.py]: the license middleware *)

Module Middleware.

Local Open Scope string_scope.
Local Open Scope list_scope.

(** [str.lstrip], [str.rstrip] and [str.strip] without argument. *)
Fixpoint lstrip (s : str) : str :=
  match s with
  | c :: s' => if is_space c then lstrip s' else s
  | [] => []
  end.

Definition rstrip (s : str) : str := rev (lstrip (rev s)).

Definition strip (s : str) : str := rstrip (lstrip s).

(** What the middleware does with a request: hand it on, or answer with a
    status code and a detail. *)
Inductive verdict : Type :=
| CallNext
| Rejected (status_code : Z) (detail : str).

(** [path.startswith((...))] with a tuple of prefixes. *)
Definition starts_with_any (prefixes : list str) (path : str) : bool :=
  existsb (fun p => starts_with p path) prefixes.

(** [verify_license]: [is_development] is [settings.is_development] (of
    [backend/config.py]), [license_key] is
    [request.headers.get("X-License-Key")]. *)
Definition verify_license (is_development : bool) (path : str)
    (license_key : option str) : verdict :=
  if starts_with_any [lit "/docs"; lit "/redoc"; lit "/openapi.json"; lit "/status"] path
  then CallNext
  else if negb is_development then
    match license_key with
    | None => Rejected 401 (lit "Chave de licença não fornecida")
    | Some [] => Rejected 401 (lit "Chave de licença não fornecida")
    | Some key =>
        if str_eqb (strip key) []
        then Rejected 403 (lit "Chave de licença inválida")
        else CallNext
    end
  else CallNext.

End Middleware.
Export Middleware.

(* ================================================================== *)
(** ** [zabbix_api.py]: the client *)

Module Client.

Local Open Scope string_scope.
Local Open Scope list_scope.

(** [api_call] as the methods below use it, on "host.get" and on
    "maintenance.create".  An answer is the result of the call or the
    message of the [ZabbixAPIException] raised, the only exception
    [api_call] lets out.  The results are read as the Zabbix API documents
    them: a list of objects for "host.get"; for "maintenance.create" the
    "maintenanceids" of the object, a list of strings, when it has them. *)
Record ZabbixAPIClient : Type := mkClient {
  host_get : dict -> outcome (list dict);
  maintenance_create : dict -> outcome (option (list str))
}.

(** [d.update(updates)] *)
Definition dict_update (d updates : dict) : dict :=
  fold_left (fun acc kv => dict_set (fst kv) (snd kv) acc) updates d.

(** The parameters [get_hosts] sends; [filter_data] is [[]] for [None] and
    for the empty dictionary. *)
Definition get_hosts_params (filter_data : dict) : dict :=
  let params : dict :=
    [ ("output", VStr (lit "extend"));
      ("selectInterfaces",
         VList [ VStr (lit "ip"); VStr (lit "dns"); VStr (lit "useip");
                 VStr (lit "port"); VStr (lit "type") ]);
      ("selectGroups", VStr (lit "extend"));
      ("selectTags", VStr (lit "extend"));
      ("selectInventory", VBool true);
      ("sortfield", VStr (lit "name")) ] in
  match filter_data with
  | [] => params
  | _ :: _ => dict_update params filter_data
  end.

Definition get_hosts (client : ZabbixAPIClient) (filter_data : dict)
    : outcome (list dict) :=
  host_get client (get_hosts_params filter_data).

(** The parameters [get_host_by_name] sends. *)
Definition get_host_by_name_params (hostname : str) : dict :=
  [ ("output", VStr (lit "extend"));
    ("selectInterfaces", VStr (lit "extend"));
    ("selectGroups", VStr (lit "extend"));
    ("selectInventory", VBool true);
    ("searchWildcardsEnabled", VBool true);
    ("search", VDict [ ("name", VStr hostname) ]) ].

Definition get_host_by_name (client : ZabbixAPIClient) (hostname : str)
    : outcome (option dict) :=
  match host_get client (get_host_by_name_params hostname) with
  | Raises e => Raises e
  | Returns (first :: _) => Returns (Some first)
  | Returns [] => Returns None
  end.

(** The parameters [set_host_maintenance] sends.  [now] and [described] are
    its two readings of the clock; a single identifier is wrapped in a
    list. *)
Definition set_host_maintenance_params (now described : datetime)
    (hostids : value) (name : str) (duration type_ : Z) : dict :=
  let hostids :=
    match hostids with
    | VStr _ => VList [hostids]
    | _ => hostids
    end in
  let start_time := timestamp_int now in
  let end_time := (start_time + duration)%Z in
  [ ("name", VStr name);
    ("active_since", VInt start_time);
    ("active_till", VInt end_time);
    ("hostids", hostids);
    ("timeperiods",
       VList [ VDict [ ("timeperiod_type", VInt 0); ("period", VInt duration) ] ]);
    ("description",
       VStr (lit "Manutenção criada via Zabbia em " ++ strftime_full described));
    ("maintenance_type", VInt type_) ].

(** [set_host_maintenance]: the first identifier of the answer, [None] when
    the API refuses, a [KeyError] or an [IndexError] (with the text of
    [str(e)]) when the answer holds no identifier. *)
Definition set_host_maintenance (client : ZabbixAPIClient) (now described : datetime)
    (hostids : value) (name : str) (duration type_ : Z) : outcome (option str) :=
  match maintenance_create client
          (set_host_maintenance_params now described hostids name duration type_) with
  | Raises _ => Returns None
  | Returns None => Raises (lit "'maintenanceids'")
  | Returns (Some []) => Raises (lit "list index out of range")
  | Returns (Some (first :: _)) => Returns (Some first)
  end.

(** [range(lo, hi)] *)
Definition py_range (lo hi : Z) : list Z :=
  map (fun i => (lo + Z.of_nat i)%Z) (seq 0 (Z.to_nat (hi - lo))).

(** The parameters [get_problems] sends. *)
Definition get_problems_params (severity_from severity_till : option Z) : dict :=
  let params : dict :=
    [ ("output", VStr (lit "extend"));
      ("selectHosts", VList [ VStr (lit "hostid"); VStr (lit "name") ]);
      ("selectTags", VStr (lit "extend"));
      ("recent", VBool true);
      ("sortfield", VList [ VStr (lit "eventid") ]);
      ("sortorder", VStr (lit "DESC")) ] in
  match severity_from, severity_till with
  | None, None => params
  | _, _ =>
      let min_sev := match severity_from with Some s => s | None => 0%Z end in
      let max_sev := match severity_till with Some s => s | None => 5%Z end in
      dict_set "severities" (VList (map VInt (py_range min_sev (max_sev + 1)))) params
  end.

(** The counters of [get_dashboard_data], in the order of the dictionary. *)
Record severity_counts : Type := mkCounts {
  disaster : Z;
  high : Z;
  average : Z;
  warning : Z;
  info : Z;
  not_classified : Z
}.

(** One turn of the loop, on [sev = int(problem["severity"])]. *)
Definition count_problem (counts : severity_counts) (sev : Z) : severity_counts :=
  let '(mkCounts d h a w i n) := counts in
  if (sev =? 5)%Z then mkCounts (d + 1) h a w i n
  else if (sev =? 4)%Z then mkCounts d (h + 1) a w i n
  else if (sev =? 3)%Z then mkCounts d h (a + 1) w i n
  else if (sev =? 2)%Z then mkCounts d h a (w + 1) i n
  else if (sev =? 1)%Z then mkCounts d h a w (i + 1) n
  else mkCounts d h a w i (n + 1).

(** The loop over the problems, given by their severities. *)
Definition count_severities (severities : list Z) : severity_counts :=
  fold_left count_problem severities (mkCounts 0 0 0 0 0 0).

(** [get_dashboard_data] on the answers of its two calls: the hosts of
    [host.get] and the severities of the problems of [problem.get]. *)
Definition get_dashboard_data (hosts : list dict) (severities : list Z) : dict :=
  let c := count_severities severities in
  [ ("hosts_count", VInt (Z.of_nat (List.length hosts)));
    ("problems_count", VInt (Z.of_nat (List.length severities)));
    ("severity_counts",
       VDict [ ("disaster", VInt (disaster c));
               ("high", VInt (high c));
               ("average", VInt (average c));
               ("warning", VInt (warning c));
               ("info", VInt (info c));
               ("not_classified", VInt (not_classified c)) ]) ].

End Client.
Export Client.

(* ================================================================== *)
(** ** [api.py]: the [/maintenance] route *)

Module Routes.

Local Open Scope string_scope.
Local Open Scope list_scope.

Record MaintenanceRequest : Type := mkMaintenanceRequest {
  host_ids : list str;
  duration_minutes : Z;
  description : option str
}.

Record MaintenanceResponse : Type := mkMaintenanceResponse {
  maintenance_id : str;
  hosts : list str;
  start_time : str;
  end_time : str
}.

(** The answer of the route: the response, an [HTTPException] with its
    status and detail, or an exception the route does not handle. *)
Inductive maintenance_answer : Type :=
| Created (r : MaintenanceResponse)
| HttpError (status_code : Z) (detail : str)
| Unhandled.

(** The instants a [datetime] can hold: years 1 to 9999. *)
Definition valid_datetime (d : datetime) : bool :=
  ((-62135596800000000 <=? d) && (d <=? 253402300799999999))%Z%bool.

Definition pad6 (n : Z) : str :=
  repeat "0"%char (6 - List.length (str_of_Z n)) ++ str_of_Z n.

(** [d.isoformat()] *)
Definition isoformat (d : datetime) : str :=
  let '(y, m, dd) := civil_from_days ((d / 1000000) / 86400)%Z in
  let s := seconds_of_day d in
  let us := (d mod 1000000)%Z in
  pad4 y ++ "-"%char :: pad2 m ++ "-"%char :: pad2 dd ++ "T"%char ::
  pad2 (s / 3600) ++ ":"%char :: pad2 ((s / 60) mod 60) ++ ":"%char :: pad2 (s mod 60)
  ++ (if (us =? 0)%Z then [] else "."%char :: pad6 us).

(** The loop over [request.host_ids]: the names of the hosts found, as the
    API gave them, or the message of the [ZabbixAPIException] of a search,
    or [None] for the [KeyError] of a host without a name. *)
Fixpoint lookup_names (client : ZabbixAPIClient) (ids : list str)
    (host_names : list value) : outcome (option (list value)) :=
  match ids with
  | [] => Returns (Some host_names)
  | host_id :: ids' =>
      match get_hosts client [ ("filter", VDict [ ("hostid", VStr host_id) ]) ] with
      | Raises e => Raises e
      | Returns [] => lookup_names client ids' host_names
      | Returns (first :: _) =>
          match dict_get "name" first with
          | Some name => lookup_names client ids' (host_names ++ [name])
          | None => Returns None
          end
      end
  end.

(** The validation of [hosts: List[str]] by the response model. *)
Fixpoint as_strings (values : list value) : option (list str) :=
  match values with
  | [] => Some []
  | VStr s :: values' =>
      match as_strings values' with
      | Some rest => Some (s :: rest)
      | None => None
      end
  | _ :: _ => None
  end.

(** [create_maintenance]: [now] is the reading of the clock by the route,
    [clock] and [described] are the readings by the client. *)
Definition create_maintenance (client : ZabbixAPIClient) (now clock described : datetime)
    (request : MaintenanceRequest) : maintenance_answer :=
  match lookup_names client (host_ids request) [] with
  | Raises e => HttpError 500 (lit "Erro ao criar manutenção: " ++ e)
  | Returns None => Unhandled
  | Returns (Some host_names) =>
      let end_time := (now + timedelta_minutes (duration_minutes request))%Z in
      if negb (valid_datetime end_time) then Unhandled
      else
        match set_host_maintenance client clock described
                (VList (map VStr (host_ids request)))
                (lit "Manutenção via Zabbia API")
                (duration_minutes request * 60)%Z 0 with
        | Raises _ => Unhandled
        | Returns None => HttpError 500 (lit "Erro ao criar manutenção")
        | Returns (Some []) => HttpError 500 (lit "Erro ao criar manutenção")
        | Returns (Some id) =>
            match as_strings host_names with
            | None => Unhandled
            | Some names =>
                Created (mkMaintenanceResponse id names (isoformat now)
                           (isoformat end_time))
            end
        end
  end.

(** The world of the [/query] route with the client above: [clock] and
    [described] are the readings of the clock by the client. *)
Definition with_client (w : World) (client : ZabbixAPIClient)
    (clock described : datetime) : World :=
  mkWorld (w_now w) (w_processing_time w) (w_time w) (w_randint w) (w_environment w)
    (get_host_by_name client)
    (fun hostid name duration =>
       set_host_maintenance client clock described hostid name duration 0).

End Routes.
Export Routes.

(* ================================================================== *)
(** ** More vocabulary *)

Module Words.

(** The characters of a class that lists single characters only. *)
Fixpoint class_chars (items : list citem) : option (list char) :=
  match items with
  | [] => Some []
  | CChar c :: items' =>
      match class_chars items' with
      | Some cs => Some (c :: cs)
      | None => None
      end
  | _ => None
  end.

(** The words of an expression without repetition, when they can be listed. *)
Fixpoint finite_words (r : regex) : option (list str) :=
  match r with
  | Empty => Some [[]]
  | Lit c => Some [[c]]
  | Any => None
  | Class items =>
      match class_chars items with
      | Some cs => Some (map (fun c => [c]) cs)
      | None => None
      end
  | Cat r1 r2 =>
      match finite_words r1, finite_words r2 with
      | Some a, Some b => Some (flat_map (fun x => map (app x) b) a)
      | _, _ => None
      end
  | Alt r1 r2 =>
      match finite_words r1, finite_words r2 with
      | Some a, Some b => Some (a ++ b)
      | _, _ => None
      end
  | Opt r1 =>
      match finite_words r1 with
      | Some a => Some (a ++ [[]])
      | None => None
      end
  | Star _ => None
  | Group _ r1 => finite_words r1
  end.

(** The separators between a keyword and its value: [[:\s]]. *)
Definition is_separator (c : char) : bool := (char_eqb c ":" || is_space c)%bool.

(** Some digit of the text is followed by a percent sign or white space. *)
Fixpoint digit_then_terminator (t : str) : bool :=
  match t with
  | d :: ((c :: _) as t') =>
      (is_digit d && (char_eqb c "%" || is_space c) || digit_then_terminator t')%bool
  | _ => false
  end.

(** What follows the keyword in the period and duration patterns. *)
Definition amount_tail : regex :=
  Eval vm_compute in compile "[:\s]+(\d+)[:\s]*(minutos?|horas?|dias?|m|h|d)".

(** The unit words of those patterns. *)
Definition unit_words : list str :=
  [ lit "minutos"; lit "minuto"; lit "horas"; lit "hora"; lit "dias"; lit "dia";
    lit "m"; lit "h"; lit "d" ].

(** The unit a unit word stands for: its first letter. *)
Definition unit_of_word (w : str) : char := hd " " w.

(** Minutes per unit. *)
Definition unit_minutes (u : char) : Z :=
  if char_eqb u "m" then 1%Z
  else if char_eqb u "h" then 60%Z
  else 1440%Z.

(** A word would begin before the text [t] and end in it: some proper end
    of the word begins [t]. *)
Definition straddles (kw t : str) : bool :=
  existsb (fun j => starts_with (skipn j kw) t) (seq 1 (List.length kw - 1)).

(** The same for a word followed by a separator. *)
Definition straddles_separated (kw t : str) : bool :=
  existsb (fun j =>
             (starts_with (skipn j kw) t
              && match skipn (List.length kw - j) t with
                 | c :: _ => is_separator c
                 | [] => false
                 end)%bool)
          (seq 1 (List.length kw)).

(** The parts of the patterns of the extractors: the keywords, the unit
    words, and what follows the separators of the threshold pattern. *)
Definition host_keyword_re : regex :=
  Eval vm_compute in compile "(?:host|servidor[a]?|maquina)".
Definition period_keyword : regex :=
  Eval vm_compute in compile "(?:últim(?:as?|os?))".
Definition duration_keyword : regex :=
  Eval vm_compute in compile "(?:por|durante)".
Definition unit_alternatives : regex :=
  Eval vm_compute in compile "(?:minutos?|horas?|dias?|m|h|d)".
Definition threshold_keyword : regex :=
  Eval vm_compute in compile "(?:acima|maior|superior|mais)".
Definition threshold_tail : regex :=
  Eval vm_compute in compile "(?:de|que)?[:\s]*(\d+)[%\s]".


(** The intents the route answers with a statement. *)
Definition sql_intent (i : QueryIntent) : bool :=
  match i with
  | HIGH_CPU | MEMORY_USAGE | HOST_STATUS | HOST_UPTIME
  | UNAVAILABLE_SERVICES | ALERT_SUMMARY => true
  | _ => false
  end.




(** The text names a metric [generate_graph_data] knows. *)
Definition names_metric (text : str) : bool :=
  (contains (lit "cpu") text || contains (lit "memória") text
   || contains (lit "ram") text || contains (lit "disco") text)%bool.

(** The sum of the six counters. *)
Definition total (c : severity_counts) : Z :=
  (disaster c + high c + average c + warning c + info c + not_classified c)%Z.

(** How many problems have a given severity. *)
Definition occurrences (sev : Z) (severities : list Z) : Z :=
  Z.of_nat (List.length (filter (Z.eqb sev) severities)).

(** A key is blank when it holds white space only. *)
Definition blank (key : str) : bool := forallb is_space key.

(** A production world whose client answers [found] to the search of a host
    and [created] to the creation of a maintenance. *)
Definition client_world (found : outcome (option dict))
    (created : outcome (option str)) : World :=
  mkWorld sample_now (lit "0.00") (timestamp_int sample_now) (fun _ => 10%Z)
    (lit "production") (fun _ => found) (fun _ _ _ => created).

(** A client that knows one host, whatever the search, and creates the
    maintenance "7". *)
Definition sample_client : ZabbixAPIClient :=
  mkClient
    (fun _ => Returns [ [ ("hostid"%string, VStr (lit "10084"));
                          ("name"%string, VStr (lit "app01")) ] ])
    (fun _ => Returns (Some [ lit "7" ])).

(** A client whose API refuses every call. *)
Definition failing_client : ZabbixAPIClient :=
  mkClient (fun _ => Raises (lit "Erro na API Zabbix: Session terminated - re-login"))
           (fun _ => Raises (lit "Erro na API Zabbix: Session terminated - re-login")).

(** A production world whose client knows the host "10084" under every
    name and creates the maintenance "7". *)
Definition known_host_world : World :=
  client_world (Returns (Some [ ("hostid"%string, VStr (lit "10084")) ]))
    (Returns (Some (lit "7"))).

Definition chart_without_metric : str := lit "gráfico de memoria".
Definition threshold_at_end : str := lit "cpu acima de 90".
Definition months_example : str := lit "manutenção do host db01 por 2 meses".

End Words.
Export Words.

(* ================================================================== *)
(** * Properties *)

(** ** Tactics *)

(** Case analysis on the 256 characters. *)
Ltac each_char c :=
  let b0 := fresh "b" in let b1 := fresh "b" in let b2 := fresh "b" in
  let b3 := fresh "b" in let b4 := fresh "b" in let b5 := fresh "b" in
  let b6 := fresh "b" in let b7 := fresh "b" in
  destruct c as [b0 b1 b2 b3 b4 b5 b6 b7];
  destruct b0, b1, b2, b3, b4, b5, b6, b7.

(** Decide the comparisons of intents that are closed terms. *)
Ltac eval_intents :=
  repeat match goal with
         | |- context [intent_eqb ?a ?b] =>
             let v := eval vm_compute in (intent_eqb a b) in
             change (intent_eqb a b) with v
         end;
  cbv iota.


(** ** Strings *)

Lemma char_eqb_eq (a b : char) : char_eqb a b = true -> a = b.
Proof. unfold char_eqb. intro H. now apply Ascii.eqb_eq. Qed.

Lemma starts_with_app (p s : str) : starts_with p (p ++ s) = true.
Proof.
  induction p as [ | c p IH]; [reflexivity | ].
  cbn [app starts_with]. unfold char_eqb. now rewrite Ascii.eqb_refl.
Qed.

Lemma starts_with_self (p : str) : starts_with p p = true.
Proof. rewrite <- (List.app_nil_r p) at 2. apply starts_with_app. Qed.


Lemma lower_char_digit (c : char) : is_digit c = true -> lower_char c = c.
Proof. each_char c; vm_compute; intro H; (reflexivity || discriminate H). Qed.

Lemma lower_digits (ds : str) :
  Forall (fun c => is_digit c = true) ds -> lower ds = ds.
Proof.
  induction 1 as [ | d ds Hd F IH]; cbn [lower map]; [reflexivity | ].
  rewrite (lower_char_digit d Hd). f_equal. exact IH.
Qed.

Lemma uint_chars_of_chars (ds : str) :
  Forall (fun c => is_digit c = true) ds -> uint_chars (uint_of_chars ds) = ds.
Proof.
  induction 1 as [ | d ds Hd F IH]; [reflexivity | ].
  revert Hd. each_char d; intro Hd; try discriminate Hd;
    cbn [uint_of_chars uint_chars]; now rewrite IH.
Qed.

Lemma unorm_canonical (ds : str) :
  canonical_digits ds = true ->
  Decimal.unorm (uint_of_chars ds) = uint_of_chars ds.
Proof.
  destruct ds as [ | d ds]; [discriminate | ].
  each_char d; try (cbn; intro H; discriminate H).
  all: try (intros _; reflexivity).
  destruct ds; [reflexivity | cbn; intro H; discriminate H].
Qed.

(** Rendering the value of a canonical numeral gives the numeral back. *)
Lemma str_of_int_canonical (ds : str) :
  Forall (fun c => is_digit c = true) ds -> canonical_digits ds = true ->
  str_of_N (int_of_digits ds) = ds.
Proof.
  intros F C. unfold str_of_N, int_of_digits.
  rewrite DecimalN.Unsigned.to_of, (unorm_canonical ds C).
  now apply uint_chars_of_chars.
Qed.

(** ** The matcher *)

Lemma consumed_app (w s' : str) : consumed (w ++ s') s' = w.
Proof.
  unfold consumed. rewrite List.length_app.
  replace (List.length w + List.length s' - List.length s') with (List.length w) by lia.
  rewrite firstn_app, Nat.sub_diag, firstn_all. simpl. now rewrite List.app_nil_r.
Qed.

Section Matcher.

Variable A : Type.

(** The matcher only succeeds on a match: what it read is a word of the
    expression, and the continuation succeeded on what was left. *)
Lemma run_sound (r : regex) :
  forall (s : str) (cs : captures) (k : str -> captures -> option A) (x : A),
    run r s cs k = Some x ->
    exists w s' cs', s = w ++ s' /\ matches r w cs cs' /\ k s' cs' = Some x.
Proof.
  induction r as [ | c | | items | r1 IH1 r2 IH2 | r1 IH1 r2 IH2 | r1 IH1 | r1 IH1 | n r1 IH1 ];
    intros s cs k x H; cbn [run] in H.
  - exists [], s, cs. repeat split; [constructor | assumption].
  - destruct s as [ | a s']; [discriminate | ].
    destruct (char_eqb c a) eqn:E; [ | discriminate].
    apply char_eqb_eq in E. subst a.
    exists [c], s', cs. repeat split; [constructor | assumption].
  - destruct s as [ | a s']; [discriminate | ].
    destruct (any_accepts a) eqn:E; [ | discriminate].
    exists [a], s', cs. repeat split; [now constructor | assumption].
  - destruct s as [ | a s']; [discriminate | ].
    destruct (class_accepts items a) eqn:E; [ | discriminate].
    exists [a], s', cs. repeat split; [now constructor | assumption].
  - apply IH1 in H. destruct H as (w1 & s1 & cs1 & -> & M1 & H).
    apply IH2 in H. destruct H as (w2 & s2 & cs2 & -> & M2 & H).
    exists (w1 ++ w2), s2, cs2. rewrite List.app_assoc.
    repeat split; [econstructor; eassumption | assumption].
  - destruct (run r1 s cs k) as [y | ] eqn:E.
    + inversion H; subst y. apply IH1 in E.
      destruct E as (w & s' & cs' & -> & M & K).
      exists w, s', cs'. repeat split; [now apply M_AltL | assumption].
    + apply IH2 in H. destruct H as (w & s' & cs' & -> & M & K).
      exists w, s', cs'. repeat split; [now apply M_AltR | assumption].
  - destruct (run r1 s cs k) as [y | ] eqn:E.
    + inversion H; subst y. apply IH1 in E.
      destruct E as (w & s' & cs' & -> & M & K).
      exists w, s', cs'. repeat split; [now apply M_OptSome | assumption].
    + exists [], s, cs. repeat split; [apply M_OptNone | assumption].
  - revert H. generalize (List.length s) at 1. intro fuel.
    revert s cs. induction fuel as [ | fuel IHf]; intros s cs H.
    + exists [], s, cs. repeat split; [apply M_StarNil | assumption].
    + match type of H with
      | match ?e with _ => _ end = _ => destruct e as [y | ] eqn:E
      end.
      * inversion H; subst y. apply IH1 in E.
        destruct E as (w1 & s1 & cs1 & -> & M1 & K).
        destruct (Nat.ltb (List.length s1) (List.length (w1 ++ s1))); [ | discriminate].
        apply IHf in K. destruct K as (w2 & s2 & cs2 & -> & M2 & K).
        exists (w1 ++ w2), s2, cs2. rewrite List.app_assoc.
        repeat split; [econstructor; eassumption | assumption].
      * exists [], s, cs. repeat split; [apply M_StarNil | assumption].
  - apply IH1 in H. destruct H as (w & s' & cs' & -> & M & K).
    rewrite consumed_app in K.
    exists w, s', ((n, w) :: cs'). repeat split; [now constructor | assumption].
Qed.

Lemma run_star_class_cons (items : list citem) (c : char) (s : str)
    (cs : captures) (k : str -> captures -> option A) :
  run (Star (Class items)) (c :: s) cs k =
  if class_accepts items c then
    match run (Star (Class items)) s cs k with
    | Some x => Some x
    | None => k (c :: s) cs
    end
  else k (c :: s) cs.
Proof.
  cbn [run List.length]. destruct (class_accepts items c); [ | reflexivity].
  assert (L : Nat.ltb (List.length s) (S (List.length s)) = true)
    by (apply Nat.ltb_lt; lia).
  rewrite L. reflexivity.
Qed.

Lemma run_star_nil (r : regex) (cs : captures) (k : str -> captures -> option A) :
  run (Star r) [] cs k = k [] cs.
Proof. reflexivity. Qed.

(** A starred class reads the whole run of its characters first. *)
Lemma run_star_greedy (items : list citem) (ds t : str) (cs : captures)
    (k : str -> captures -> option A) (x : A) :
  Forall (fun c => class_accepts items c = true) ds ->
  (forall c t', t = c :: t' -> class_accepts items c = false) ->
  k t cs = Some x ->
  run (Star (Class items)) (ds ++ t) cs k = Some x.
Proof.
  intros F T K. induction F as [ | d ds Hd F IH]; cbn [app].
  - destruct t as [ | c t'].
    + now rewrite run_star_nil.
    + rewrite run_star_class_cons, (T c t' eq_refl). exact K.
  - rewrite run_star_class_cons, Hd, IH. reflexivity.
Qed.

End Matcher.

Lemma re_match_sound (r : regex) (s : str) (cs : captures) :
  re_match r s = Some cs -> exists w s', s = w ++ s' /\ matches r w [] cs.
Proof.
  unfold re_match. intro H. apply run_sound in H.
  destruct H as (w & s' & cs' & E & M & K). inversion K; subst cs'.
  now exists w, s'.
Qed.

Lemma re_search_sound (r : regex) (s : str) (cs : captures) :
  re_search r s = Some cs ->
  exists pre w s', s = pre ++ w ++ s' /\ matches r w [] cs.
Proof.
  induction s as [ | a s IH]; cbn [re_search]; intro H.
  - destruct (re_match r []) as [cs0 | ] eqn:E; [ | discriminate].
    inversion H; subst cs0. apply re_match_sound in E.
    destruct E as (w & s' & E & M). now exists [], w, s'.
  - destruct (re_match r (a :: s)) as [cs0 | ] eqn:E.
    + inversion H; subst cs0. apply re_match_sound in E.
      destruct E as (w & s' & E & M). now exists [], w, s'.
    + apply IH in H. destruct H as (pre & w & s' & -> & M).
      now exists (a :: pre), w, s'.
Qed.

Lemma matches_cat_inv r1 r2 w cs cs2 :
  matches (Cat r1 r2) w cs cs2 ->
  exists w1 w2 cs1, w = w1 ++ w2 /\ matches r1 w1 cs cs1 /\ matches r2 w2 cs1 cs2.
Proof. intro M. inversion M; subst. now exists w1, w2, cs1. Qed.

Lemma matches_group_inv n r w cs cs' :
  matches (Group n r) w cs cs' ->
  exists cs1, cs' = (n, w) :: cs1 /\ matches r w cs cs1.
Proof. intro M. inversion M; subst. now exists cs1. Qed.

Lemma matches_class_inv items w cs cs' :
  matches (Class items) w cs cs' ->
  exists c, w = [c] /\ class_accepts items c = true /\ cs' = cs.
Proof. intro M. inversion M; subst. now exists c. Qed.

Lemma matches_star_class items w cs cs' :
  matches (Star (Class items)) w cs cs' ->
  Forall (fun c => class_accepts items c = true) w /\ cs' = cs.
Proof.
  intro M. remember (Star (Class items)) as r eqn:R.
  induction M; try discriminate.
  - split; [constructor | reflexivity].
  - inversion R; subst r. apply matches_class_inv in M1.
    destruct M1 as (c & -> & Hc & ->).
    destruct (IHM2 eq_refl) as [F ->].
    split; [now constructor | reflexivity].
Qed.

(** One or more characters of a class, as [[...]+] reads them. *)
Lemma matches_plus_class items w cs cs' :
  matches (Plus (Class items)) w cs cs' ->
  w <> [] /\ Forall (fun c => class_accepts items c = true) w /\ cs' = cs.
Proof.
  unfold Plus. intro M. apply matches_cat_inv in M.
  destruct M as (w1 & w2 & cs1 & -> & M1 & M2).
  apply matches_class_inv in M1. destruct M1 as (c & -> & Hc & ->).
  apply matches_star_class in M2. destruct M2 as [F ->].
  repeat split; [discriminate | now constructor].
Qed.

(** Every pattern of the processor is well formed. *)
Lemma patterns_compiled :
  Forall (fun r => r <> Class [])
    (period_token_re :: host_pattern :: threshold_pattern :: period_pattern
       :: duration_pattern :: map snd flat_table).
Proof.
  unfold flat_table, intent_patterns. cbn [flat_map map app fst snd].
  repeat first [ apply Forall_nil | apply Forall_cons | discriminate ].
Qed.

(** ** The host pattern *)

Lemma host_class_char (c : char) : class_accepts host_class c = host_char c.
Proof. each_char c; vm_compute; reflexivity. Qed.



Lemma host_pattern_group (w : str) (cs : captures) :
  matches host_pattern w [] cs ->
  exists h, group 1 cs = Some h /\ h <> [] /\ Forall (fun c => host_char c = true) h.
Proof.
  unfold host_pattern. intro M.
  apply matches_cat_inv in M. destruct M as (w1 & w2 & cs1 & -> & _ & M).
  apply matches_cat_inv in M. destruct M as (w3 & w4 & cs2 & -> & _ & M).
  apply matches_group_inv in M. destruct M as (cs3 & -> & M).
  apply (matches_plus_class host_class) in M. destruct M as (N & F & _).
  exists w4. repeat split; [assumption | ].
  eapply Forall_impl; [ | exact F]. intros c Hc. now rewrite <- host_class_char.
Qed.

(** What [extract_host] returns is never empty and made of host characters. *)
Lemma extract_host_some (q h : str) :
  extract_host q = Some h -> h <> [] /\ Forall (fun c => host_char c = true) h.
Proof.
  unfold extract_host. destruct (re_search host_pattern (lower q)) as [m | ] eqn:E;
    [ | discriminate].
  intro H. inversion H; subst h. apply re_search_sound in E.
  destruct E as (pre & w & s' & _ & M). apply host_pattern_group in M.
  destruct M as (h & G & N & F). unfold group_text. rewrite G. now split.
Qed.




(** ** Period tokens *)

Lemma digit_class (c : char) : class_accepts [CDigit] c = is_digit c.
Proof. cbn. apply orb_false_r. Qed.

Lemma unit_class (c : char) :
  class_accepts [CChar "d"; CChar "h"; CChar "m"] c = is_unit c.
Proof.
  unfold is_unit, class_accepts. cbn [existsb item_accepts]. unfold char_eqb.
  rewrite (Ascii.eqb_sym "d" c), (Ascii.eqb_sym "h" c), (Ascii.eqb_sym "m" c).
  destruct (Ascii.eqb c "d"), (Ascii.eqb c "h"), (Ascii.eqb c "m"); reflexivity.
Qed.

Lemma is_unit_cases (u : char) : is_unit u = true -> u = "m" \/ u = "h" \/ u = "d".
Proof.
  unfold is_unit. intro H.
  apply orb_true_iff in H. destruct H as [H | H].
  - apply orb_true_iff in H. destruct H as [H | H]; apply char_eqb_eq in H; auto.
  - apply char_eqb_eq in H; auto.
Qed.

Lemma is_unit_not_digit (u : char) : is_unit u = true -> is_digit u = false.
Proof. intro H. destruct (is_unit_cases u H) as [-> | [-> | ->]]; reflexivity. Qed.

Lemma lower_token (ds : str) (u : char) :
  Forall (fun c => is_digit c = true) ds -> is_unit u = true ->
  lower (ds ++ [u]) = ds ++ [u].
Proof.
  intros F U. unfold lower. rewrite map_app. fold (lower ds).
  rewrite (lower_digits ds F). f_equal.
  destruct (is_unit_cases u U) as [-> | [-> | ->]]; reflexivity.
Qed.

(** The token pattern on a run of digits followed by a unit. *)
Lemma re_match_period_token (ds : str) (u : char) (rest : str) :
  ds <> [] -> Forall (fun c => is_digit c = true) ds -> is_unit u = true ->
  re_match period_token_re (ds ++ u :: rest) = Some [(2, [u]); (1, ds)].
Proof.
  intros N F U. destruct ds as [ | d ds]; [now elim N | ].
  inversion F as [ | ? ? Hd F']; subst.
  unfold re_match, period_token_re. cbn [run app].
  rewrite digit_class, Hd.
  apply run_star_greedy.
  - eapply Forall_impl; [ | exact F']. intros c Hc. now rewrite digit_class.
  - intros c t' E. inversion E; subst c t'. rewrite digit_class.
    now apply is_unit_not_digit.
  - rewrite unit_class, U.
    change (d :: ds ++ u :: rest) with ((d :: ds) ++ u :: rest).
    rewrite consumed_app.
    change (u :: rest) with ([u] ++ rest). rewrite consumed_app. reflexivity.
Qed.

(** Conversely a match of the token pattern shows such a prefix. *)
Lemma re_match_period_token_inv (t : str) (cs : captures) :
  re_match period_token_re t = Some cs ->
  exists ds u rest, t = ds ++ u :: rest /\ ds <> [] /\
    Forall (fun c => is_digit c = true) ds /\ is_unit u = true.
Proof.
  intro H. apply re_match_sound in H. destruct H as (w & s' & -> & M).
  unfold period_token_re in M.
  apply matches_cat_inv in M. destruct M as (w1 & w2 & cs1 & -> & M1 & M2).
  apply matches_group_inv in M1. destruct M1 as (cs2 & -> & M1).
  apply (matches_plus_class [CDigit]) in M1. destruct M1 as (N & F & _).
  apply matches_group_inv in M2. destruct M2 as (cs3 & -> & M2).
  apply matches_class_inv in M2. destruct M2 as (u & -> & U & _).
  exists w1, u, s'. rewrite <- List.app_assoc. repeat split; try assumption.
  - eapply Forall_impl; [ | exact F]. intros c Hc. now rewrite <- digit_class.
  - now rewrite <- unit_class.
Qed.

Lemma skip_digits_app (ds : str) (u : char) (rest : str) :
  Forall (fun c => is_digit c = true) ds -> is_digit u = false ->
  skip_digits (ds ++ u :: rest) = u :: rest.
Proof.
  intros F U. induction F as [ | d ds Hd F IH]; cbn [app skip_digits].
  - now rewrite U.
  - now rewrite Hd.
Qed.

Lemma period_prefix_of_match (t : str) (cs : captures) :
  re_match period_token_re t = Some cs -> has_period_prefix t = true.
Proof.
  intro H. apply re_match_period_token_inv in H.
  destruct H as (ds & u & rest & -> & N & F & U).
  unfold has_period_prefix. rewrite (skip_digits_app ds u rest F (is_unit_not_digit u U)).
  destruct ds as [ | d ds]; [now elim N | ]. inversion F; subst.
  cbn [app]. rewrite U. now apply andb_true_iff.
Qed.

Lemma period_token_parts (t : str) :
  is_period_token t = true ->
  exists ds u, t = ds ++ [u] /\ ds <> [] /\
    Forall (fun c => is_digit c = true) ds /\ is_unit u = true /\
    token_digits t = ds /\ token_unit t = u.
Proof.
  unfold is_period_token, token_digits, token_unit. intro H.
  destruct (rev t) as [ | u [ | d ds]] eqn:R; try discriminate H.
  apply andb_true_iff in H. destruct H as [U D].
  assert (E : t = rev (d :: ds) ++ [u]).
  { rewrite <- (rev_involutive t), R. reflexivity. }
  exists (rev (d :: ds)), u. rewrite E.
  rewrite removelast_last, last_last. repeat split; try assumption.
  - intro Z. apply (f_equal (@List.length char)) in Z.
    rewrite length_rev in Z. discriminate Z.
  - apply Forall_rev. apply Forall_forall. intros c Hc.
    rewrite forallb_forall in D. now apply D.
Qed.

(** The window of a token: its magnitude in decimal and its unit. *)
Lemma from_period_token (now : datetime) (ds : str) (u : char) :
  ds <> [] -> Forall (fun c => is_digit c = true) ds -> is_unit u = true ->
  from_period now (ds ++ [u]) =
  mkTimeRange
    (timestamp_int (now - Z.of_N (int_of_digits ds) * unit_seconds u * 1000000)%Z)
    (timestamp_int now)
    (str_of_N (int_of_digits ds) ++ [u]).
Proof.
  intros N F U. unfold from_period.
  rewrite (lower_token ds u F U), (re_match_period_token ds u [] N F U).
  cbn [group_text group Nat.eqb].
  destruct (is_unit_cases u U) as [-> | [-> | ->]];
    cbn [str_eqb lit decode list_ascii_of_string]; reflexivity.
Qed.

Lemma unit_seconds_bound (u : char) : (60 <= unit_seconds u)%Z.
Proof.
  unfold unit_seconds. destruct (char_eqb u "m"); [lia | ].
  destruct (char_eqb u "h"); lia.
Qed.

(** ** The classifier *)

Lemma intent_eqb_eq (a b : QueryIntent) : intent_eqb a b = true -> a = b.
Proof. destruct a, b; vm_compute; intro H; (reflexivity || discriminate H). Qed.

Lemma intent_eqb_refl (a : QueryIntent) : intent_eqb a a = true.
Proof. destruct a; vm_compute; reflexivity. Qed.

(** The two loops of [detect_intent] find the first matching pair of the
    flattened table. *)
Lemma first_intent_find (table : list (QueryIntent * list regex)) (text : str) :
  first_intent table text =
  match find (fun ip => found (re_search (snd ip) text))
          (flat_map (fun entry => map (fun p => (fst entry, p)) (snd entry)) table) with
  | Some (intent, _) => intent
  | None => GENERAL_QUERY
  end.
Proof.
  induction table as [ | [intent patterns] rest IH]; [reflexivity | ].
  cbn [first_intent flat_map fst snd]. rewrite IH. clear IH.
  induction patterns as [ | p ps IHp]; [reflexivity | ].
  cbn [any_pattern map app find snd].
  destruct (found (re_search p text)); [reflexivity | exact IHp].
Qed.

Section FirstOfSorted.

Variable f : QueryIntent * regex -> bool.

(** In a table laid out in declaration order, the first hit is declared no
    later than any other hit. *)
Lemma find_first_sorted (l : list (QueryIntent * regex)) :
  StronglySorted (fun a b => position (fst a) canonical_order
                             <= position (fst b) canonical_order) l ->
  forall ip, In ip l -> f ip = true ->
  exists ip0, find f l = Some ip0 /\ f ip0 = true /\
    position (fst ip0) canonical_order <= position (fst ip) canonical_order.
Proof.
  induction 1 as [ | a l S IH F]; intros ip I H; [contradiction | ].
  cbn [find]. destruct (f a) eqn:Fa.
  - exists a. repeat split; [assumption | ].
    destruct I as [-> | I]; [lia | ].
    rewrite Forall_forall in F. now apply F.
  - destruct I as [-> | I]; [congruence | ]. now apply IH.
Qed.

End FirstOfSorted.

Lemma flat_table_sorted :
  StronglySorted (fun a b => position (fst a) canonical_order
                             <= position (fst b) canonical_order) flat_table.
Proof.
  unfold flat_table, intent_patterns. cbn [flat_map map app fst snd].
  repeat first [ apply SSorted_nil | apply SSorted_cons
               | apply Forall_nil | apply Forall_cons | (vm_compute; lia) ].
Qed.

Lemma flat_table_declared :
  Forall (fun ip => position (fst ip) canonical_order < 9) flat_table.
Proof.
  unfold flat_table, intent_patterns. cbn [flat_map map app fst snd].
  repeat first [ apply Forall_nil | apply Forall_cons | (vm_compute; lia) ].
Qed.

Lemma position_inj (a b : QueryIntent) :
  position a canonical_order < 9 ->
  position a canonical_order = position b canonical_order -> a = b.
Proof.
  destruct a, b; vm_compute; intros H E;
    first [ reflexivity | discriminate E | lia ].
Qed.

Lemma detect_intent_find (q : str) :
  detect_intent q =
  match find (fun ip => found (re_search (snd ip) (lower q))) flat_table with
  | Some (intent, _) => intent
  | None => GENERAL_QUERY
  end.
Proof. unfold detect_intent. apply first_intent_find. Qed.

Lemma intent_matches_hit (i : QueryIntent) (text : str) :
  intent_matches i text = true ->
  exists p, In (i, p) flat_table /\ found (re_search p text) = true.
Proof.
  unfold intent_matches. intro H. apply existsb_exists in H.
  destruct H as ([j p] & I & H). cbn [fst snd] in H.
  apply andb_true_iff in H. destruct H as [E F].
  apply intent_eqb_eq in E. subst j. now exists p.
Qed.

(** The classifier answers with the earliest declared intent that matches. *)
Lemma detect_intent_earliest (q : str) (i : QueryIntent) :
  intent_matches i (lower q) = true ->
  intent_matches (detect_intent q) (lower q) = true /\
  position (detect_intent q) canonical_order <= position i canonical_order /\
  position (detect_intent q) canonical_order < 9.
Proof.
  intro H. apply intent_matches_hit in H. destruct H as (p & I & F).
  destruct (find_first_sorted (fun ip => found (re_search (snd ip) (lower q)))
              flat_table flat_table_sorted (i, p) I F) as ([i0 p0] & E & F0 & L).
  rewrite detect_intent_find, E. cbn [fst snd] in *.
  apply find_some in E. destruct E as [I0 _].
  repeat split; [ | exact L | ].
  - unfold intent_matches. apply existsb_exists. exists (i0, p0).
    split; [assumption | ]. cbn [fst snd]. now rewrite intent_eqb_refl, F0.
  - pose proof flat_table_declared as D. rewrite Forall_forall in D.
    exact (D (i0, p0) I0).
Qed.

(** ** The SQL synthesizer *)



Lemma base_template_no_filter (i : QueryIntent) :
  contains host_filter (base_template i) = false.
Proof. destruct i; vm_compute; reflexivity. Qed.

Lemma scenario_1_extractions :
  detect_intent scenario_1 = HIGH_CPU /\
  extract_host scenario_1 = None /\
  extract_threshold scenario_1 80 = 90%Z /\
  period_token scenario_1 = lit "3" ++ ["h"].
Proof.
  split; [vm_compute; reflexivity | ].
  split; [vm_compute; reflexivity | ].
  split; vm_compute; reflexivity.
Qed.

(** ** The route *)

Lemma draws_agree (d1 d2 : nat -> Z) :
  (forall i, i < 12 -> d1 i = d2 i) ->
  map (fun i => VInt (d1 i)) (seq 0 12) = map (fun i => VInt (d2 i)) (seq 0 12).
Proof.
  intro H. apply map_ext_in. intros i I. apply in_seq in I.
  rewrite H; [reflexivity | lia].
Qed.

(** ** The examples of the specification *)

Example extract_threshold_examples :
  extract_threshold (lit "cpu acima de 90%") 80 = 90%Z /\
  extract_threshold (lit "cpu alta") 80 = 80%Z.
Proof. split; vm_compute; reflexivity. Qed.

Example extract_duration_examples :
  extract_duration (lit "por 2 horas") 60 = 120%Z /\
  extract_duration (lit "sem duração") 60 = 60%Z.
Proof. split; vm_compute; reflexivity. Qed.

Example scenario_2_host_status :
  detect_intent scenario_2 = HOST_STATUS /\
  extract_host scenario_2 = None /\
  fst (generate_sql sample_now scenario_2) = base_template HOST_STATUS.
Proof.
  split; [vm_compute; reflexivity | ].
  split; vm_compute; reflexivity.
Qed.

Example scenario_3_extractions :
  detect_intent scenario_3 = HOST_MAINTENANCE /\
  extract_host scenario_3 = Some (lit "app01") /\
  extract_duration scenario_3 60 = 120%Z.
Proof.
  split; [vm_compute; reflexivity | ].
  split; vm_compute; reflexivity.
Qed.

(** The bare word of scenario 4 matches no maintenance pattern: it is a
    general query, answered as one. *)
Example scenario_4_general_query :
  detect_intent scenario_4 = GENERAL_QUERY /\
  process_query (sample_world sample_now 10) (mkQuery scenario_4 None) =
    Respond (mkResponse not_understood [] None None (Some (lit "zabbia-1700000000"))).
Proof. split; vm_compute; reflexivity. Qed.

(* ================================================================== *)
(** * The claims *)

(** ** C1 *)

(** C1, as stated: on scenario 1 the context of the statement would hold a
    [from_time] entry next to the threshold.  It does not. *)
Lemma C1_counterexample :
  ~ (detect_intent scenario_1 = HIGH_CPU /\
     extract_threshold scenario_1 80 = 90%Z /\
     time_period (extract_time_range sample_now scenario_1) = lit "3h" /\
     dict_get "threshold" (snd (generate_sql sample_now scenario_1)) = Some (VInt 90) /\
     dict_has "from_time" (snd (generate_sql sample_now scenario_1)) = true /\
     contains host_filter (fst (generate_sql sample_now scenario_1)) = false).
Proof.
  intros (_ & _ & _ & _ & H & _). vm_compute in H. discriminate H.
Qed.

(** C1 (amended): for "quais hosts estão com cpu acima de 90% nas últimas 3
    horas" the intent is HIGH_CPU, the threshold 90, the period token "3h",
    and the window runs from three hours before now to now under the label
    "3h"; no host is extracted.  The statement is the HIGH_CPU template
    without a host filter; it mentions the placeholder [:from_time], and the
    context holds exactly the entries intent, query, time_range (the
    window) and threshold (90): the instants travel in [time_range], there
    is no [from_time] entry. *)
Theorem C1_scenario_high_cpu (now : datetime) :
  detect_intent scenario_1 = HIGH_CPU /\
  extract_threshold scenario_1 80 = 90%Z /\
  period_token scenario_1 = lit "3h" /\
  extract_time_range now scenario_1 =
    mkTimeRange (timestamp_int (now - 3 * 3600 * 1000000)%Z) (timestamp_int now)
      (lit "3h") /\
  extract_host scenario_1 = None /\
  fst (generate_sql now scenario_1) = base_template HIGH_CPU /\
  snd (generate_sql now scenario_1) =
    [ ("intent"%string, VStr (lit "high_cpu"));
      ("query"%string, VStr scenario_1);
      ("time_range"%string, VTime (extract_time_range now scenario_1));
      ("threshold"%string, VInt 90) ] /\
  dict_has "from_time" (snd (generate_sql now scenario_1)) = false /\
  contains (lit ":from_time") (fst (generate_sql now scenario_1)) = true /\
  contains host_filter (fst (generate_sql now scenario_1)) = false.
Proof.
  destruct scenario_1_extractions as (I & H & T & P).
  assert (R : extract_time_range now scenario_1 =
              mkTimeRange (timestamp_int (now - 3 * 3600 * 1000000)%Z)
                (timestamp_int now) (lit "3h")).
  { unfold extract_time_range. rewrite P.
    rewrite from_period_token; [reflexivity | discriminate | | reflexivity].
    repeat constructor. }
  assert (G : generate_sql now scenario_1 =
              (base_template HIGH_CPU,
               [ ("intent"%string, VStr (lit "high_cpu"));
                 ("query"%string, VStr scenario_1);
                 ("time_range"%string, VTime (extract_time_range now scenario_1));
                 ("threshold"%string, VInt 90) ])).
  { unfold generate_sql. rewrite I, H, T. eval_intents.
    cbn [add_host_filter]. generalize (extract_time_range now scenario_1).
    intro tr. unfold base_template. reflexivity. }
  rewrite G. cbn [fst snd].
  split; [exact I | ]. split; [exact T | ]. split; [exact P | ].
  split; [exact R | ]. split; [exact H | ]. split; [reflexivity | ].
  split; [reflexivity | ].
  split; [generalize (extract_time_range now scenario_1); intro tr;
          vm_compute; reflexivity | ].
  split; [vm_compute; reflexivity | apply base_template_no_filter].
Qed.

(** ** C2 *)

(** C2: the table is declared in the order HIGH_CPU, MEMORY_USAGE,
    DISK_USAGE, HOST_STATUS, HOST_UPTIME, UNAVAILABLE_SERVICES,
    ALERT_SUMMARY, GRAPH_REQUEST, HOST_MAINTENANCE; [detect_intent] answers
    with the intent of the first pattern, intent by intent and pattern by
    pattern, that matches somewhere in the lowered text, and with
    GENERAL_QUERY when none does.  So an intent that matches while none
    declared before it does is the answer, and when two intents match the
    answer is never the later one: it is declared before it. *)
Theorem C2_first_match_in_declaration_order :
  map fst intent_patterns = canonical_order /\
  (forall q, detect_intent q = classify_spec (lower q)) /\
  (forall q i,
     intent_matches i (lower q) = true ->
     (forall j, declared_before j i = true -> intent_matches j (lower q) = false) ->
     detect_intent q = i) /\
  (forall q i j,
     intent_matches i (lower q) = true ->
     intent_matches j (lower q) = true ->
     declared_before i j = true ->
     declared_before (detect_intent q) j = true /\ detect_intent q <> j).
Proof.
  split; [reflexivity | ]. split; [ | split].
  - intro q. unfold classify_spec. apply detect_intent_find.
  - intros q i Mi Hbefore.
    destruct (detect_intent_earliest q i Mi) as (M0 & L & D).
    apply position_inj; [assumption | ].
    destruct (Nat.eq_dec (position (detect_intent q) canonical_order)
                (position i canonical_order)) as [E | NE]; [assumption | ].
    assert (B : declared_before (detect_intent q) i = true).
    { unfold declared_before. apply Nat.ltb_lt. lia. }
    rewrite (Hbefore _ B) in M0. discriminate M0.
  - intros q i j Mi _ B.
    destruct (detect_intent_earliest q i Mi) as (_ & L & _).
    unfold declared_before in *. apply Nat.ltb_lt in B.
    split; [apply Nat.ltb_lt; lia | ].
    intro E. rewrite E in L. lia.
Qed.

(** "status dos hosts com cpu alta" matches HIGH_CPU and HOST_STATUS. *)
Lemma C2_witness :
  detect_intent tie_example = HIGH_CPU /\
  declared_before (detect_intent tie_example) HOST_STATUS = true /\
  detect_intent tie_example <> HOST_STATUS.
Proof.
  destruct C2_first_match_in_declaration_order as (_ & _ & First & Tie).
  split.
  - apply First; [vm_compute; reflexivity | ].
    intros j B. destruct j; vm_compute in B; discriminate B.
  - apply (Tie tie_example HIGH_CPU HOST_STATUS); vm_compute; reflexivity.
Defined.

(** ** C3 *)

(** C3, as stated, fails on a token with a leading zero, whose label is
    rewritten, on a zero magnitude, whose window is empty, and on a
    magnitude that reaches before year 1, for which there is no window but
    an exception. *)
Lemma C3_counterexample :
  is_period_token (lit "03h") = true /\
  time_period (from_period sample_now (lit "03h")) <> lit "03h" /\
  is_period_token (lit "0h") = true /\
  ~ (from_timestamp (from_period sample_now (lit "0h"))
     < to_timestamp (from_period sample_now (lit "0h")))%Z /\
  is_period_token (lit "800000d") = true /\
  from_period_raises sample_now (lit "800000d") = Some (lit "date value out of range").
Proof.
  split; [reflexivity | ]. split; [vm_compute; discriminate | ].
  split; [reflexivity | ]. split; [vm_compute; discriminate | ].
  split; [reflexivity | ]. vm_compute. reflexivity.
Qed.

(** C3 (amended): for every token made of one or more digits and a unit m,
    h or d on which [from_period] does not raise, the window is labelled by
    the magnitude in decimal followed by the unit, which is the token
    itself when its digits have no superfluous leading zero; its end is the
    timestamp of now and its start the timestamp of now minus the magnitude
    times the unit.  Nothing is said of the order of the two timestamps. *)
Theorem C3_period_token_window (now : datetime) (t : str) :
  is_period_token t = true ->
  from_period_raises now t = None ->
  let w := from_period now t in
  let n := int_of_digits (token_digits t) in
  time_period w = str_of_N n ++ [token_unit t] /\
  to_timestamp w = timestamp_int now /\
  from_timestamp w =
    timestamp_int (now - Z.of_N n * unit_seconds (token_unit t) * 1000000)%Z /\
  (canonical_digits (token_digits t) = true -> time_period w = t).
Proof.
  intros H _. destruct (period_token_parts t H) as (ds & u & E & N & F & U & D & T).
  subst t. cbv zeta. rewrite D, T.
  rewrite (from_period_token now ds u N F U).
  cbn [time_period to_timestamp from_timestamp].
  split; [reflexivity | ]. split; [reflexivity | ]. split; [reflexivity | ].
  intro C. now rewrite (str_of_int_canonical ds F C).
Qed.

Lemma C3_witness :
  time_period (from_period sample_now (lit "3h")) = lit "3h".
Proof.
  assert (R : from_period_raises sample_now (lit "3h") = None)
    by (vm_compute; reflexivity).
  pose proof (C3_period_token_window sample_now (lit "3h") eq_refl R) as H.
  cbv zeta in H. destruct H as (_ & _ & _ & L).
  apply L. reflexivity.
Defined.

(** ** C4 *)

(** C4, as stated, fails on tokens that do not match [^\d+[mhd]$] and are
    resolved all the same: the token is lowered first, and only its start
    is read. *)
Lemma C4_counterexample :
  is_period_token (lit "3H") = false /\
  from_period sample_now (lit "3H") <> default_window sample_now /\
  is_period_token (lit "3hx") = false /\
  from_period sample_now (lit "3hx") <> default_window sample_now.
Proof.
  split; [reflexivity | ]. split; [vm_compute; discriminate | ].
  split; [reflexivity | ]. vm_compute. discriminate.
Qed.

(** C4 (amended): for every token whose lower-case form does not start with
    a run of digits followed by m, h or d, the resolver returns the default
    window (from = now - 24h, to = now, label "24h"); so does the default
    argument "24h" of an absent token. *)
Theorem C4_default_window (now : datetime) (t : str) :
  (has_period_prefix (lower t) = false -> from_period now t = default_window now) /\
  from_period now (lit "24h") = default_window now.
Proof.
  split.
  - intro H. unfold from_period.
    destruct (re_match period_token_re (lower t)) as [m | ] eqn:E.
    + apply period_prefix_of_match in E. congruence.
    + reflexivity.
  - change (lit "24h") with (lit "24" ++ ["h"]).
    rewrite from_period_token; [reflexivity | discriminate | | reflexivity].
    repeat constructor.
Qed.

Lemma C4_witness :
  from_period sample_now (lit "semana") = default_window sample_now.
Proof.
  apply (proj1 (C4_default_window sample_now (lit "semana"))).
  vm_compute. reflexivity.
Defined.

(** ** C5 *)



(** ** C6 *)

(** C6 fails on the route: "colocar em manutenção últimos 800000 dias" is
    classified HOST_MAINTENANCE and names no host, but the route resolves
    the window of every query before it looks at the intent, and 800000
    days before now there is no [datetime]: the request is answered with
    HTTP 500 and the text of the [OverflowError], not with the question
    for a host. *)
Theorem C6_window_raises_before_host :
  detect_intent maintenance_long_ago = HOST_MAINTENANCE /\
  extract_host maintenance_long_ago = None /\
  period_token maintenance_long_ago = lit "800000d" /\
  extract_time_range_raises sample_now maintenance_long_ago =
    Some (lit "date value out of range") /\
  process_query (sample_world sample_now 10) (mkQuery maintenance_long_ago None) =
    Http500 (lit "Erro ao processar consulta: date value out of range").
Proof.
  split; [vm_compute; reflexivity | ].
  split; [vm_compute; reflexivity | ].
  split; [vm_compute; reflexivity | ].
  split; vm_compute; reflexivity.
Qed.

(** ** C7 *)



(** ** C8 *)

(** C8, as stated, fails on the synthesizer it cites: for a general query
    [generate_sql] emits the generic statement over the hosts.  It also
    fails on the route for a general query with a period that reaches
    before year 1: the exception of the window is propagated as HTTP 500. *)
Lemma C8_counterexample :
  detect_intent general_example = GENERAL_QUERY /\
  fst (generate_sql sample_now general_example) = base_template GENERAL_QUERY /\
  contains (lit "SELECT h.hostid, h.name, h.status, h.available")
    (fst (generate_sql sample_now general_example)) = true /\
  detect_intent general_long_ago = GENERAL_QUERY /\
  process_query (sample_world sample_now 10) (mkQuery general_long_ago None) =
    Http500 (lit "Erro ao processar consulta: date value out of range").
Proof.
  split; [vm_compute; reflexivity | ].
  split; [vm_compute; reflexivity | ].
  split; [vm_compute; reflexivity | ].
  split; vm_compute; reflexivity.
Qed.

(** C8 (amended): for every request classified GENERAL_QUERY or DISK_USAGE,
    the intents the route has no branch for, whose window is resolved
    without an exception, [generate_api_call] returns no method and no
    parameters, and the route responds, without raising, with no SQL, no
    chart and no data and a text that starts with the sentence that the
    query was not understood; [generate_sql], called on such a query, emits
    the generic statement over the hosts. *)
Theorem C8_no_template_fallback (w : World) (request : ZabbiaQuery) :
  detect_intent (query request) = GENERAL_QUERY \/
  detect_intent (query request) = DISK_USAGE ->
  extract_time_range_raises (w_now w) (query request) = None ->
  generate_api_call (w_now w) (query request) = (None, []) /\
  (exists narrative id,
     process_query w request =
       Respond (mkResponse narrative [] None None (Some id)) /\
     starts_with not_understood narrative = true) /\
  starts_with sql_generic (fst (generate_sql (w_now w) (query request))) = true.
Proof.
  intros I T.
  assert (G : generate_api_call (w_now w) (query request) = (None, [])).
  { unfold generate_api_call. destruct I as [I | I]; rewrite I; eval_intents;
      reflexivity. }
  split; [exact G | ]. split.
  - unfold process_query, process_body. rewrite T, G.
    destruct I as [I | I]; rewrite I; eval_intents; cbn [orb];
      destruct (negb (str_eqb (w_environment w) (lit "production")));
      eexists; eexists;
      (split; [reflexivity | first [apply starts_with_app | apply starts_with_self]]).
  - unfold generate_sql.
    destruct (extract_host (query request)) as [[ | c h] | ];
      destruct I as [I | I]; rewrite I; eval_intents;
      cbn [add_host_filter str_eqb negb];
      rewrite <- ?List.app_assoc; apply starts_with_app.
Qed.

Lemma C8_witness :
  generate_api_call sample_now general_example = (None, []) /\
  (exists narrative id,
     process_query (sample_world sample_now 10) (mkQuery general_example None) =
       Respond (mkResponse narrative [] None None (Some id)) /\
     starts_with not_understood narrative = true) /\
  starts_with sql_generic (fst (generate_sql sample_now general_example)) = true.
Proof.
  apply (C8_no_template_fallback (sample_world sample_now 10)
           (mkQuery general_example None)).
  - left. vm_compute. reflexivity.
  - vm_compute. reflexivity.
Defined.

(** ** C9 *)

(** C9, as stated, fails on a chart request: the same text at the same
    instant gets other dataset values when the random generator yields
    other numbers. *)
Lemma C9_counterexample :
  w_now (sample_world sample_now 10) = w_now (sample_world sample_now 11) /\
  process_query (sample_world sample_now 10) (mkQuery graph_example None) <>
  process_query (sample_world sample_now 11) (mkQuery graph_example None).
Proof.
  split; [reflexivity | ].
  vm_compute. intro H. discriminate H.
Qed.

(** C9 (amended): two runs on the same request with the same readings of
    the clock, the same settings and the same Zabbix client give the same
    answer whatever the random generator yields, unless the request is a
    chart request; for a chart request they do when the first twelve draws
    coincide. *)
Theorem C9_same_readings_same_result (w : World) (draws : nat -> Z)
    (request : ZabbiaQuery) :
  (detect_intent (query request) = GRAPH_REQUEST ->
   forall i, i < 12 -> draws i = w_randint w i) ->
  process_query (with_randint w draws) request = process_query w request.
Proof.
  intro H. unfold process_query.
  assert (B : process_body (with_randint w draws) (query request)
              = process_body w (query request)).
  { unfold process_body. cbn [with_randint w_now w_randint w_get_host_by_name
                                w_set_host_maintenance].
    destruct (extract_time_range_raises (w_now w) (query request));
      [reflexivity | ].
    destruct (detect_intent (query request)) eqn:I; eval_intents; try reflexivity.
    rewrite (draws_agree draws (w_randint w) (H eq_refl)). reflexivity. }
  rewrite B. reflexivity.
Qed.

Lemma C9_witness :
  process_query (with_randint (sample_world sample_now 10) (fun _ => 11%Z))
    (mkQuery scenario_2 None)
  = process_query (sample_world sample_now 10) (mkQuery scenario_2 None).
Proof.
  apply C9_same_readings_same_result.
  intro I. vm_compute in I. discriminate I.
Defined.

(** ** C10 *)




(* ================================================================== *)
(** * Beyond the claims

    The extractors read what is there, the statements and calls keep their
    shape, and the routes answer as their code says, with the client of
    [zabbix_api.py] behind them. *)

(** ** Containment *)

Lemma contains_app_right (p pre s : str) :
  contains p s = true -> contains p (pre ++ s) = true.
Proof.
  intro H. induction pre as [ | c pre IH]; [exact H | ].
  cbn [app contains]. rewrite IH. now destruct (starts_with p (c :: pre ++ s)).
Qed.

Lemma contains_prefix (p s : str) : contains p (p ++ s) = true.
Proof.
  destruct (p ++ s) as [ | c t] eqn:E; cbn [contains];
    rewrite <- E, starts_with_app; reflexivity.
Qed.

(** A word found between two others is contained in the whole. *)
Lemma contains_middle (p pre post : str) : contains p (pre ++ p ++ post) = true.
Proof. apply contains_app_right. apply contains_prefix. Qed.

Lemma contains_middle_longer (p extra pre post : str) :
  contains p (pre ++ (p ++ extra) ++ post) = true.
Proof. rewrite <- List.app_assoc. apply contains_middle. Qed.

(** ** Listing the words of an expression *)

Lemma class_chars_accepts (items : list citem) (cs : list char) (c : char) :
  class_chars items = Some cs -> class_accepts items c = true -> In c cs.
Proof.
  revert cs. induction items as [ | i items IH]; intros cs E H; [discriminate H | ].
  destruct i as [x | | | ]; try discriminate E. cbn [class_chars] in E.
  destruct (class_chars items) as [cs' | ]; [ | discriminate E].
  inversion E; subst cs. unfold class_accepts in H. cbn [existsb item_accepts] in H.
  apply orb_true_iff in H. destruct H as [H | H].
  - apply char_eqb_eq in H. now left.
  - right. now apply IH.
Qed.

Lemma finite_words_sound (r : regex) (w : str) (cs cs' : captures) :
  matches r w cs cs' -> forall ws, finite_words r = Some ws -> In w ws.
Proof.
  induction 1 as [ cs | c cs | c cs A | items c cs A
                 | r1 r2 w1 w2 cs cs1 cs2 M1 IH1 M2 IH2
                 | r1 r2 w cs cs1 M IH | r1 r2 w cs cs1 M IH
                 | r w cs cs1 M IH | r cs | r cs
                 | r w1 w2 cs cs1 cs2 M1 IH1 M2 IH2 | n r w cs cs1 M IH ];
    intros ws E; cbn [finite_words] in E; try discriminate E.
  - inversion E. now left.
  - inversion E. now left.
  - destruct (class_chars items) as [chars | ] eqn:C; [ | discriminate E].
    inversion E. apply (in_map (fun x : char => [x])).
    now apply (class_chars_accepts items).
  - destruct (finite_words r1) as [a | ]; [ | discriminate E].
    destruct (finite_words r2) as [b | ]; [ | discriminate E].
    inversion E. apply in_flat_map. exists w1. split; [now apply IH1 | ].
    apply (in_map (app w1)). now apply IH2.
  - destruct (finite_words r1) as [a | ]; [ | discriminate E].
    destruct (finite_words r2) as [b | ]; [ | discriminate E].
    inversion E. apply in_or_app. left. now apply IH.
  - destruct (finite_words r1) as [a | ]; [ | discriminate E].
    destruct (finite_words r2) as [b | ]; [ | discriminate E].
    inversion E. apply in_or_app. right. now apply IH.
  - destruct (finite_words r) as [a | ]; [ | discriminate E].
    inversion E. apply in_or_app. left. now apply IH.
  - destruct (finite_words r) as [a | ]; [ | discriminate E].
    inversion E. apply in_or_app. right. now left.
  - now apply IH.
Qed.

(** ** The keyword of each extractor *)

Lemma host_keyword (w : str) (cs : captures) :
  matches host_pattern w [] cs ->
  exists kw rest, w = kw ++ rest /\
    (kw = lit "host" \/ kw = lit "servidor" ++ lit "a" \/ kw = lit "servidor"
     \/ kw = lit "maquina").
Proof.
  unfold host_pattern. intro M.
  apply matches_cat_inv in M. destruct M as (w1 & w2 & cs1 & -> & M & _).
  exists w1, w2. split; [reflexivity | ].
  apply finite_words_sound with (ws := [lit "host"; lit "servidor" ++ lit "a";
                                        lit "servidor"; lit "maquina"]) in M;
    [ | reflexivity].
  cbn [In] in M. intuition.
Qed.

Lemma separator_class (c : char) :
  class_accepts [CChar ":"; CSpace] c = is_separator c.
Proof.
  unfold class_accepts, is_separator. cbn [existsb item_accepts].
  unfold char_eqb. rewrite (Ascii.eqb_sym ":" c). now rewrite orb_false_r.
Qed.

Lemma lower_char_idempotent (c : char) : lower_char (lower_char c) = lower_char c.
Proof. each_char c; vm_compute; reflexivity. Qed.

Lemma lower_idempotent (s : str) : lower (lower s) = lower s.
Proof.
  unfold lower. rewrite map_map. apply map_ext. apply lower_char_idempotent.
Qed.

Lemma lower_fixed (s : str) : Forall (fun c => lower_char c = c) s -> lower s = s.
Proof.
  induction 1 as [ | c s Hc F IH]; [reflexivity | ].
  cbn [lower map]. rewrite Hc. f_equal. exact IH.
Qed.

Lemma lower_is_lowered (q : str) : Forall (fun c => lower_char c = c) (lower q).
Proof.
  induction q as [ | c q IH]; cbn [lower map]; constructor;
    [apply lower_char_idempotent | exact IH].
Qed.

(** A part of a lowered text is lowered. *)
Lemma lower_part (q a h b : str) : lower q = a ++ h ++ b -> lower h = h.
Proof.
  intro E. pose proof (lower_is_lowered q) as F. rewrite E in F.
  apply Forall_app in F. destruct F as [_ F].
  apply Forall_app in F. destruct F as [F _].
  now apply lower_fixed.
Qed.

(** The parts of a match of the host pattern: keyword, separators, name. *)
Lemma host_pattern_parts (w : str) (cs : captures) :
  matches host_pattern w [] cs ->
  exists kw seps h,
    w = kw ++ seps ++ h /\
    (kw = lit "host" \/ kw = lit "servidor" ++ lit "a" \/ kw = lit "servidor"
     \/ kw = lit "maquina") /\
    seps <> [] /\ Forall (fun c => is_separator c = true) seps /\
    group 1 cs = Some h /\ h <> [] /\ Forall (fun c => host_char c = true) h.
Proof.
  unfold host_pattern. intro M.
  apply matches_cat_inv in M. destruct M as (kw & w2 & cs1 & -> & K & M).
  apply matches_cat_inv in M. destruct M as (seps & h & cs2 & -> & S & M).
  apply matches_group_inv in M. destruct M as (cs3 & -> & M).
  apply (matches_plus_class host_class) in M. destruct M as (N & F & _).
  apply (matches_plus_class [CChar ":"; CSpace]) in S. destruct S as (NS & FS & _).
  exists kw, seps, h. split; [reflexivity | ]. split.
  - apply finite_words_sound with (ws := [lit "host"; lit "servidor" ++ lit "a";
                                          lit "servidor"; lit "maquina"]) in K;
      [ | reflexivity].
    cbn [In] in K. intuition.
  - split; [exact NS | ]. split.
    + eapply Forall_impl; [ | exact FS]. intros c Hc. now rewrite <- separator_class.
    + split; [reflexivity | ]. split; [exact N | ].
      eapply Forall_impl; [ | exact F]. intros c Hc. now rewrite <- host_class_char.
Qed.

Lemma extract_host_parts (q h : str) :
  extract_host q = Some h ->
  exists pre kw seps post,
    lower q = pre ++ (kw ++ seps ++ h) ++ post /\
    (kw = lit "host" \/ kw = lit "servidor" ++ lit "a" \/ kw = lit "servidor"
     \/ kw = lit "maquina") /\
    seps <> [] /\ Forall (fun c => is_separator c = true) seps.
Proof.
  unfold extract_host. destruct (re_search host_pattern (lower q)) as [m | ] eqn:E;
    [ | discriminate].
  intro H. inversion H; subst h. apply re_search_sound in E.
  destruct E as (pre & w & post & E & M). apply host_pattern_parts in M.
  destruct M as (kw & seps & h & -> & K & NS & FS & G & _).
  unfold group_text. rewrite G. now exists pre, kw, seps, post.
Qed.

(** X1: without one of its keywords in the text there is no host. *)
Theorem extract_host_needs_keyword (q : str) :
  contains (lit "host") (lower q) = false ->
  contains (lit "servidor") (lower q) = false ->
  contains (lit "maquina") (lower q) = false ->
  extract_host q = None.
Proof.
  intros H1 H2 H3. destruct (extract_host q) as [h | ] eqn:E; [ | reflexivity].
  destruct (extract_host_parts q h E) as (pre & kw & seps & post & L & K & _).
  rewrite L in H1, H2, H3.
  destruct K as [-> | [-> | [-> | ->]]].
  - rewrite contains_middle_longer in H1. discriminate H1.
  - rewrite <- (List.app_assoc (lit "servidor")) in H2.
    rewrite contains_middle_longer in H2. discriminate H2.
  - rewrite contains_middle_longer in H2. discriminate H2.
  - rewrite contains_middle_longer in H3. discriminate H3.
Qed.

Lemma extract_host_needs_keyword_witness :
  extract_host (lit "uptime do web01") = None.
Proof. apply extract_host_needs_keyword; vm_compute; reflexivity. Defined.

(** X2: the host is read off the lowered text, right after a separator. *)
Theorem extract_host_lowered_part (q h : str) :
  extract_host q = Some h ->
  lower h = h /\
  exists before sep after,
    lower q = before ++ sep :: h ++ after /\ is_separator sep = true.
Proof.
  intro E. destruct (extract_host_parts q h E) as (pre & kw & seps & post & L & _ & NS & FS).
  destruct (exists_last NS) as (seps' & sep & ->).
  apply Forall_app in FS. destruct FS as [_ FS]. inversion FS as [ | ? ? Hsep _]; subst.
  assert (L' : lower q = (pre ++ kw ++ seps') ++ sep :: h ++ post).
  { rewrite L. rewrite <- !List.app_assoc. reflexivity. }
  split.
  - apply (lower_part q ((pre ++ kw ++ seps') ++ [sep]) h post).
    rewrite L'. rewrite <- !List.app_assoc. reflexivity.
  - now exists (pre ++ kw ++ seps'), sep, post.
Qed.

Lemma extract_host_lowered_part_witness :
  lower (lit "web01.local") = lit "web01.local" /\
  exists before sep after,
    lower (lit "Host: WEB01.Local caiu") = before ++ sep :: lit "web01.local" ++ after /\
    is_separator sep = true.
Proof.
  apply (extract_host_lowered_part (lit "Host: WEB01.Local caiu") (lit "web01.local")).
  vm_compute. reflexivity.
Defined.

Lemma period_pattern_shape :
  exists kw, period_pattern = Cat kw amount_tail /\
    finite_words kw = Some [lit "últimas"; lit "última"; lit "últimos"; lit "último"].
Proof. eexists. split; reflexivity. Qed.

Lemma duration_pattern_shape :
  exists kw, duration_pattern = Cat kw amount_tail /\
    finite_words kw = Some [lit "por"; lit "durante"].
Proof. eexists. split; reflexivity. Qed.

(** The parts of a match of the tail: separators, digits, separators, unit
    word, with the digits and the unit word captured. *)
Lemma amount_tail_parts (w : str) (cs0 cs : captures) :
  matches amount_tail w cs0 cs ->
  exists seps ds seps2 uw,
    w = seps ++ ds ++ seps2 ++ uw /\
    cs = (2, uw) :: (1, ds) :: cs0 /\
    seps <> [] /\ Forall (fun c => is_separator c = true) seps /\
    ds <> [] /\ Forall (fun c => is_digit c = true) ds /\
    Forall (fun c => is_separator c = true) seps2 /\
    In uw unit_words.
Proof.
  unfold amount_tail. intro M.
  apply matches_cat_inv in M. destruct M as (seps & w2 & cs1 & -> & S & M).
  apply (matches_plus_class [CChar ":"; CSpace]) in S. destruct S as (NS & FS & ->).
  apply matches_cat_inv in M. destruct M as (ds & w3 & cs2 & -> & D & M).
  apply matches_group_inv in D. destruct D as (cs3 & -> & D).
  apply (matches_plus_class [CDigit]) in D. destruct D as (ND & FD & ->).
  apply matches_cat_inv in M. destruct M as (seps2 & uw & cs4 & -> & S2 & M).
  apply matches_star_class in S2. destruct S2 as (FS2 & ->).
  apply matches_group_inv in M. destruct M as (cs5 & -> & M).
  assert (U : In uw unit_words).
  { apply (finite_words_sound _ _ _ _ M). reflexivity. }
  assert (C5 : cs5 = (1, ds) :: cs0).
  { clear - M. 
    repeat match goal with
           | H : matches (Alt _ _) _ _ _ |- _ => inversion H; subst; clear H
           | H : matches (Cat _ _) _ _ _ |- _ => inversion H; subst; clear H
           | H : matches (Opt _) _ _ _ |- _ => inversion H; subst; clear H
           | H : matches (Lit _) _ _ _ |- _ => inversion H; subst; clear H
           end; reflexivity. }
  subst cs5.
  exists seps, ds, seps2, uw. split; [reflexivity | ]. split; [reflexivity | ].
  split; [exact NS | ]. split.
  { eapply Forall_impl; [ | exact FS]. intros c Hc. now rewrite <- separator_class. }
  split; [exact ND | ]. split.
  { eapply Forall_impl; [ | exact FD]. intros c Hc. now rewrite <- digit_class. }
  split; [ | exact U].
  eapply Forall_impl; [ | exact FS2]. intros c Hc. now rewrite <- separator_class.
Qed.

(** ** Decimal numerals *)

Lemma uint_of_chars_chars (d : Decimal.uint) : uint_of_chars (uint_chars d) = d.
Proof. induction d; cbn [uint_chars uint_of_chars]; now f_equal. Qed.

Lemma int_of_str_of_N (n : N) : int_of_digits (str_of_N n) = n.
Proof.
  unfold int_of_digits, str_of_N. rewrite uint_of_chars_chars.
  apply DecimalN.Unsigned.of_to.
Qed.

Lemma uint_chars_digits (d : Decimal.uint) :
  Forall (fun c => is_digit c = true) (uint_chars d).
Proof. induction d; cbn [uint_chars]; constructor; (reflexivity || assumption). Qed.

Lemma to_uint_nonnil (n : N) : N.to_uint n <> Decimal.Nil.
Proof.
  destruct n as [ | p]; [discriminate | ]. apply DecimalPos.Unsigned.to_uint_nonnil.
Qed.

Lemma str_of_N_nonempty (n : N) : str_of_N n <> [].
Proof.
  unfold str_of_N. pose proof (to_uint_nonnil n) as H.
  destruct (N.to_uint n); [now elim H | discriminate ..].
Qed.

Lemma str_of_N_canonical (n : N) : canonical_digits (str_of_N n) = true.
Proof.
  unfold str_of_N.
  assert (U : Decimal.unorm (N.to_uint n) = N.to_uint n).
  { rewrite <- DecimalN.Unsigned.to_of. now rewrite DecimalN.Unsigned.of_to. }
  pose proof (to_uint_nonnil n) as NN.
  destruct (N.to_uint n) as [ | d | d | d | d | d | d | d | d | d | d ];
    [now elim NN | | reflexivity ..].
  rewrite DecimalFacts.unorm_D0 in U. unfold Decimal.unorm in U.
  destruct (Decimal.nzhead d) eqn:Z.
  - inversion U; subst d. reflexivity.
  - pose proof (DecimalFacts.nzhead_nonzero d d) as NZ. rewrite Z in NZ. congruence.
  - discriminate U.
  - discriminate U.
  - discriminate U.
  - discriminate U.
  - discriminate U.
  - discriminate U.
  - discriminate U.
  - discriminate U.
  - discriminate U.
Qed.

(** ** Amounts: the period and the duration *)

Ltac eval_closed_tests :=
  repeat match goal with
         | |- context [if ?b then _ else _] =>
             let v := eval vm_compute in b in
             match v with
             | true => change b with true
             | false => change b with false
             end; cbv iota
         end.

(** A search with a pattern made of a keyword and the tail. *)
Lemma re_search_amount (pattern kw : regex) (kws : list str) (t : str) (m : captures) :
  pattern = Cat kw amount_tail -> finite_words kw = Some kws ->
  re_search pattern t = Some m ->
  exists pre k seps ds seps2 uw post,
    t = pre ++ (k ++ seps ++ ds ++ seps2 ++ uw) ++ post /\
    In k kws /\
    seps <> [] /\ Forall (fun c => is_separator c = true) seps /\
    ds <> [] /\ Forall (fun c => is_digit c = true) ds /\
    Forall (fun c => is_separator c = true) seps2 /\
    In uw unit_words /\
    group_text 1 m = ds /\ group_text 2 m = uw.
Proof.
  intros -> K S. apply re_search_sound in S. destruct S as (pre & w & post & -> & M).
  apply matches_cat_inv in M. destruct M as (k & w2 & cs1 & -> & Mk & M).
  apply amount_tail_parts in M.
  destruct M as (seps & ds & seps2 & uw & -> & -> & NS & FS & ND & FD & FS2 & U).
  exists pre, k, seps, ds, seps2, uw, post.
  split; [reflexivity | ]. split; [exact (finite_words_sound _ _ _ _ Mk _ K) | ].
  repeat (split; [assumption | ]). split; reflexivity.
Qed.

Lemma unit_word_unit (uw : str) :
  In uw unit_words -> is_unit (unit_of_word uw) = true /\
                      lower (firstn 1 uw) = [unit_of_word uw].
Proof.
  unfold unit_words. cbn [In]. intro H.
  repeat (destruct H as [<- | H]; [split; reflexivity | ]). contradiction.
Qed.

(** What [extract_duration] makes of a match. *)
Lemma extract_duration_found (q : str) (default : Z) (m : captures) :
  re_search duration_pattern (lower q) = Some m ->
  In (group_text 2 m) unit_words ->
  extract_duration q default =
    (Z.of_N (int_of_digits (group_text 1 m))
     * unit_minutes (unit_of_word (group_text 2 m)))%Z.
Proof.
  intros S U. unfold extract_duration. rewrite S.
  generalize (Z.of_N (int_of_digits (group_text 1 m))). intro v.
  revert U. generalize (group_text 2 m). intros uw U.
  unfold unit_words in U. cbn [In] in U.
  repeat (destruct U as [<- | U];
          [eval_closed_tests;
           match goal with
           | |- context [unit_minutes ?u] =>
               let k := eval vm_compute in (unit_minutes u) in
               change (unit_minutes u) with k
           end; lia | ]).
  contradiction.
Qed.

(** The duration is the default, without a match, or a number of units
    read after one of the two keywords. *)
Lemma extract_duration_cases (q : str) (default : Z) :
  extract_duration q default = default /\
    re_search duration_pattern (lower q) = None \/
  exists n u, is_unit u = true /\
    extract_duration q default = (Z.of_N n * unit_minutes u)%Z /\
    (contains (lit "por") (lower q) = true \/
     contains (lit "durante") (lower q) = true).
Proof.
  destruct (re_search duration_pattern (lower q)) as [m | ] eqn:S.
  - right. destruct duration_pattern_shape as (kw & P & K).
    destruct (re_search_amount _ _ _ _ _ P K S)
      as (pre & k & seps & ds & seps2 & uw & post & L & Ik & _ & _ & _ & _ & _ & U & G1 & G2).
    rewrite <- G2 in U. destruct (unit_word_unit _ U) as [IU _].
    eexists. eexists. split; [exact IU | ].
    split; [now apply extract_duration_found | ].
    rewrite L. cbn [In] in Ik.
    destruct Ik as [<- | [<- | []]]; [left | right]; apply contains_middle_longer.
  - left. split; [ | reflexivity]. unfold extract_duration. now rewrite S.
Qed.

Lemma unit_minutes_pos (u : char) : (0 < unit_minutes u)%Z.
Proof.
  unfold unit_minutes. destruct (char_eqb u "m"); [lia | ].
  destruct (char_eqb u "h"); lia.
Qed.

Lemma extract_duration_nonneg (q : str) (default : Z) :
  (0 <= default)%Z -> (0 <= extract_duration q default)%Z.
Proof.
  intro D. destruct (extract_duration_cases q default) as [[E _] | (n & u & _ & E & _)];
    rewrite E; [exact D | ].
  pose proof (unit_minutes_pos u). apply Z.mul_nonneg_nonneg; lia.
Qed.

(** X3: the duration is the default or a whole number of minutes, hours
    (60 minutes) or days (1440 minutes); it is the default when the text
    holds neither "por" nor "durante"; it is never negative unless the
    default is. *)
Theorem extract_duration_shape (q : str) (default : Z) :
  (extract_duration q default = default \/
   exists n u, is_unit u = true /\
     extract_duration q default = (Z.of_N n * unit_minutes u)%Z) /\
  (contains (lit "por") (lower q) = false ->
   contains (lit "durante") (lower q) = false ->
   extract_duration q default = default) /\
  ((0 <= default)%Z -> (0 <= extract_duration q default)%Z).
Proof.
  destruct (extract_duration_cases q default) as [[E _] | (n & u & U & E & C)].
  - split; [now left | ]. split; [intros _ _; exact E | ].
    intro D. now rewrite E.
  - split; [right; now exists n, u | ]. split.
    + intros H1 H2. destruct C as [C | C]; congruence.
    + intros _. rewrite E. pose proof (unit_minutes_pos u).
      apply Z.mul_nonneg_nonneg; lia.
Qed.

Lemma extract_duration_shape_witness :
  extract_duration (lit "manutenção de 2 horas") 60 = 60%Z /\
  (0 <= extract_duration (lit "durante 3 dias") 60)%Z.
Proof.
  split.
  - apply (proj1 (proj2 (extract_duration_shape (lit "manutenção de 2 horas") 60)));
      vm_compute; reflexivity.
  - apply (proj2 (proj2 (extract_duration_shape (lit "durante 3 dias") 60))). lia.
Defined.

(** What [period_token] makes of a match. *)
Lemma period_token_found (q : str) (m : captures) :
  re_search period_pattern (lower q) = Some m ->
  In (group_text 2 m) unit_words ->
  period_token q =
    str_of_N (int_of_digits (group_text 1 m)) ++ [unit_of_word (group_text 2 m)].
Proof.
  intros S U. unfold period_token. rewrite S.
  generalize (str_of_N (int_of_digits (group_text 1 m))). intro v.
  revert U. generalize (group_text 2 m). intros uw U.
  unfold unit_words in U. cbn [In] in U.
  repeat (destruct U as [<- | U]; [eval_closed_tests; reflexivity | ]).
  contradiction.
Qed.

(** The token is "24h" or a magnitude in decimal followed by a unit. *)
Lemma period_token_cases (q : str) :
  exists n u, is_unit u = true /\ period_token q = str_of_N n ++ [u] /\
    (contains (lit "últim") (lower q) = false -> n = 24%N /\ u = "h").
Proof.
  destruct (re_search period_pattern (lower q)) as [m | ] eqn:S.
  - destruct period_pattern_shape as (kw & P & K).
    destruct (re_search_amount _ _ _ _ _ P K S)
      as (pre & k & seps & ds & seps2 & uw & post & L & Ik & _ & _ & _ & _ & _ & U & G1 & G2).
    rewrite <- G2 in U. destruct (unit_word_unit _ U) as [IU _].
    exists (int_of_digits (group_text 1 m)), (unit_of_word (group_text 2 m)).
    split; [exact IU | ]. split; [now apply period_token_found | ].
    intro H. rewrite L in H. cbn [In] in Ik.
    destruct Ik as [<- | [<- | [<- | [<- | []]]]];
      match type of H with
      | contains _ (_ ++ (?k ++ _) ++ _) = _ =>
          change k with (lit "últim" ++ skipn 5 k) in H
      end;
      rewrite <- (List.app_assoc (lit "últim")) in H;
      rewrite contains_middle_longer in H; discriminate H.
  - exists 24%N, "h". split; [reflexivity | ].
    split; [ | intros _; split; reflexivity].
    unfold period_token. now rewrite S.
Qed.

Lemma is_period_token_made (n : N) (u : char) :
  is_unit u = true ->
  is_period_token (str_of_N n ++ [u]) = true /\
  token_digits (str_of_N n ++ [u]) = str_of_N n /\
  token_unit (str_of_N n ++ [u]) = u.
Proof.
  intro U. unfold is_period_token, token_digits, token_unit.
  rewrite rev_app_distr, removelast_last, last_last. cbn [rev app].
  pose proof (str_of_N_nonempty n) as NE.
  destruct (rev (str_of_N n)) as [ | d ds] eqn:R.
  - apply (f_equal (@rev char)) in R. rewrite rev_involutive in R. now elim NE.
  - split; [ | split; reflexivity]. rewrite U. cbn [andb].
    rewrite <- R. apply forallb_forall. intros c Hc.
    apply in_rev in Hc. unfold str_of_N in Hc.
    pose proof (uint_chars_digits (N.to_uint n)) as F.
    rewrite Forall_forall in F. now apply F.
Qed.

(** X4: the token handed to [from_period] is always a canonical period
    token, and "24h" when the text does not hold "últim". *)
Theorem period_token_canonical (q : str) :
  is_period_token (period_token q) = true /\
  canonical_digits (token_digits (period_token q)) = true /\
  (contains (lit "últim") (lower q) = false -> period_token q = lit "24h").
Proof.
  destruct (period_token_cases q) as (n & u & U & E & D).
  destruct (is_period_token_made n u U) as (P & TD & _).
  rewrite E. split; [exact P | ]. split.
  - rewrite TD. apply str_of_N_canonical.
  - intro H. destruct (D H) as [-> ->]. reflexivity.
Qed.

Lemma period_token_canonical_witness :
  period_token (lit "cpu nas ultimas 3 horas") = lit "24h".
Proof.
  apply (proj2 (proj2 (period_token_canonical (lit "cpu nas ultimas 3 horas")))).
  vm_compute. reflexivity.
Defined.

(** X5: when [extract_time_range] does not raise, the label of its window
    is the period token read from the text, its end the timestamp of now
    and its start the timestamp of now minus the magnitude times the
    unit. *)
Theorem extract_time_range_window (now : datetime) (q : str) :
  extract_time_range_raises now q = None ->
  time_period (extract_time_range now q) = period_token q /\
  to_timestamp (extract_time_range now q) = timestamp_int now /\
  from_timestamp (extract_time_range now q) =
    timestamp_int
      (now - Z.of_N (int_of_digits (token_digits (period_token q)))
             * unit_seconds (token_unit (period_token q)) * 1000000)%Z.
Proof.
  intros _.
  destruct (period_token_cases q) as (n & u & U & E & _).
  destruct (is_period_token_made n u U) as (_ & TD & TU).
  unfold extract_time_range. rewrite E, TD, TU.
  rewrite from_period_token;
    [ | apply str_of_N_nonempty | apply uint_chars_digits | exact U].
  cbn [time_period to_timestamp from_timestamp]. rewrite int_of_str_of_N.
  split; [reflexivity | ]. split; reflexivity.
Qed.

Lemma extract_time_range_window_witness :
  time_period (extract_time_range sample_now scenario_1) = period_token scenario_1 /\
  to_timestamp (extract_time_range sample_now scenario_1) = timestamp_int sample_now /\
  from_timestamp (extract_time_range sample_now scenario_1) =
    timestamp_int
      (sample_now - Z.of_N (int_of_digits (token_digits (period_token scenario_1)))
                    * unit_seconds (token_unit (period_token scenario_1)) * 1000000)%Z.
Proof.
  apply extract_time_range_window. vm_compute. reflexivity.
Defined.

(** ** The exceptions of the window *)

(** The exception of [from_period] on a token: the whole days of the period
    decide for [timedelta], the instant the period before now for the
    subtraction and its timestamp. *)
Lemma from_period_raises_token (now : datetime) (ds : str) (u : char) :
  ds <> [] -> Forall (fun c => is_digit c = true) ds -> is_unit u = true ->
  let seconds := (Z.of_N (int_of_digits ds) * unit_seconds u)%Z in
  from_period_raises now (ds ++ [u]) =
    match minus_raises now 0%Z with
    | Some e => Some e
    | None =>
        match timedelta_raises (seconds / 86400)%Z with
        | Some e => Some e
        | None => minus_raises now (seconds * 1000000)%Z
        end
    end.
Proof.
  intros N F U. cbv zeta. unfold from_period_raises.
  rewrite (lower_token ds u F U), (re_match_period_token ds u [] N F U).
  cbn [group_text group Nat.eqb].
  generalize (Z.of_N (int_of_digits ds)). intro n.
  destruct (minus_raises now 0%Z) as [e | ]; [reflexivity | ].
  destruct (is_unit_cases u U) as [-> | [-> | ->]];
    cbn [str_eqb lit decode list_ascii_of_string];
    unfold timedelta_minutes, timedelta_hours, timedelta_days.
  - change (unit_seconds "m") with 60%Z.
    replace (n * 60 / 86400)%Z with (n / 1440)%Z
      by (symmetry; apply (Z.div_mul_cancel_r n 1440 60); lia).
    reflexivity.
  - change (unit_seconds "h") with 3600%Z.
    replace (n * 3600 / 86400)%Z with (n / 24)%Z
      by (symmetry; apply (Z.div_mul_cancel_r n 24 3600); lia).
    reflexivity.
  - change (unit_seconds "d") with 86400%Z.
    rewrite Z.div_mul by lia. reflexivity.
Qed.

Lemma timedelta_raises_none (days : Z) :
  timedelta_raises days = None <-> (days <= 999999999)%Z.
Proof.
  unfold timedelta_raises.
  destruct (2147483647 <? days)%Z eqn:A; [apply Z.ltb_lt in A | apply Z.ltb_ge in A].
  - split; [discriminate | lia].
  - destruct (999999999 <? days)%Z eqn:B; [apply Z.ltb_lt in B | apply Z.ltb_ge in B].
    + split; [discriminate | lia].
    + split; [intros _; exact B | reflexivity].
Qed.

Lemma minus_raises_none (now : datetime) (delta : timedelta) :
  minus_raises now delta = None <-> (datetime_min + 86400 * 1000000 <= now - delta)%Z.
Proof.
  unfold minus_raises, datetime_min.
  destruct (now - delta <? -62135596800000000)%Z eqn:A;
    [apply Z.ltb_lt in A | apply Z.ltb_ge in A].
  - split; [discriminate | lia].
  - destruct (now - delta <? -62135596800000000 + 86400 * 1000000)%Z eqn:B;
      [apply Z.ltb_lt in B | apply Z.ltb_ge in B].
    + split; [discriminate | lia].
    + split; [intros _; exact B | reflexivity].
Qed.

(** X28: at a reading of the clock from 1970 to the day before the last of
    9999, [extract_time_range] raises exactly when the period read from the
    text reaches into the first day of year 1 or before it; it never does
    when the text reads no period. *)
Theorem extract_time_range_raises_iff (now : datetime) (q : str) :
  (0 <= now < 253402214400000000)%Z ->
  let seconds :=
    (Z.of_N (int_of_digits (token_digits (period_token q)))
     * unit_seconds (token_unit (period_token q)))%Z in
  (extract_time_range_raises now q = None <->
   (datetime_min + 86400 * 1000000 <= now - seconds * 1000000)%Z) /\
  (contains (lit "últim") (lower q) = false -> extract_time_range_raises now q = None).
Proof.
  intros B. cbv zeta.
  destruct (period_token_cases q) as (n & u & U & E & D).
  destruct (is_period_token_made n u U) as (_ & TD & TU).
  unfold extract_time_range_raises. rewrite E, TD, TU.
  rewrite from_period_raises_token;
    [ | apply str_of_N_nonempty | apply uint_chars_digits | exact U].
  cbv zeta. rewrite int_of_str_of_N.
  pose proof (unit_seconds_bound u) as S.
  assert (M : minus_raises now 0%Z = None).
  { apply minus_raises_none. unfold datetime_min. lia. }
  rewrite M.
  assert (G : (match timedelta_raises (Z.of_N n * unit_seconds u / 86400)%Z with
               | Some e => Some e
               | None => minus_raises now (Z.of_N n * unit_seconds u * 1000000)%Z
               end = None <->
               (datetime_min + 86400 * 1000000
                <= now - Z.of_N n * unit_seconds u * 1000000)%Z)).
  { destruct (timedelta_raises (Z.of_N n * unit_seconds u / 86400)%Z) as [e | ] eqn:T.
    - split; [discriminate | ]. intro H. exfalso.
      assert (L : (Z.of_N n * unit_seconds u / 86400 <= 999999999)%Z).
      { apply Z.div_le_upper_bound; [lia | ]. unfold datetime_min in H. lia. }
      apply timedelta_raises_none in L. rewrite L in T. discriminate T.
    - apply minus_raises_none. }
  split; [exact G | ].
  intro H. destruct (D H) as [-> ->]. apply G.
  change (unit_seconds "h") with 3600%Z. unfold datetime_min. lia.
Qed.

Lemma extract_time_range_raises_iff_witness :
  extract_time_range_raises sample_now (lit "status dos hosts") = None.
Proof.
  apply (proj2 (extract_time_range_raises_iff sample_now (lit "status dos hosts")
                  ltac:(unfold sample_now; lia))).
  vm_compute. reflexivity.
Defined.

(** ** The threshold *)

Lemma terminator_class (c : char) :
  class_accepts [CChar "%"; CSpace] c = (char_eqb c "%" || is_space c)%bool.
Proof.
  unfold class_accepts. cbn [existsb item_accepts].
  unfold char_eqb. rewrite (Ascii.eqb_sym "%" c). now rewrite orb_false_r.
Qed.

Lemma digit_then_terminator_app (a b : str) (d c : char) :
  is_digit d = true -> (char_eqb c "%" || is_space c)%bool = true ->
  digit_then_terminator (a ++ d :: c :: b) = true.
Proof.
  intros D T. induction a as [ | x a IH].
  - cbn [app digit_then_terminator]. now rewrite D, T.
  - cbn [app]. destruct (a ++ d :: c :: b) as [ | y t] eqn:E.
    + destruct a; discriminate E.
    + cbn [digit_then_terminator]. cbn [digit_then_terminator] in IH.
      rewrite IH. apply orb_true_r.
Qed.

(** The parts of a match of the threshold pattern. *)
Lemma threshold_pattern_parts (w : str) (cs : captures) :
  matches threshold_pattern w [] cs ->
  exists kw mid ds c,
    w = kw ++ mid ++ ds ++ [c] /\
    In kw [lit "acima"; lit "maior"; lit "superior"; lit "mais"] /\
    ds <> [] /\ Forall (fun x => is_digit x = true) ds /\
    (char_eqb c "%" || is_space c)%bool = true /\
    group 1 cs = Some ds.
Proof.
  unfold threshold_pattern. intro M.
  apply matches_cat_inv in M. destruct M as (kw & w1 & cs1 & -> & K & M).
  apply matches_cat_inv in M. destruct M as (s1 & w2 & cs2 & -> & _ & M).
  apply matches_cat_inv in M. destruct M as (o & w3 & cs3 & -> & _ & M).
  apply matches_cat_inv in M. destruct M as (s2 & w4 & cs4 & -> & _ & M).
  apply matches_cat_inv in M. destruct M as (ds & t & cs5 & -> & D & T).
  apply matches_group_inv in D. destruct D as (cs6 & -> & D).
  apply (matches_plus_class [CDigit]) in D. destruct D as (ND & FD & _).
  apply matches_class_inv in T. destruct T as (c & -> & Hc & ->).
  exists kw, (s1 ++ o ++ s2), ds, c.
  split; [now rewrite <- !List.app_assoc | ].
  split; [exact (finite_words_sound _ _ _ _ K _ eq_refl) | ].
  split; [exact ND | ]. split.
  - eapply Forall_impl; [ | exact FD]. intros x Hx. now rewrite <- digit_class.
  - split; [now rewrite <- terminator_class | reflexivity].
Qed.

(** X6: the threshold is the default unless the text holds one of "acima",
    "maior", "superior", "mais" and a digit followed by a percent sign or
    white space: a number that ends the text is not read. *)
Theorem extract_threshold_default (q : str) (default : Z) :
  (contains (lit "acima") (lower q) = false ->
   contains (lit "maior") (lower q) = false ->
   contains (lit "superior") (lower q) = false ->
   contains (lit "mais") (lower q) = false ->
   extract_threshold q default = default) /\
  (digit_then_terminator (lower q) = false ->
   extract_threshold q default = default) /\
  ((0 <= default)%Z -> (0 <= extract_threshold q default)%Z).
Proof.
  unfold extract_threshold.
  destruct (re_search threshold_pattern (lower q)) as [m | ] eqn:S;
    [ | repeat split; trivial].
  apply re_search_sound in S. destruct S as (pre & w & post & L & M).
  apply threshold_pattern_parts in M.
  destruct M as (kw & mid & ds & c & -> & K & ND & FD & T & G).
  split; [ | split; [ | intros _; lia]].
  - intros H1 H2 H3 H4. rewrite L in H1, H2, H3, H4. cbn [In] in K.
    destruct K as [<- | [<- | [<- | [<- | []]]]].
    + rewrite contains_middle_longer in H1. discriminate H1.
    + rewrite contains_middle_longer in H2. discriminate H2.
    + rewrite contains_middle_longer in H3. discriminate H3.
    + rewrite contains_middle_longer in H4. discriminate H4.
  - intro H. rewrite L in H.
    destruct (exists_last ND) as (ds' & d & ->).
    apply Forall_app in FD. destruct FD as [_ FD].
    inversion FD as [ | ? ? Hd _]; subst.
    replace (pre ++ (kw ++ mid ++ (ds' ++ [d]) ++ [c]) ++ post)
      with ((pre ++ kw ++ mid ++ ds') ++ d :: c :: post) in H
      by (rewrite <- !List.app_assoc; reflexivity).
    rewrite (digit_then_terminator_app _ _ d c Hd T) in H. discriminate H.
Qed.

Lemma extract_threshold_default_witness :
  extract_threshold threshold_at_end 80 = 80%Z /\
  extract_threshold (lit "cpu alta 90%") 80 = 80%Z.
Proof.
  split.
  - apply (proj1 (proj2 (extract_threshold_default threshold_at_end 80))).
    vm_compute. reflexivity.
  - apply (proj1 (extract_threshold_default (lit "cpu alta 90%") 80));
      vm_compute; reflexivity.
Defined.

(** ** [from_period] *)

(** X7: [from_period] reads the start of the lowered token only. *)
Theorem from_period_reads_prefix (now : datetime) (ds : str) (u : char) (rest : str) :
  ds <> [] -> Forall (fun c => is_digit c = true) ds ->
  is_unit (lower_char u) = true ->
  from_period now (ds ++ u :: rest) = from_period now (ds ++ [lower_char u]).
Proof.
  intros N F U.
  rewrite (from_period_token now ds (lower_char u) N F U).
  unfold from_period.
  assert (L : lower (ds ++ u :: rest) = ds ++ lower_char u :: lower rest).
  { unfold lower. rewrite map_app. fold (lower ds). now rewrite (lower_digits ds F). }
  rewrite L, (re_match_period_token ds (lower_char u) (lower rest) N F U).
  cbn [group_text group Nat.eqb].
  destruct (is_unit_cases _ U) as [-> | [-> | ->]];
    cbn [str_eqb lit decode list_ascii_of_string]; reflexivity.
Qed.

Lemma from_period_reads_prefix_witness :
  from_period sample_now (lit "7" ++ "D" :: lit "ias úteis")
  = from_period sample_now (lit "7" ++ [lower_char "D"]).
Proof.
  apply from_period_reads_prefix; [discriminate | repeat constructor | reflexivity].
Defined.

(** ** The statement and its context *)


(** Split the conjunctions of the goal, and nothing else. *)
Ltac split_conj := repeat match goal with |- _ /\ _ => split end.




(** ** The API call *)




(** ** Charts *)



(** ** The route *)

(** X14: of the chart requests whose window is resolved without an
    exception, one that names no metric the chart builder knows fails with
    HTTP 500 on the missing title; one that names a metric is answered with
    one chart of twelve hourly labels and the twelve random draws as data,
    without statement or data. *)
Theorem process_query_chart (w : World) (request : ZabbiaQuery) :
  detect_intent (query request) = GRAPH_REQUEST ->
  extract_time_range_raises (w_now w) (query request) = None ->
  (names_metric (lower (query request)) = false ->
   process_query w request = Http500 (lit "Erro ao processar consulta: 'title'")) /\
  (names_metric (lower (query request)) = true ->
   exists r chart label color,
     process_query w request = Respond r /\
     sql r = None /\ data r = [] /\ charts r = Some [VDict chart] /\
     dict_get "labels" chart =
       Some (VList (map (fun i => VStr (strftime_HM
                                          (w_now w - timedelta_hours (Z.of_nat i))%Z))
                        (rev (seq 1 12)))) /\
     dict_get "datasets" chart =
       Some (VList [ VDict [ ("label"%string, VStr label);
                             ("data"%string,
                                VList (map (fun i => VInt (w_randint w i)) (seq 0 12)));
                             ("color"%string, VStr color);
                             ("fill"%string, VBool false) ] ])).
Proof.
  intros I T. unfold process_query, process_body. rewrite T, I. eval_intents.
  unfold generate_graph_data, names_metric. cbv zeta.
  generalize (host_suffix (extract_host (query request))). intro suffix.
  generalize (map (fun i => VStr (strftime_HM (w_now w - timedelta_hours (Z.of_nat i))%Z))
                (rev (seq 1 12))). intro labels.
  generalize (map (fun i => VInt (w_randint w i)) (seq 0 12)). intro draws.
  generalize (w_processing_time w) (str_of_Z (w_time w))
    (request_conversation_id request) (negb (str_eqb (w_environment w) (lit "production"))).
  intros elapsed time id development.
  assert (Known : forall title label color,
    let chart :=
      list_append "datasets" (dataset label color)
        (dict_set "title" (VStr (title ++ suffix))
           [ ("chartType"%string, VStr (lit "line"));
             ("labels"%string, VList []);
             ("datasets"%string, VList []) ]) in
    let chart := dict_set "labels" (VList labels) chart in
    let chart :=
      match dict_get "datasets" chart with
      | Some (VList (_ :: _)) => set_first_dataset_data draws chart
      | _ => chart
      end in
    exists r chart' label' color',
      match dict_get "title" chart with
      | Some (VStr t) =>
          (let response_text :=
             if development
             then (lit "Aqui está o gráfico solicitado para " ++ t)
                  ++ lit "

Consulta processada em " ++ elapsed ++ lit " segundos."
             else lit "Aqui está o gráfico solicitado para " ++ t in
           let conversation_id :=
             match id with
             | Some (c :: i) => c :: i
             | _ => lit "zabbia-" ++ time
             end in
           Respond (mkResponse response_text [] None (Some [VDict chart])
                      (Some conversation_id)))
      | _ => Http500 (lit "Erro ao processar consulta: " ++ lit "'title'")
      end = Respond r /\
      sql r = None /\ data r = [] /\ charts r = Some [VDict chart'] /\
      dict_get "labels" chart' = Some (VList labels) /\
      dict_get "datasets" chart' =
        Some (VList [ VDict [ ("label"%string, VStr label');
                              ("data"%string, VList draws);
                              ("color"%string, VStr color');
                              ("fill"%string, VBool false) ] ])).
  { intros title label color. cbv zeta.
    eexists. eexists. exists label. exists color.
    split; [reflexivity | ]. cbn [sql data charts].
    split; [reflexivity | ]. split; [reflexivity | ]. split; [reflexivity | ].
    split; reflexivity. }
  destruct (contains (lit "cpu") (lower (query request)));
    [split; [intro H; discriminate H | intros _; apply Known] | ].
  destruct (contains (lit "memória") (lower (query request)));
    [split; [intro H; discriminate H | intros _; apply Known] | ].
  destruct (contains (lit "ram") (lower (query request)));
    [split; [intro H; discriminate H | intros _; apply Known] | ].
  destruct (contains (lit "disco") (lower (query request)));
    [split; [intro H; discriminate H | intros _; apply Known] | ].
  split; [intros _; vm_compute; reflexivity | intro H; discriminate H].
Qed.

Lemma process_query_chart_witness :
  process_query (sample_world sample_now 10) (mkQuery chart_without_metric None)
  = Http500 (lit "Erro ao processar consulta: 'title'").
Proof.
  apply (proj1 (process_query_chart (sample_world sample_now 10)
                  (mkQuery chart_without_metric None) ltac:(vm_compute; reflexivity)
                  ltac:(vm_compute; reflexivity))).
  vm_compute. reflexivity.
Defined.

Ltac break_match :=
  match goal with
  | |- context [match ?x with _ => _ end] => destruct x eqn:?
  end.

(** What the body of the route returns beside the text and the data. *)
Lemma process_body_artifacts (w : World) (q text : str) (dat : dict)
    (sq : option str) (ch : option (list value)) :
  process_body w q = Returns (text, dat, sq, ch) ->
  sq = (if sql_intent (detect_intent q)
        then Some (fst (generate_sql (w_now w) q)) else None) /\
  is_some ch = intent_eqb (detect_intent q) GRAPH_REQUEST.
Proof.
  unfold process_body.
  destruct (extract_time_range_raises (w_now w) q); [discriminate | ].
  destruct (generate_sql (w_now w) q) as [generated context] eqn:G.
  destruct (generate_api_call (w_now w) q) as [method params] eqn:A.
  cbn [fst].
  destruct (detect_intent q); eval_intents; cbn [orb sql_intent];
    repeat break_match; intro H; inversion H; split; reflexivity.
Qed.

(** X15: a response carries a statement exactly for the six intents answered
    from the database, and then the one [generate_sql] made; it carries
    charts exactly for a chart request; its conversation id is the one of
    the request when that is not empty, and is never empty. *)
Theorem process_query_artifacts (w : World) (request : ZabbiaQuery) :
  match process_query w request with
  | Respond r =>
      sql r = (if sql_intent (detect_intent (query request))
               then Some (fst (generate_sql (w_now w) (query request))) else None) /\
      is_some (charts r) = intent_eqb (detect_intent (query request)) GRAPH_REQUEST /\
      exists id, conversation_id r = Some id /\ id <> [] /\
        match request_conversation_id request with
        | Some (c :: rest) => id = c :: rest
        | _ => id = lit "zabbia-" ++ str_of_Z (w_time w)
        end
  | Http500 _ => True
  end.
Proof.
  unfold process_query.
  destruct (process_body w (query request)) as [[[[text dat] sq] ch] | e] eqn:B;
    [ | exact I].
  destruct (process_body_artifacts w _ _ _ _ _ B) as [S C].
  cbn [sql charts conversation_id].
  split; [exact S | ]. split; [exact C | ].
  eexists. split; [reflexivity | ].
  destruct (request_conversation_id request) as [[ | c rest] | ];
    (split; [discriminate | reflexivity]).
Qed.

(** X16: a maintenance request that names a host, and whose window is
    resolved without an exception, asks the client for that host; an error
    of the client becomes HTTP 500 with its message; an unknown host is
    reported and no maintenance is created; for a known host the
    maintenance is created under the name "Manutenção via Zabbia - host"
    for the extracted minutes times 60 seconds, and the answer tells
    whether an identifier came back. *)
Theorem process_query_maintenance (w : World) (request : ZabbiaQuery) (h : str) :
  detect_intent (query request) = HOST_MAINTENANCE ->
  extract_host (query request) = Some h ->
  extract_time_range_raises (w_now w) (query request) = None ->
  let minutes := extract_duration (query request) 60 in
  match w_get_host_by_name w h with
  | Raises e => process_query w request = Http500 (lit "Erro ao processar consulta: " ++ e)
  | Returns None | Returns (Some []) =>
      exists r, process_query w request = Respond r /\
        starts_with (lit "Host '" ++ h ++ lit "' não encontrado no Zabbix.") (response r)
          = true /\
        data r = [] /\ sql r = None /\ charts r = None
  | Returns (Some host_obj) =>
      match dict_get "hostid" host_obj with
      | None => process_query w request = Http500 (lit "Erro ao processar consulta: 'hostid'")
      | Some hostid =>
          match w_set_host_maintenance w hostid (lit "Manutenção via Zabbia - " ++ h)
                  (minutes * 60)%Z with
          | Raises e =>
              process_query w request = Http500 (lit "Erro ao processar consulta: " ++ e)
          | Returns (Some (c :: id)) =>
              exists r, process_query w request = Respond r /\
                starts_with (lit "Host " ++ h ++ lit " colocado em manutenção por "
                               ++ str_of_Z minutes ++ lit " minutos.") (response r) = true /\
                data r = [ ("maintenance_id"%string, VStr (c :: id));
                           ("host"%string, VStr h);
                           ("duration_minutes"%string, VInt minutes) ] /\
                sql r = None /\ charts r = None
          | Returns _ =>
              exists r, process_query w request = Respond r /\
                starts_with (lit "Erro ao colocar host " ++ h ++ lit " em manutenção.")
                  (response r) = true /\
                data r = [] /\ sql r = None /\ charts r = None
          end
      end
  end.
Proof.
  intros I E T. destruct (extract_host_some _ h E) as [N _].
  destruct h as [ | c0 h]; [now elim N | ].
  cbv zeta. unfold process_query, process_body. rewrite T, I, E. eval_intents.
  cbn [str_eqb].
  generalize (extract_duration (query request) 60). intro minutes.
  destruct (w_get_host_by_name w (c0 :: h)) as [[[ | entry obj] | ] | e];
    try reflexivity.
  - destruct (negb (str_eqb (w_environment w) (lit "production")));
      eexists; (split; [reflexivity | ]); cbn [response data sql charts];
      (split; [first [apply starts_with_app | apply starts_with_self] | ]);
      split_conj; reflexivity.
  - destruct (dict_get "hostid" (entry :: obj)) as [hostid | ]; [ | reflexivity].
    destruct (w_set_host_maintenance w hostid (lit "Manutenção via Zabbia - " ++ c0 :: h)
                (minutes * 60)%Z) as [[[ | c id] | ] | e]; try reflexivity;
      destruct (negb (str_eqb (w_environment w) (lit "production")));
      eexists; (split; [reflexivity | ]); cbn [response data sql charts];
      (split; [first [apply starts_with_app | apply starts_with_self] | ]);
      split_conj; reflexivity.
  - destruct (negb (str_eqb (w_environment w) (lit "production")));
      eexists; (split; [reflexivity | ]); cbn [response data sql charts];
      (split; [first [apply starts_with_app | apply starts_with_self] | ]);
      split_conj; reflexivity.
Qed.

Lemma process_query_maintenance_witness :
  exists r,
    process_query known_host_world (mkQuery scenario_3 None) = Respond r /\
    starts_with (lit "Host " ++ lit "app01" ++ lit " colocado em manutenção por "
                   ++ str_of_Z (extract_duration (query (mkQuery scenario_3 None)) 60)
                   ++ lit " minutos.")
      (response r) = true /\
    data r = [ ("maintenance_id"%string, VStr ["7"]);
               ("host"%string, VStr (lit "app01"));
               ("duration_minutes"%string,
                  VInt (extract_duration (query (mkQuery scenario_3 None)) 60)) ] /\
    sql r = None /\ charts r = None.
Proof.
  assert (I : detect_intent (query (mkQuery scenario_3 None)) = HOST_MAINTENANCE)
    by (vm_compute; reflexivity).
  assert (E : extract_host (query (mkQuery scenario_3 None)) = Some (lit "app01"))
    by (vm_compute; reflexivity).
  assert (T : extract_time_range_raises (w_now known_host_world)
                (query (mkQuery scenario_3 None)) = None)
    by (vm_compute; reflexivity).
  pose proof (process_query_maintenance known_host_world (mkQuery scenario_3 None)
                (lit "app01") I E T) as H.
  cbv zeta in H.
  assert (G : w_get_host_by_name known_host_world (lit "app01")
              = Returns (Some [ ("hostid"%string, VStr (lit "10084")) ])) by reflexivity.
  rewrite G in H. cbv beta iota in H.
  assert (D : dict_get "hostid" [ ("hostid"%string, VStr (lit "10084")) ]
              = Some (VStr (lit "10084"))) by reflexivity.
  rewrite D in H. cbv beta iota in H.
  assert (M : w_set_host_maintenance known_host_world (VStr (lit "10084"))
                (lit "Manutenção via Zabbia - " ++ lit "app01")
                (extract_duration (query (mkQuery scenario_3 None)) 60 * 60)%Z
              = Returns (Some ["7"])) by reflexivity.
  rewrite M in H. cbv beta iota in H.
  exact H.
Defined.

(** X29: the route resolves the window of every query first: when that raises,
    the answer is HTTP 500 with the text of the exception, whatever the
    intent. *)
Theorem process_query_window_raises (w : World) (request : ZabbiaQuery) (e : str) :
  extract_time_range_raises (w_now w) (query request) = Some e ->
  process_query w request = Http500 (lit "Erro ao processar consulta: " ++ e).
Proof.
  intro T. unfold process_query, process_body. rewrite T. reflexivity.
Qed.

Lemma process_query_window_raises_witness :
  process_query (sample_world sample_now 10) (mkQuery general_long_ago None)
  = Http500 (lit "Erro ao processar consulta: " ++ lit "date value out of range").
Proof.
  apply process_query_window_raises. vm_compute. reflexivity.
Defined.

(** X30: a maintenance request from which no host is extracted, and whose
    window is resolved without an exception, is answered, whatever the
    Zabbix client would do, with no SQL, no chart and no data, and with a
    text that starts by asking which host to put in maintenance. *)
Theorem process_query_asks_for_host (w : World) (request : ZabbiaQuery) :
  detect_intent (query request) = HOST_MAINTENANCE ->
  extract_host (query request) = None ->
  extract_time_range_raises (w_now w) (query request) = None ->
  exists narrative id,
    process_query w request =
      Respond (mkResponse narrative [] None None (Some id)) /\
    starts_with ask_for_host narrative = true.
Proof.
  intros I H T. unfold process_query, process_body. rewrite T, I, H. eval_intents.
  destruct (negb (str_eqb (w_environment w) (lit "production"))).
  - eexists. eexists. split; [reflexivity | ]. apply starts_with_app.
  - eexists. eexists. split; [reflexivity | ]. apply starts_with_self.
Qed.

Lemma process_query_asks_for_host_witness :
  exists narrative id,
    process_query (sample_world sample_now 10)
      (mkQuery maintenance_without_host None) =
      Respond (mkResponse narrative [] None None (Some id)) /\
    starts_with ask_for_host narrative = true.
Proof.
  apply process_query_asks_for_host; vm_compute; reflexivity.
Defined.

(** ** The license middleware *)

Lemma str_eqb_nil (s : str) : str_eqb s [] = true <-> s = [].
Proof. destruct s; cbn [str_eqb]; split; (reflexivity || discriminate). Qed.

Lemma lstrip_nil (s : str) : lstrip s = [] <-> blank s = true.
Proof.
  unfold blank. induction s as [ | c s IH]; cbn [lstrip forallb]; [tauto | ].
  destruct (is_space c); cbn [andb]; [exact IH | ].
  split; discriminate.
Qed.

Lemma blank_app (a b : str) : blank (a ++ b) = (blank a && blank b)%bool.
Proof. apply forallb_app. Qed.

Lemma blank_rev (s : str) : blank (rev s) = blank s.
Proof.
  induction s as [ | c s IH]; [reflexivity | ].
  cbn [rev]. rewrite blank_app, IH. unfold blank. cbn [forallb].
  rewrite andb_true_r. apply andb_comm.
Qed.

(** What [lstrip] leaves is blank only when the text is. *)
Lemma blank_lstrip (s : str) : blank (lstrip s) = blank s.
Proof.
  unfold blank. induction s as [ | c s IH]; [reflexivity | ].
  cbn [lstrip]. destruct (is_space c) eqn:C.
  - rewrite IH. cbn [forallb]. now rewrite C.
  - reflexivity.
Qed.

(** [key.strip() == ""] holds of the blank keys. *)
Lemma strip_nil (s : str) : strip s = [] <-> blank s = true.
Proof.
  unfold strip, rstrip. rewrite <- blank_lstrip, <- blank_rev, <- lstrip_nil.
  split; intro H.
  - apply (f_equal (@rev char)) in H. now rewrite rev_involutive in H.
  - now rewrite H.
Qed.

Lemma strip_test (s : str) : str_eqb (strip s) [] = blank s.
Proof.
  destruct (blank s) eqn:B.
  - apply str_eqb_nil. now apply strip_nil.
  - destruct (str_eqb (strip s) []) eqn:E; [ | reflexivity].
    apply str_eqb_nil, strip_nil in E. congruence.
Qed.

(** X17: the middleware lets a request through exactly when its path starts
    with one of the four open prefixes, or the settings are those of
    development, or the key holds a character that is no white space: the
    key is not compared with anything.  Otherwise it answers 401 to a missing
    or empty key and 403 to a blank one.  A path that only starts like an
    open route, such as "/status-of-everything", is open as well. *)
Theorem verify_license_decision (is_development : bool) (path : str)
    (license_key : option str) :
  let open :=
    starts_with_any [lit "/docs"; lit "/redoc"; lit "/openapi.json"; lit "/status"] path in
  let answer := verify_license is_development path license_key in
  (answer = CallNext <->
   open = true \/ is_development = true \/
   exists key, license_key = Some key /\ blank key = false) /\
  (answer = Rejected 401 (lit "Chave de licença não fornecida") <->
   open = false /\ is_development = false /\
   (license_key = None \/ license_key = Some [])) /\
  (answer = Rejected 403 (lit "Chave de licença inválida") <->
   open = false /\ is_development = false /\
   exists key, license_key = Some key /\ key <> [] /\ blank key = true) /\
  (forall rest,
     verify_license is_development (lit "/status" ++ rest) license_key = CallNext).
Proof.
  cbv zeta. split; [ | split; [ | split]].
  - unfold verify_license.
    destruct (starts_with_any _ path); [split; [now left | reflexivity] | ].
    destruct is_development; cbn [negb]; [split; [now right; left | reflexivity] | ].
    destruct license_key as [[ | c key] | ].
    + split; [discriminate | ]. intros [H | [H | (k & E & B)]]; try discriminate.
      inversion E; subst k. discriminate B.
    + rewrite strip_test. destruct (blank (c :: key)) eqn:B.
      * split; [discriminate | ]. intros [H | [H | (k & E & B')]]; try discriminate.
        inversion E; subst k. congruence.
      * split; [ | reflexivity]. intros _. right. right. now exists (c :: key).
    + split; [discriminate | ]. intros [H | [H | (k & E & B)]]; discriminate.
  - unfold verify_license.
    destruct (starts_with_any _ path); [split; [discriminate | intros [H _]; discriminate] | ].
    destruct is_development; cbn [negb];
      [split; [discriminate | intros [_ [H _]]; discriminate] | ].
    destruct license_key as [[ | c key] | ].
    + split; [intros _; repeat split; now right | reflexivity].
    + rewrite strip_test. destruct (blank (c :: key));
        (split; [discriminate | intros [_ [_ [H | H]]]; discriminate]).
    + split; [intros _; repeat split; now left | reflexivity].
  - unfold verify_license.
    destruct (starts_with_any _ path); [split; [discriminate | intros [H _]; discriminate] | ].
    destruct is_development; cbn [negb];
      [split; [discriminate | intros [_ [H _]]; discriminate] | ].
    destruct license_key as [[ | c key] | ].
    + split; [discriminate | ]. intros (_ & _ & k & E & N & _).
      inversion E; subst k. now elim N.
    + rewrite strip_test. destruct (blank (c :: key)) eqn:B.
      * split; [ | reflexivity]. intros _. repeat split.
        exists (c :: key). repeat split; [discriminate | exact B].
      * split; [discriminate | ]. intros (_ & _ & k & E & _ & B').
        inversion E; subst k. congruence.
    + split; [discriminate | ]. intros (_ & _ & k & E & _). discriminate E.
  - intro rest. unfold verify_license.
    replace (starts_with_any _ (lit "/status" ++ rest)) with true; [reflexivity | ].
    unfold starts_with_any. cbn [existsb].
    rewrite (starts_with_app (lit "/status") rest). now rewrite !orb_true_r.
Qed.

(** ** The dashboard *)

Lemma occurrences_cons (sev s : Z) (l : list Z) :
  occurrences sev (s :: l) = ((if (s =? sev)%Z then 1 else 0) + occurrences sev l)%Z.
Proof.
  unfold occurrences. cbn [filter]. rewrite (Z.eqb_sym sev s).
  destruct (s =? sev)%Z; cbn [List.length]; lia.
Qed.

(** The loop from any counters: each counter grows by the occurrences of
    its severity, the last one by the rest. *)
Lemma count_loop (l : list Z) (c : severity_counts) :
  let c' := fold_left count_problem l c in
  disaster c' = (disaster c + occurrences 5 l)%Z /\
  high c' = (high c + occurrences 4 l)%Z /\
  average c' = (average c + occurrences 3 l)%Z /\
  warning c' = (warning c + occurrences 2 l)%Z /\
  info c' = (info c + occurrences 1 l)%Z /\
  total c' = (total c + Z.of_nat (List.length l))%Z.
Proof.
  cbv zeta. revert c. induction l as [ | s l IH]; intro c.
  - unfold occurrences. cbn [fold_left filter List.length]. lia.
  - cbn [fold_left]. destruct (IH (count_problem c s)) as (D & H & A & W & I & T).
    rewrite D, H, A, W, I, T, !occurrences_cons. clear.
    destruct c as [d h a w i n]. unfold count_problem, total.
    cbn [List.length]. rewrite Nat2Z.inj_succ.
    destruct (s =? 5)%Z eqn:E5, (s =? 4)%Z eqn:E4, (s =? 3)%Z eqn:E3,
             (s =? 2)%Z eqn:E2, (s =? 1)%Z eqn:E1;
      cbn [disaster high average warning info not_classified]; lia.
Qed.

(** X18: the counters of the dashboard partition the problems: each of the
    five named severities counts its own problems, every other severity
    goes to "not_classified", and the six counters add up to
    "problems_count". *)
Theorem get_dashboard_data_partition (hosts : list dict) (severities : list Z) :
  let c := count_severities severities in
  disaster c = occurrences 5 severities /\
  high c = occurrences 4 severities /\
  average c = occurrences 3 severities /\
  warning c = occurrences 2 severities /\
  info c = occurrences 1 severities /\
  not_classified c =
    Z.of_nat (List.length (filter (fun s => negb ((1 <=? s) && (s <=? 5))%Z) severities)) /\
  dict_get "problems_count" (get_dashboard_data hosts severities) = Some (VInt (total c)) /\
  dict_get "hosts_count" (get_dashboard_data hosts severities)
    = Some (VInt (Z.of_nat (List.length hosts))).
Proof.
  cbv zeta. unfold get_dashboard_data, count_severities.
  destruct (count_loop severities (mkCounts 0 0 0 0 0 0)) as (D & H & A & W & I & T).
  cbv zeta in D, H, A, W, I, T.
  cbn [disaster high average warning info] in D, H, A, W, I.
  change (total (mkCounts 0 0 0 0 0 0)) with 0%Z in T.
  split; [exact D | ]. split; [exact H | ]. split; [exact A | ].
  split; [exact W | ]. split; [exact I | ].
  split.
  - unfold total in T. rewrite D, H, A, W, I in T.
    assert (P : (occurrences 5 severities + occurrences 4 severities
                 + occurrences 3 severities + occurrences 2 severities
                 + occurrences 1 severities
                 + Z.of_nat (List.length
                     (filter (fun s => negb ((1 <=? s) && (s <=? 5))%Z) severities))
                 = Z.of_nat (List.length severities))%Z).
    { clear. induction severities as [ | s l IH]; [reflexivity | ].
      rewrite !occurrences_cons. cbn [filter List.length].
      destruct (s =? 5)%Z eqn:E5, (s =? 4)%Z eqn:E4, (s =? 3)%Z eqn:E3,
               (s =? 2)%Z eqn:E2, (s =? 1)%Z eqn:E1,
               (1 <=? s)%Z eqn:L1, (s <=? 5)%Z eqn:L5;
        cbn [andb negb List.length]; lia. }
    lia.
  - split; [ | reflexivity]. cbn [dict_get String.eqb Ascii.eqb Bool.eqb].
    rewrite T. reflexivity.
Qed.

(** ** The client behind the routes *)

(** The body of the route on a maintenance request that names a host. *)
Lemma process_body_maintenance (w : World) (q h : str) :
  detect_intent q = HOST_MAINTENANCE ->
  extract_host q = Some h ->
  extract_time_range_raises (w_now w) q = None ->
  process_body w q =
    match w_get_host_by_name w h with
    | Raises e => Raises e
    | Returns None | Returns (Some []) =>
        Returns (lit "Host '" ++ h ++ lit "' não encontrado no Zabbix.", [], None, None)
    | Returns (Some host_obj) =>
        match dict_get "hostid" host_obj with
        | None => Raises (lit "'hostid'")
        | Some hostid =>
            match w_set_host_maintenance w hostid (lit "Manutenção via Zabbia - " ++ h)
                    (extract_duration q 60 * 60)%Z with
            | Raises e => Raises e
            | Returns (Some (c :: id)) =>
                Returns (lit "Host " ++ h ++ lit " colocado em manutenção por "
                           ++ str_of_Z (extract_duration q 60) ++ lit " minutos.",
                         [ ("maintenance_id"%string, VStr (c :: id));
                           ("host"%string, VStr h);
                           ("duration_minutes"%string, VInt (extract_duration q 60)) ],
                         None, None)
            | Returns _ =>
                Returns (lit "Erro ao colocar host " ++ h ++ lit " em manutenção.",
                         [], None, None)
            end
        end
    end.
Proof.
  intros I E T. destruct (extract_host_some _ h E) as [N _].
  destruct h as [ | c0 h]; [now elim N | ].
  unfold process_body. rewrite T, I, E. eval_intents. cbn [str_eqb].
  generalize (extract_duration q 60). intro minutes.
  destruct (w_get_host_by_name w (c0 :: h)) as [[[ | entry obj] | ] | e]; reflexivity.
Qed.

(** The text of a response begins with the text of the body. *)
Lemma process_query_returns (w : World) (request : ZabbiaQuery) (text : str)
    (dat : dict) (sq : option str) (ch : option (list value)) :
  process_body w (query request) = Returns (text, dat, sq, ch) ->
  exists r, process_query w request = Respond r /\
    starts_with text (response r) = true /\ data r = dat /\ sql r = sq /\ charts r = ch.
Proof.
  intro B. unfold process_query. rewrite B.
  destruct (negb (str_eqb (w_environment w) (lit "production")));
    eexists; (split; [reflexivity | ]); cbn [response data sql charts];
    (split; [first [apply starts_with_app | apply starts_with_self] | ]);
    split_conj; reflexivity.
Qed.

Lemma process_query_raises (w : World) (request : ZabbiaQuery) (e : str) :
  process_body w (query request) = Raises e ->
  process_query w request = Http500 (lit "Erro ao processar consulta: " ++ e).
Proof. intro B. unfold process_query. now rewrite B. Qed.

(** X19: with the client of [zabbix_api.py] behind the [/query] route, a
    maintenance request that names a host, and whose window is resolved
    without an exception, searches that name with wildcards;
    an error of the search is an HTTP 500, no host found is reported; for
    the first host found the maintenance is created for that one identifier,
    from the client's reading of the clock for the extracted minutes times
    60 seconds; a refusal of the API is answered as a failure in the text, an
    answer without identifiers is an HTTP 500. *)
Theorem process_query_with_client (w : World) (client : ZabbixAPIClient)
    (clock described : datetime) (request : ZabbiaQuery) (h : str) :
  detect_intent (query request) = HOST_MAINTENANCE ->
  extract_host (query request) = Some h ->
  extract_time_range_raises (w_now w) (query request) = None ->
  let minutes := extract_duration (query request) 60 in
  let answer := process_query (with_client w client clock described) request in
  dict_get "search" (get_host_by_name_params h) = Some (VDict [ ("name"%string, VStr h) ]) /\
  dict_get "searchWildcardsEnabled" (get_host_by_name_params h) = Some (VBool true) /\
  match host_get client (get_host_by_name_params h) with
  | Raises e => answer = Http500 (lit "Erro ao processar consulta: " ++ e)
  | Returns [] =>
      exists r, answer = Respond r /\
        starts_with (lit "Host '" ++ h ++ lit "' não encontrado no Zabbix.") (response r)
          = true /\
        data r = []
  | Returns (first :: _) =>
      forall id, dict_get "hostid" first = Some (VStr id) ->
      let params :=
        set_host_maintenance_params clock described (VStr id)
          (lit "Manutenção via Zabbia - " ++ h) (minutes * 60)%Z 0 in
      dict_get "hostids" params = Some (VList [VStr id]) /\
      dict_get "active_since" params = Some (VInt (timestamp_int clock)) /\
      dict_get "active_till" params = Some (VInt (timestamp_int clock + minutes * 60)) /\
      dict_get "timeperiods" params =
        Some (VList [ VDict [ ("timeperiod_type"%string, VInt 0);
                              ("period"%string, VInt (minutes * 60)) ] ]) /\
      match maintenance_create client params with
      | Raises _ =>
          exists r, answer = Respond r /\
            starts_with (lit "Erro ao colocar host " ++ h ++ lit " em manutenção.")
              (response r) = true /\
            data r = []
      | Returns None => answer = Http500 (lit "Erro ao processar consulta: " ++ lit "'maintenanceids'")
      | Returns (Some []) =>
          answer = Http500 (lit "Erro ao processar consulta: "
                           ++ lit "list index out of range")
      | Returns (Some ([] :: _)) =>
          exists r, answer = Respond r /\
            starts_with (lit "Erro ao colocar host " ++ h ++ lit " em manutenção.")
              (response r) = true /\
            data r = []
      | Returns (Some (created :: _)) =>
          exists r, answer = Respond r /\
            starts_with (lit "Host " ++ h ++ lit " colocado em manutenção por "
                           ++ str_of_Z minutes ++ lit " minutos.") (response r) = true /\
            data r = [ ("maintenance_id"%string, VStr created);
                       ("host"%string, VStr h);
                       ("duration_minutes"%string, VInt minutes) ]
      end
  end.
Proof.
  intros I E T. cbv zeta.
  split; [reflexivity | ]. split; [reflexivity | ].
  pose proof (process_body_maintenance (with_client w client clock described) _ h I E T)
    as B.
  cbn [with_client w_get_host_by_name w_set_host_maintenance] in B.
  unfold get_host_by_name in B.
  generalize dependent (extract_duration (query request) 60). intros minutes B.
  destruct (host_get client (get_host_by_name_params h)) as [[ | first others] | e].
  - apply process_query_returns in B. destruct B as (r & R & S & D & _).
    exists r. now repeat split.
  - intros id H. split; [reflexivity | ]. split; [reflexivity | ].
    split; [reflexivity | ]. split; [reflexivity | ].
    destruct first as [ | entry obj]; [discriminate H | ].
    rewrite H in B. unfold set_host_maintenance in B.
    destruct (maintenance_create client _) as [[[ | [ | c created] ids] | ] | e].
    + apply process_query_raises in B. exact B.
    + apply process_query_returns in B. destruct B as (r & R & S & D & _).
      exists r. now repeat split.
    + apply process_query_returns in B. destruct B as (r & R & S & D & _).
      exists r. now repeat split.
    + apply process_query_raises in B. exact B.
    + apply process_query_returns in B. destruct B as (r & R & S & D & _).
      exists r. now repeat split.
  - apply process_query_raises in B. exact B.
Qed.

Lemma process_query_with_client_witness :
  exists r,
    process_query (with_client (sample_world sample_now 10) sample_client
                     sample_now sample_now) (mkQuery scenario_3 None) = Respond r /\
    starts_with (lit "Host " ++ lit "app01" ++ lit " colocado em manutenção por "
                   ++ str_of_Z (extract_duration (query (mkQuery scenario_3 None)) 60)
                   ++ lit " minutos.") (response r) = true /\
    data r = [ ("maintenance_id"%string, VStr (lit "7"));
               ("host"%string, VStr (lit "app01"));
               ("duration_minutes"%string,
                  VInt (extract_duration (query (mkQuery scenario_3 None)) 60)) ].
Proof.
  assert (I : detect_intent (query (mkQuery scenario_3 None)) = HOST_MAINTENANCE)
    by (vm_compute; reflexivity).
  assert (E : extract_host (query (mkQuery scenario_3 None)) = Some (lit "app01"))
    by (vm_compute; reflexivity).
  assert (T : extract_time_range_raises (w_now (sample_world sample_now 10))
                (query (mkQuery scenario_3 None)) = None)
    by (vm_compute; reflexivity).
  pose proof (process_query_with_client (sample_world sample_now 10) sample_client
                sample_now sample_now (mkQuery scenario_3 None) (lit "app01") I E T) as H.
  cbv zeta in H. destruct H as (_ & _ & H).
  assert (G : host_get sample_client (get_host_by_name_params (lit "app01"))
              = Returns [ [ ("hostid"%string, VStr (lit "10084"));
                            ("name"%string, VStr (lit "app01")) ] ]) by reflexivity.
  rewrite G in H. cbv beta iota in H.
  specialize (H (lit "10084") eq_refl). destruct H as (_ & _ & _ & _ & H).
  assert (M : maintenance_create sample_client
                (set_host_maintenance_params sample_now sample_now (VStr (lit "10084"))
                   (lit "Manutenção via Zabbia - " ++ lit "app01")
                   (extract_duration (query (mkQuery scenario_3 None)) 60 * 60)%Z 0)
              = Returns (Some [ lit "7" ])) by reflexivity.
  rewrite M in H. exact H.
Defined.

(** ** The [/maintenance] route *)

Lemma as_strings_map (values : list value) (names : list str) :
  as_strings values = Some names -> values = map VStr names.
Proof.
  revert names. induction values as [ | v values IH]; intros names H.
  - inversion H. reflexivity.
  - destruct v; try discriminate H. cbn [as_strings] in H.
    destruct (as_strings values) as [rest | ]; [ | discriminate H].
    inversion H. cbn [map]. f_equal. now apply IH.
Qed.

(** The names the loop collects: one at most for each identifier, each the
    name of the first host of a search, after every search was answered. *)
Lemma lookup_names_found (client : ZabbixAPIClient) (ids : list str)
    (acc names : list value) :
  lookup_names client ids acc = Returns (Some names) ->
  exists found,
    names = acc ++ found /\
    (List.length found <= List.length ids)%nat /\
    Forall (fun name => exists id first rest,
              In id ids /\
              get_hosts client [ ("filter"%string, VDict [ ("hostid"%string, VStr id) ]) ]
                = Returns (first :: rest) /\
              dict_get "name" first = Some name) found /\
    (forall id, In id ids -> exists hosts,
       get_hosts client [ ("filter"%string, VDict [ ("hostid"%string, VStr id) ]) ]
         = Returns hosts).
Proof.
  revert acc. induction ids as [ | id ids IH]; intros acc H; cbn [lookup_names] in H.
  - inversion H. exists []. rewrite List.app_nil_r.
    split; [reflexivity | ]. split; [apply Nat.le_refl | ].
    split; [constructor | ]. intros id [].
  - destruct (get_hosts client _) as [[ | first rest] | e] eqn:G; [ | | discriminate H].
    + destruct (IH _ H) as (found & -> & L & F & A).
      exists found. split; [reflexivity | ]. split; [cbn [List.length]; lia | ].
      split.
      * eapply Forall_impl; [ | exact F].
        intros name (i & f & r & Hi & Hg & Hn). exists i, f, r. split; [now right | now split].
      * intros i [<- | Hi]; [now exists [] | now apply A].
    + destruct (dict_get "name" first) as [name | ] eqn:N; [ | discriminate H].
      destruct (IH _ H) as (found & -> & L & F & A).
      exists (name :: found). split; [now rewrite <- List.app_assoc | ].
      split; [cbn [List.length]; lia | ]. split.
      * constructor.
        -- exists id, first, rest. split; [now left | now split].
        -- eapply Forall_impl; [ | exact F].
           intros n (i & f & r & Hi & Hg & Hn). exists i, f, r.
           split; [now right | now split].
      * intros i [<- | Hi]; [now exists (first :: rest) | now apply A].
Qed.

(** A search that raised stopped the loop. *)
Lemma lookup_names_raised (client : ZabbixAPIClient) (ids : list str)
    (acc : list value) (e : str) :
  lookup_names client ids acc = Raises e ->
  exists id, In id ids /\
    get_hosts client [ ("filter"%string, VDict [ ("hostid"%string, VStr id) ]) ] = Raises e.
Proof.
  revert acc. induction ids as [ | id ids IH]; intros acc H; cbn [lookup_names] in H;
    [discriminate H | ].
  destruct (get_hosts client _) as [[ | first rest] | e'] eqn:G.
  - destruct (IH _ H) as (i & Hi & Hg). exists i. split; [now right | exact Hg].
  - destruct (dict_get "name" first) as [name | ]; [ | discriminate H].
    destruct (IH _ H) as (i & Hi & Hg). exists i. split; [now right | exact Hg].
  - inversion H; subst e'. exists id. split; [now left | exact G].
Qed.

(** X20: when the [/maintenance] route answers with a maintenance, every
    search was answered, the API created the maintenance for all the
    identifiers of the request, found or not, for the minutes of the request
    times 60 seconds, from the client's reading of the clock, and gave the
    identifier of the response, which is not empty; the hosts of the
    response are names of first hosts found, at most one for each
    identifier; the window of the response starts at the route's reading of
    the clock and lasts the minutes of the request. *)
Theorem create_maintenance_created (client : ZabbixAPIClient)
    (now clock described : datetime) (request : MaintenanceRequest)
    (r : MaintenanceResponse) :
  create_maintenance client now clock described request = Created r ->
  let params :=
    set_host_maintenance_params clock described (VList (map VStr (host_ids request)))
      (lit "Manutenção via Zabbia API") (duration_minutes request * 60)%Z 0 in
  (exists others,
     maintenance_create client params = Returns (Some (maintenance_id r :: others))) /\
  maintenance_id r <> [] /\
  dict_get "hostids" params = Some (VList (map VStr (host_ids request))) /\
  dict_get "active_since" params = Some (VInt (timestamp_int clock)) /\
  dict_get "active_till" params =
    Some (VInt (timestamp_int clock + duration_minutes request * 60)) /\
  (List.length (hosts r) <= List.length (host_ids request))%nat /\
  Forall (fun name => exists id first rest,
            In id (host_ids request) /\
            get_hosts client [ ("filter"%string, VDict [ ("hostid"%string, VStr id) ]) ]
              = Returns (first :: rest) /\
            dict_get "name" first = Some (VStr name)) (hosts r) /\
  (forall id, In id (host_ids request) -> exists found,
     get_hosts client [ ("filter"%string, VDict [ ("hostid"%string, VStr id) ]) ]
       = Returns found) /\
  start_time r = isoformat now /\
  end_time r = isoformat (now + timedelta_minutes (duration_minutes request))%Z /\
  valid_datetime (now + timedelta_minutes (duration_minutes request))%Z = true.
Proof.
  intro H. cbv zeta. unfold create_maintenance in H.
  destruct (lookup_names client (host_ids request) []) as [[names | ] | e] eqn:L;
    try discriminate H.
  destruct (valid_datetime _) eqn:V; cbn [negb] in H; [ | discriminate H].
  unfold set_host_maintenance in H.
  destruct (maintenance_create client _) as [[[ | [ | c id] others] | ] | e] eqn:M;
    try discriminate H.
  destruct (as_strings names) as [strings | ] eqn:S; [ | discriminate H].
  inversion H; subst r. cbn [maintenance_id hosts start_time end_time].
  apply as_strings_map in S. subst names.
  apply lookup_names_found in L. destruct L as (found & EQ & LEN & F & A).
  cbn [app] in EQ. subst found. rewrite length_map in LEN.
  split; [exists others; reflexivity | ]. split; [discriminate | ].
  split; [destruct (host_ids request); reflexivity | ].
  split; [reflexivity | ]. split; [reflexivity | ]. split; [exact LEN | ].
  split.
  - rewrite Forall_map in F. exact F.
  - split; [exact A | ]. split; [reflexivity | ]. split; reflexivity.
Qed.

Lemma create_maintenance_created_witness :
  exists others,
    maintenance_create sample_client
      (set_host_maintenance_params sample_now sample_now
         (VList (map VStr [lit "10084"; lit "10085"]))
         (lit "Manutenção via Zabbia API") (30 * 60)%Z 0)
    = Returns (Some (lit "7" :: others)).
Proof.
  exact (proj1 (create_maintenance_created sample_client sample_now sample_now sample_now
                  (mkMaintenanceRequest [lit "10084"; lit "10085"] 30 None)
                  (mkMaintenanceResponse (lit "7") [lit "app01"; lit "app01"]
                     (isoformat sample_now)
                     (isoformat (sample_now + timedelta_minutes 30)%Z))
                  ltac:(vm_compute; reflexivity))).
Defined.

(** X21: an [HTTPException] of the [/maintenance] route has status 500: its
    detail carries the message of the search that failed, or it is the bare
    "Erro ao criar manutenção" and then every search was answered and the
    API refused the maintenance or gave an empty identifier. *)
Theorem create_maintenance_refused (client : ZabbixAPIClient)
    (now clock described : datetime) (request : MaintenanceRequest)
    (status_code : Z) (detail : str) :
  create_maintenance client now clock described request = HttpError status_code detail ->
  let params :=
    set_host_maintenance_params clock described (VList (map VStr (host_ids request)))
      (lit "Manutenção via Zabbia API") (duration_minutes request * 60)%Z 0 in
  status_code = 500%Z /\
  ((exists id e,
      In id (host_ids request) /\
      get_hosts client [ ("filter"%string, VDict [ ("hostid"%string, VStr id) ]) ]
        = Raises e /\
      detail = lit "Erro ao criar manutenção: " ++ e) \/
   (detail = lit "Erro ao criar manutenção" /\
    (forall id, In id (host_ids request) -> exists found,
       get_hosts client [ ("filter"%string, VDict [ ("hostid"%string, VStr id) ]) ]
         = Returns found) /\
    ((exists e, maintenance_create client params = Raises e) \/
     (exists others, maintenance_create client params = Returns (Some ([] :: others)))))).
Proof.
  intro H. cbv zeta. unfold create_maintenance in H.
  destruct (lookup_names client (host_ids request) []) as [[names | ] | e] eqn:L;
    try discriminate H.
  - destruct (valid_datetime _) eqn:V; cbn [negb] in H; [ | discriminate H].
    apply lookup_names_found in L. destruct L as (found & _ & _ & _ & A).
    unfold set_host_maintenance in H.
    destruct (maintenance_create client _) as [[[ | [ | c id] others] | ] | e] eqn:M;
      try discriminate H.
    + inversion H. split; [reflexivity | ]. right. split; [reflexivity | ].
      split; [exact A | ]. right. now exists others.
    + destruct (as_strings names); discriminate H.
    + inversion H. split; [reflexivity | ]. right. split; [reflexivity | ].
      split; [exact A | ]. left. now exists e.
  - inversion H. split; [reflexivity | ]. left.
    apply lookup_names_raised in L. destruct L as (id & Hi & Hg).
    now exists id, e.
Qed.

Lemma create_maintenance_refused_witness :
  exists id e,
    In id [lit "10084"] /\
    get_hosts failing_client [ ("filter"%string, VDict [ ("hostid"%string, VStr id) ]) ]
      = Raises e /\
    lit "Erro ao criar manutenção: Erro na API Zabbix: Session terminated - re-login"
      = lit "Erro ao criar manutenção: " ++ e.
Proof.
  destruct (proj2 (create_maintenance_refused failing_client sample_now sample_now
                     sample_now (mkMaintenanceRequest [lit "10084"] 30 None) 500
                     (lit "Erro ao criar manutenção: Erro na API Zabbix: Session terminated - re-login")
                     ltac:(vm_compute; reflexivity)))
    as [H | (D & _)]; [exact H | discriminate D].
Defined.

(** ** Reading a value: the matcher finds what is there *)

Lemma patterns_split :
  host_pattern =
    Cat host_keyword_re
      (Cat (Plus (Class [CChar ":"; CSpace])) (Group 1 (Plus (Class host_class)))) /\
  period_pattern = Cat period_keyword amount_tail /\
  duration_pattern = Cat duration_keyword amount_tail /\
  amount_tail =
    Cat (Plus (Class [CChar ":"; CSpace]))
      (Cat (Group 1 (Plus (Class [CDigit])))
         (Cat (Star (Class [CChar ":"; CSpace])) (Group 2 unit_alternatives))).
Proof. repeat split. Qed.

Section Reading.

Variable A : Type.

(** The matcher finds a word of an expression without repetition whenever
    the continuation accepts what follows it. *)
Lemma run_complete (r : regex) :
  forall ws, finite_words r = Some ws ->
  forall (w : str) (cs cs1 : captures) (s : str)
         (k : str -> captures -> option A) (x : A),
    matches r w cs cs1 -> k s cs1 = Some x ->
    exists y, run r (w ++ s) cs k = Some y.
Proof.
  induction r as [ | c | | items | r1 IH1 r2 IH2 | r1 IH1 r2 IH2 | r1 IH1 | r1 IH1 | n r1 IH1 ];
    intros ws E w cs cs1 s k x M K; cbn [finite_words] in E; try discriminate E.
  - inversion M; subst. exists x. exact K.
  - inversion M; subst. exists x. cbn [app run]. unfold char_eqb.
    now rewrite Ascii.eqb_refl.
  - inversion M; subst. exists x. cbn [app run].
    match goal with H : class_accepts _ _ = true |- _ => now rewrite H end.
  - destruct (finite_words r1) as [a | ]; [ | discriminate E].
    destruct (finite_words r2) as [b | ]; [ | discriminate E].
    apply matches_cat_inv in M. destruct M as (w1 & w2 & cs2 & -> & M1 & M2).
    destruct (IH2 b eq_refl w2 cs2 cs1 s k x M2 K) as (y2 & R2).
    rewrite <- List.app_assoc. cbn [run].
    exact (IH1 a eq_refl w1 cs cs2 (w2 ++ s) _ y2 M1 R2).
  - destruct (finite_words r1) as [a | ]; [ | discriminate E].
    destruct (finite_words r2) as [b | ]; [ | discriminate E].
    cbn [run]. inversion M; subst.
    + destruct (IH1 a eq_refl w cs cs1 s k x ltac:(assumption) K) as (y & R).
      exists y. now rewrite R.
    + destruct (run r1 (w ++ s) cs k) as [y | ]; [now exists y | ].
      exact (IH2 b eq_refl w cs cs1 s k x ltac:(assumption) K).
  - destruct (finite_words r1) as [a | ]; [ | discriminate E].
    cbn [run]. inversion M; subst.
    + destruct (IH1 a eq_refl w cs cs1 s k x ltac:(assumption) K) as (y & R).
      exists y. now rewrite R.
    + cbn [app]. destruct (run r1 s cs1 k) as [y | ]; [now exists y | ].
      now exists x.
  - apply matches_group_inv in M. destruct M as (cs2 & -> & M).
    cbn [run]. apply (IH1 ws E w cs cs2 s _ x M).
    now rewrite consumed_app.
Qed.

Lemma run_cat (r1 r2 : regex) (s : str) (cs : captures)
    (k : str -> captures -> option A) :
  run (Cat r1 r2) s cs k = run r1 s cs (fun s' cs' => run r2 s' cs' k).
Proof. reflexivity. Qed.

(** A class that must be read once or more reads the whole run. *)
Lemma run_plus_greedy (items : list citem) (ds t : str) (cs : captures)
    (k : str -> captures -> option A) (x : A) :
  ds <> [] -> Forall (fun c => class_accepts items c = true) ds ->
  (forall c t', t = c :: t' -> class_accepts items c = false) ->
  k t cs = Some x ->
  run (Plus (Class items)) (ds ++ t) cs k = Some x.
Proof.
  intros N F T K. destruct ds as [ | d ds]; [now elim N | ].
  inversion F as [ | ? ? Hd F']; subst.
  unfold Plus. cbn [run app]. rewrite Hd. now apply run_star_greedy.
Qed.

(** The same within a group, which captures the run. *)
Lemma run_group_plus_greedy (n : nat) (items : list citem) (ds t : str)
    (cs : captures) (k : str -> captures -> option A) (x : A) :
  ds <> [] -> Forall (fun c => class_accepts items c = true) ds ->
  (forall c t', t = c :: t' -> class_accepts items c = false) ->
  k t ((n, ds) :: cs) = Some x ->
  run (Group n (Plus (Class items))) (ds ++ t) cs k = Some x.
Proof.
  intros N F T K.
  change (run (Group n (Plus (Class items))) (ds ++ t) cs k)
    with (run (Plus (Class items)) (ds ++ t) cs
            (fun s' cs' => k s' ((n, consumed (ds ++ t) s') :: cs'))).
  apply run_plus_greedy; try assumption.
  now rewrite consumed_app.
Qed.

End Reading.

Lemma separator_not_digit (c : char) : is_separator c = true -> is_digit c = false.
Proof. each_char c; vm_compute; intro H; (reflexivity || discriminate H). Qed.

Lemma digit_not_separator (c : char) : is_digit c = true -> is_separator c = false.
Proof. each_char c; vm_compute; intro H; (reflexivity || discriminate H). Qed.

Lemma unit_not_separator (u : char) : is_unit u = true -> is_separator u = false.
Proof. intro H. destruct (is_unit_cases u H) as [-> | [-> | ->]]; reflexivity. Qed.

Lemma separator_not_host_char (c : char) : is_separator c = true -> host_char c = false.
Proof. each_char c; vm_compute; intro H; (reflexivity || discriminate H). Qed.

Lemma host_char_not_separator (c : char) : host_char c = true -> is_separator c = false.
Proof. each_char c; vm_compute; intro H; (reflexivity || discriminate H). Qed.

(** The first character of a run followed by a character. *)
Lemma first_of_run (P Q : char -> Prop) (run : str) (u : char) (post : str) :
  (forall c, P c -> Q c) -> Q u -> Forall P run ->
  forall c t', run ++ u :: post = c :: t' -> Q c.
Proof.
  intros PQ Qu F c t' E. destruct F as [ | d ds Hd F]; cbn [app] in E; inversion E; subst.
  - exact Qu.
  - now apply PQ.
Qed.

(** A unit letter is read as one of the unit words, which begins with it. *)
Lemma run_unit_group (u : char) (post : str) (cs : captures) :
  is_unit u = true ->
  exists uw, In uw unit_words /\ unit_of_word uw = u /\
    run (Group 2 unit_alternatives) (u :: post) cs (fun _ cs' => Some cs')
      = Some ((2, uw) :: cs).
Proof.
  intro U.
  assert (M : matches (Group 2 unit_alternatives) [u] cs ((2, [u]) :: cs)).
  { constructor. unfold unit_alternatives.
    destruct (is_unit_cases u U) as [-> | [-> | ->]].
    - apply M_AltR, M_AltR, M_AltR, M_AltL. constructor.
    - apply M_AltR, M_AltR, M_AltR, M_AltR, M_AltL. constructor.
    - apply M_AltR, M_AltR, M_AltR, M_AltR, M_AltR. constructor. }
  destruct (run_complete captures (Group 2 unit_alternatives) unit_words eq_refl
              [u] cs ((2, [u]) :: cs) post (fun _ cs' => Some cs') _ M eq_refl)
    as (y & R).
  cbn [app] in R. rewrite R.
  apply run_sound in R. destruct R as (w & s' & cs' & E & Mw & K).
  inversion K; subst y. clear K.
  apply matches_group_inv in Mw. destruct Mw as (cs3 & -> & Mw).
  assert (I : In w unit_words) by (apply (finite_words_sound _ _ _ _ Mw); reflexivity).
  assert (C : cs3 = cs).
  { clear - Mw. unfold unit_alternatives in Mw.
    repeat match goal with
           | H : matches (Alt _ _) _ _ _ |- _ => inversion H; subst; clear H
           | H : matches (Cat _ _) _ _ _ |- _ => inversion H; subst; clear H
           | H : matches (Opt _) _ _ _ |- _ => inversion H; subst; clear H
           | H : matches (Lit _) _ _ _ |- _ => inversion H; subst; clear H
           end; reflexivity. }
  subst cs3. exists w. split; [exact I | ]. split; [ | reflexivity].
  destruct w as [ | c w'].
  - exfalso. clear - I. unfold unit_words in I. cbn [In] in I.
    repeat (destruct I as [I | I]; [discriminate I | ]). exact I.
  - cbn [app] in E. inversion E. reflexivity.
Qed.

(** The tail of the period and duration patterns on separators, digits,
    separators and a unit letter: the digits are the first group, a unit
    word that begins with the letter the second. *)
Lemma run_amount_tail (seps ds seps2 post : str) (u : char) (cs : captures) :
  seps <> [] -> Forall (fun c => is_separator c = true) seps ->
  ds <> [] -> Forall (fun c => is_digit c = true) ds ->
  Forall (fun c => is_separator c = true) seps2 ->
  is_unit u = true ->
  exists uw, In uw unit_words /\ unit_of_word uw = u /\
    run amount_tail (seps ++ ds ++ seps2 ++ u :: post) cs (fun _ cs' => Some cs')
      = Some ((2, uw) :: (1, ds) :: cs).
Proof.
  intros NS FS ND FD FS2 U.
  destruct (run_unit_group u post ((1, ds) :: cs) U) as (uw & I & H & R).
  exists uw. split; [exact I | ]. split; [exact H | ].
  destruct patterns_split as (_ & _ & _ & ->). rewrite run_cat.
  apply run_plus_greedy.
  - exact NS.
  - eapply Forall_impl; [ | exact FS]. intros c Hc. now rewrite separator_class.
  - intros c t' E. rewrite separator_class.
    destruct ds as [ | d ds']; [now elim ND | ].
    cbn [app] in E. inversion E; subst. inversion FD; subst.
    now apply digit_not_separator.
  - rewrite run_cat. apply run_group_plus_greedy.
    + exact ND.
    + eapply Forall_impl; [ | exact FD]. intros c Hc. now rewrite digit_class.
    + intros c t' E. rewrite digit_class.
      apply (first_of_run (fun c => is_separator c = true) (fun c => is_digit c = false)
               seps2 u post) with (t' := t'); try assumption.
      * apply separator_not_digit.
      * now apply is_unit_not_digit.
    + rewrite run_cat. apply run_star_greedy.
      * eapply Forall_impl; [ | exact FS2]. intros c Hc. now rewrite separator_class.
      * intros c t' E. inversion E; subst. rewrite separator_class.
        now apply unit_not_separator.
      * exact R.
Qed.

(** ** Searching from the left *)

Lemma starts_with_app_l (p x s : str) :
  starts_with (p ++ x) s = true -> starts_with p s = true.
Proof.
  revert s. induction p as [ | c p IH]; intros s H; [reflexivity | ].
  destruct s as [ | a s]; [discriminate H | ].
  cbn [app starts_with] in *. apply andb_true_iff in H. destruct H as [H1 H2].
  now rewrite H1, (IH s H2).
Qed.

(** A text without a word holds no longer word either. *)
Lemma contains_longer (p x s : str) :
  contains p s = false -> contains (p ++ x) s = false.
Proof.
  induction s as [ | a s IH]; cbn [contains]; intro H.
  - destruct (starts_with p []) eqn:E; [discriminate H | ].
    destruct (starts_with (p ++ x) []) eqn:E'; [ | reflexivity].
    apply starts_with_app_l in E'. congruence.
  - destruct (starts_with p (a :: s)) eqn:E; [discriminate H | ].
    destruct (starts_with (p ++ x) (a :: s)) eqn:E'; [ | now apply IH].
    apply starts_with_app_l in E'. congruence.
Qed.

Lemma contains_cons_false (p : str) (a : char) (s : str) :
  contains p (a :: s) = false -> starts_with p (a :: s) = false /\ contains p s = false.
Proof.
  cbn [contains]. destruct (starts_with p (a :: s)); [discriminate | now split].
Qed.

(** A word that begins a text made of two parts begins the first part or
    straddles the two. *)
Lemma starts_with_straddle (kw b t : str) :
  b <> [] -> starts_with kw (b ++ t) = true ->
  starts_with kw b = true \/ straddles kw t = true.
Proof.
  revert b. induction kw as [ | k kw IH]; intros b N H; [now left | ].
  destruct b as [ | b1 b]; [now elim N | ].
  cbn [app starts_with] in H. apply andb_true_iff in H. destruct H as [H1 H2].
  destruct b as [ | b2 b].
  - cbn [app] in H2. destruct kw as [ | k2 kw].
    + left. cbn [starts_with]. now rewrite H1.
    + right. unfold straddles. apply existsb_exists. exists 1%nat. split.
      * apply in_seq. cbn [List.length]. lia.
      * exact H2.
  - destruct (IH (b2 :: b) ltac:(discriminate) H2) as [W | W].
    + left. cbn [starts_with]. cbn [starts_with] in W. now rewrite H1, W.
    + right. unfold straddles in *. apply existsb_exists in W.
      destruct W as (j & Hj & W). apply in_seq in Hj.
      apply existsb_exists. exists (S j). split.
      * apply in_seq. cbn [List.length]. lia.
      * exact W.
Qed.

(** A match of a pattern that begins with a keyword begins with one. *)
Lemma re_match_starts (kwre tail : regex) (kws : list str) (s : str) (cs : captures) :
  finite_words kwre = Some kws -> re_match (Cat kwre tail) s = Some cs ->
  exists kw, In kw kws /\ starts_with kw s = true.
Proof.
  intros K H. apply re_match_sound in H. destruct H as (w & s' & -> & M).
  apply matches_cat_inv in M. destruct M as (w1 & w2 & cs1 & -> & M1 & _).
  exists w1. split; [exact (finite_words_sound _ _ _ _ M1 _ K) | ].
  rewrite <- !List.app_assoc. apply starts_with_app.
Qed.

(** The search passes over a beginning that holds no keyword. *)
Lemma re_search_skip (kwre tail : regex) (kws : list str) (pre t : str) :
  finite_words kwre = Some kws ->
  (forall kw, In kw kws -> contains kw pre = false) ->
  (forall kw, In kw kws -> straddles kw t = false) ->
  re_search (Cat kwre tail) (pre ++ t) = re_search (Cat kwre tail) t.
Proof.
  intros K P S. induction pre as [ | a pre IH]; [reflexivity | ].
  cbn [app re_search].
  destruct (re_match (Cat kwre tail) (a :: pre ++ t)) as [cs | ] eqn:M.
  - exfalso. destruct (re_match_starts _ _ _ _ _ K M) as (kw & I & W).
    destruct (contains_cons_false _ _ _ (P kw I)) as [F _].
    destruct (starts_with_straddle kw (a :: pre) t ltac:(discriminate) W) as [B | B].
    + congruence.
    + rewrite (S kw I) in B. discriminate B.
  - apply IH. intros kw I. now destruct (contains_cons_false _ _ _ (P kw I)).
Qed.

Lemma re_search_here (r : regex) (t : str) (m : captures) :
  re_match r t = Some m -> re_search r t = Some m.
Proof. intro H. destruct t; cbn [re_search]; now rewrite H. Qed.

Lemma separator_differs (c x : char) :
  is_separator c = true -> is_separator x = false -> char_eqb x c = false.
Proof.
  intros C X. destruct (char_eqb x c) eqn:E; [ | reflexivity].
  apply char_eqb_eq in E. congruence.
Qed.

(** Decide the comparisons of characters that are closed terms. *)
Ltac eval_char_tests :=
  repeat match goal with
         | |- context [char_eqb ?a ?b] =>
             let v := eval vm_compute in (char_eqb a b) in
             match v with
             | true => change (char_eqb a b) with true
             | false => change (char_eqb a b) with false
             end; cbv iota
         end.

(** The keyword of the duration pattern, read by the matcher. *)
Lemma run_duration_keyword (A : Type) (kw rest : str) (cs : captures)
    (k : str -> captures -> option A) (x : A) :
  In kw [lit "por"; lit "durante"] -> k rest cs = Some x ->
  run duration_keyword (kw ++ rest) cs k = Some x.
Proof.
  intros I K. cbn [In] in I. destruct I as [<- | [<- | []]].
  - change (lit "por") with ["p"; "o"; "r"]. unfold duration_keyword.
    cbn [run app]. eval_char_tests. now rewrite K.
  - change (lit "durante") with ["d"; "u"; "r"; "a"; "n"; "t"; "e"].
    unfold duration_keyword. cbn [run app]. eval_char_tests. exact K.
Qed.

Lemma duration_match (kw seps ds seps2 post : str) (u : char) :
  In kw [lit "por"; lit "durante"] ->
  seps <> [] -> Forall (fun c => is_separator c = true) seps ->
  ds <> [] -> Forall (fun c => is_digit c = true) ds ->
  Forall (fun c => is_separator c = true) seps2 ->
  is_unit u = true ->
  exists uw, In uw unit_words /\ unit_of_word uw = u /\
    re_match duration_pattern (kw ++ seps ++ ds ++ seps2 ++ u :: post)
      = Some [(2, uw); (1, ds)].
Proof.
  intros I NS FS ND FD FS2 U.
  destruct (run_amount_tail seps ds seps2 post u [] NS FS ND FD FS2 U) as (uw & Iu & H & R).
  exists uw. split; [exact Iu | ]. split; [exact H | ].
  destruct patterns_split as (_ & _ & -> & _). unfold re_match. rewrite run_cat.
  now apply run_duration_keyword.
Qed.

(** X22: a duration written after the first "por" or "durante" of the text,
    as separators, digits, separators or nothing, and a word that begins
    with m, h or d, is read as that many minutes, hours or days, in minutes,
    whatever follows the letter: "por 2 meses" is two minutes. *)
Theorem extract_duration_reads (q pre kw seps ds seps2 post : str) (u : char)
    (default : Z) :
  lower q = pre ++ kw ++ seps ++ ds ++ seps2 ++ u :: post ->
  contains (lit "por") pre = false ->
  contains (lit "durante") pre = false ->
  In kw [lit "por"; lit "durante"] ->
  seps <> [] -> Forall (fun c => is_separator c = true) seps ->
  ds <> [] -> Forall (fun c => is_digit c = true) ds ->
  Forall (fun c => is_separator c = true) seps2 ->
  is_unit u = true ->
  extract_duration q default = (Z.of_N (int_of_digits ds) * unit_minutes u)%Z.
Proof.
  intros L P1 P2 I NS FS ND FD FS2 U.
  destruct (duration_match kw seps ds seps2 post u I NS FS ND FD FS2 U)
    as (uw & Iu & H & M).
  assert (S : re_search duration_pattern (lower q) = Some [(2, uw); (1, ds)]).
  { rewrite L. destruct patterns_split as (_ & _ & E & _). rewrite E in *.
    rewrite (re_search_skip duration_keyword amount_tail [lit "por"; lit "durante"]);
      [now apply re_search_here | reflexivity | | ].
    - intros w [<- | [<- | []]]; assumption.
    - clear - I. cbn [In] in I.
      intros w [<- | [<- | []]]; destruct I as [<- | [<- | []]]; vm_compute; reflexivity. }
  rewrite (extract_duration_found q default _ S); [ | exact Iu].
  cbn [group_text group Nat.eqb]. now rewrite H.
Qed.

Lemma extract_duration_reads_witness :
  extract_duration months_example 60 = (Z.of_N (int_of_digits (lit "2")) * unit_minutes "m")%Z.
Proof.
  apply (extract_duration_reads months_example (lit "manutenção do host db01 ")
           (lit "por") (lit " ") (lit "2") (lit " ") (lit "eses") "m" 60).
  - vm_compute. reflexivity.
  - vm_compute. reflexivity.
  - vm_compute. reflexivity.
  - left. reflexivity.
  - discriminate.
  - repeat constructor.
  - discriminate.
  - repeat constructor.
  - repeat constructor.
  - reflexivity.
Defined.

(** Write out the literals of the goal. *)
Ltac eval_lits :=
  repeat match goal with
         | |- context [lit ?s] =>
             let v := eval vm_compute in (lit s) in change (lit s) with v
         end.

(** The keyword of the period pattern, read by the matcher before a
    separator. *)
Lemma run_period_keyword (A : Type) (kw rest : str) (c : char) (cs : captures)
    (k : str -> captures -> option A) (x : A) :
  In kw [lit "últimas"; lit "última"; lit "últimos"; lit "último"] ->
  is_separator c = true -> k (c :: rest) cs = Some x ->
  run period_keyword (kw ++ c :: rest) cs k = Some x.
Proof.
  intros I C K. pose proof (separator_differs c "s" C eq_refl) as D.
  cbn [In] in I. destruct I as [<- | [<- | [<- | [<- | []]]]];
    eval_lits; unfold period_keyword; cbn [run app]; eval_char_tests;
    rewrite ?D, ?K; reflexivity.
Qed.

Lemma period_match (kw seps ds seps2 post : str) (u : char) :
  In kw [lit "últimas"; lit "última"; lit "últimos"; lit "último"] ->
  seps <> [] -> Forall (fun c => is_separator c = true) seps ->
  ds <> [] -> Forall (fun c => is_digit c = true) ds ->
  Forall (fun c => is_separator c = true) seps2 ->
  is_unit u = true ->
  exists uw, In uw unit_words /\ unit_of_word uw = u /\
    re_match period_pattern (kw ++ seps ++ ds ++ seps2 ++ u :: post)
      = Some [(2, uw); (1, ds)].
Proof.
  intros I NS FS ND FD FS2 U.
  destruct (run_amount_tail seps ds seps2 post u [] NS FS ND FD FS2 U) as (uw & Iu & H & R).
  exists uw. split; [exact Iu | ]. split; [exact H | ].
  destruct patterns_split as (_ & -> & _ & _). unfold re_match. rewrite run_cat.
  destruct seps as [ | c seps']; [now elim NS | ].
  inversion FS; subst. now apply run_period_keyword.
Qed.




(** The keyword of the host pattern, read by the matcher before a
    separator. *)
Lemma run_host_keyword (A : Type) (kw rest : str) (c : char) (cs : captures)
    (k : str -> captures -> option A) (x : A) :
  In kw [lit "host"; lit "servidor"; lit "servidor" ++ lit "a"; lit "maquina"] ->
  is_separator c = true -> k (c :: rest) cs = Some x ->
  run host_keyword_re (kw ++ c :: rest) cs k = Some x.
Proof.
  intros I C K. pose proof (separator_differs c "a" C eq_refl) as D.
  cbn [In] in I. destruct I as [<- | [<- | [<- | [<- | []]]]];
    eval_lits; unfold host_keyword_re;
    cbn [run app class_accepts existsb item_accepts]; eval_char_tests;
    rewrite ?D; cbn [orb]; rewrite ?K; reflexivity.
Qed.

(** X24: a name written after the first "host", "servidor", "servidora" or
    "maquina" of the text and separators is the host, in lower case, as far
    as its letters, digits, hyphens, underscores and dots go. *)
Theorem extract_host_reads (q pre kw seps h post : str) :
  lower q = pre ++ kw ++ seps ++ h ++ post ->
  contains (lit "host") pre = false ->
  contains (lit "servidor") pre = false ->
  contains (lit "maquina") pre = false ->
  In kw [lit "host"; lit "servidor"; lit "servidor" ++ lit "a"; lit "maquina"] ->
  seps <> [] -> Forall (fun c => is_separator c = true) seps ->
  h <> [] -> Forall (fun c => host_char c = true) h ->
  (forall c rest, post = c :: rest -> host_char c = false) ->
  extract_host q = Some h.
Proof.
  intros L P1 P2 P3 I NS FS NH FH T.
  assert (M : re_match host_pattern (kw ++ seps ++ h ++ post) = Some [(1, h)]).
  { destruct patterns_split as (-> & _ & _ & _). unfold re_match. rewrite run_cat.
    destruct seps as [ | c seps']; [now elim NS | ].
    inversion FS as [ | ? ? Hc FS']; subst.
    apply run_host_keyword; [exact I | exact Hc | ].
    rewrite run_cat.
    apply (run_plus_greedy captures [CChar ":"; CSpace] (c :: seps') (h ++ post)).
    - discriminate.
    - eapply Forall_impl; [ | exact FS]. intros a Ha. now rewrite separator_class.
    - intros a t' E. rewrite separator_class.
      destruct h as [ | d h']; [now elim NH | ].
      cbn [app] in E. inversion E; subst. inversion FH; subst.
      now apply host_char_not_separator.
    - apply run_group_plus_greedy.
      + exact NH.
      + eapply Forall_impl; [ | exact FH]. intros a Ha. now rewrite host_class_char.
      + intros a t' E. rewrite host_class_char. exact (T a t' E).
      + reflexivity. }
  unfold extract_host. rewrite L.
  destruct patterns_split as (E & _ & _ & _). rewrite E in *.
  rewrite (re_search_skip host_keyword_re _
             [lit "host"; lit "servidor" ++ lit "a"; lit "servidor"; lit "maquina"]);
    [rewrite (re_search_here _ _ _ M); reflexivity | reflexivity | | ].
  - intros w [<- | [<- | [<- | [<- | []]]]]; try assumption.
    now apply contains_longer.
  - clear - I. cbn [In] in I.
    intros w [<- | [<- | [<- | [<- | []]]]];
      destruct I as [<- | [<- | [<- | [<- | []]]]]; vm_compute; reflexivity.
Qed.

Lemma extract_host_reads_witness :
  extract_host (lit "Reiniciar o Servidor: DB-01.Prod, por favor") = Some (lit "db-01.prod").
Proof.
  apply (extract_host_reads (lit "Reiniciar o Servidor: DB-01.Prod, por favor")
           (lit "reiniciar o ") (lit "servidor") (lit ": ") (lit "db-01.prod")
           (lit ", por favor")).
  - vm_compute. reflexivity.
  - vm_compute. reflexivity.
  - vm_compute. reflexivity.
  - vm_compute. reflexivity.
  - right. left. reflexivity.
  - discriminate.
  - repeat constructor.
  - discriminate.
  - repeat constructor.
  - intros c rest E. inversion E. reflexivity.
Defined.

Lemma threshold_pattern_split :
  threshold_pattern =
    Cat threshold_keyword (Cat (Plus (Class [CChar ":"; CSpace])) threshold_tail) /\
  threshold_tail =
    Cat (Opt (Alt (Cat (Lit "d") (Lit "e")) (Cat (Lit "q") (Cat (Lit "u") (Lit "e")))))
      (Cat (Star (Class [CChar ":"; CSpace]))
         (Cat (Group 1 (Plus (Class [CDigit]))) (Class [CChar "%"; CSpace]))).
Proof. split; reflexivity. Qed.

(** ** The threshold that is there *)

(** A match of a pattern made of a keyword and separators begins with a
    keyword and a separator. *)
Lemma re_match_starts_separated (kwre tail : regex) (kws : list str) (s : str)
    (cs : captures) :
  finite_words kwre = Some kws ->
  re_match (Cat kwre (Cat (Plus (Class [CChar ":"; CSpace])) tail)) s = Some cs ->
  exists kw c rest, In kw kws /\ is_separator c = true /\ s = kw ++ c :: rest.
Proof.
  intros K H. apply re_match_sound in H. destruct H as (w & s' & -> & M).
  apply matches_cat_inv in M. destruct M as (w1 & w2 & cs1 & -> & M1 & M).
  apply matches_cat_inv in M. destruct M as (w3 & w4 & cs2 & -> & M3 & _).
  apply (matches_plus_class [CChar ":"; CSpace]) in M3. destruct M3 as (N & F & _).
  destruct w3 as [ | c w3]; [now elim N | ]. inversion F as [ | ? ? Hc _]; subst.
  exists w1, c, (w3 ++ w4 ++ s'). split; [exact (finite_words_sound _ _ _ _ M1 _ K) | ].
  split; [now rewrite <- separator_class | ].
  now rewrite <- !List.app_assoc.
Qed.

Lemma skipn_app_length (a b : str) : skipn (List.length a) (a ++ b) = b.
Proof. induction a as [ | x a IH]; [reflexivity | exact IH]. Qed.

(** A keyword and its separator that begin a text made of two parts: the
    keyword begins the first part, or it straddles the two. *)
Lemma split_straddle (kw b t rest : str) (c : char) :
  b <> [] -> b ++ t = kw ++ c :: rest -> is_separator c = true ->
  starts_with kw b = true \/ straddles_separated kw t = true.
Proof.
  revert b. induction kw as [ | k kw IH]; intros b N E C; [now left | ].
  destruct b as [ | b1 b]; [now elim N | ].
  cbn [app] in E. inversion E as [[E1 E2]]. subst b1.
  destruct b as [ | b2 b].
  - right. cbn [app] in E2. subst t. unfold straddles_separated.
    apply existsb_exists. exists 1%nat. split.
    + apply in_seq. cbn [List.length]. lia.
    + cbn [skipn List.length]. rewrite starts_with_app.
      replace (S (List.length kw) - 1)%nat with (List.length kw) by lia.
      rewrite skipn_app_length. exact C.
  - destruct (IH (b2 :: b) ltac:(discriminate) E2 C) as [W | W].
    + left. cbn [starts_with]. cbn [starts_with] in W.
      unfold char_eqb. now rewrite Ascii.eqb_refl, W.
    + right. unfold straddles_separated in *. apply existsb_exists in W.
      destruct W as (j & Hj & W). apply in_seq in Hj.
      apply existsb_exists. exists (S j). split.
      * apply in_seq. cbn [List.length]. lia.
      * cbn [skipn List.length]. exact W.
Qed.

(** The search passes over a beginning that holds no keyword, when no
    keyword with its separator straddles the two parts. *)
Lemma re_search_skip_separated (kwre tail : regex) (kws : list str) (pre t : str) :
  finite_words kwre = Some kws ->
  (forall kw, In kw kws -> contains kw pre = false) ->
  (forall kw, In kw kws -> straddles_separated kw t = false) ->
  re_search (Cat kwre (Cat (Plus (Class [CChar ":"; CSpace])) tail)) (pre ++ t)
  = re_search (Cat kwre (Cat (Plus (Class [CChar ":"; CSpace])) tail)) t.
Proof.
  intros K P S. induction pre as [ | a pre IH]; [reflexivity | ].
  cbn [app re_search].
  destruct (re_match _ (a :: pre ++ t)) as [cs | ] eqn:M.
  - exfalso. destruct (re_match_starts_separated _ _ _ _ _ K M) as (kw & c & rest & I & C & E).
    destruct (contains_cons_false _ _ _ (P kw I)) as [F _].
    destruct (split_straddle kw (a :: pre) t rest c ltac:(discriminate) E C) as [B | B].
    + congruence.
    + rewrite (S kw I) in B. discriminate B.
  - apply IH. intros kw I. now destruct (contains_cons_false _ _ _ (P kw I)).
Qed.

Lemma run_threshold_keyword (A : Type) (kw rest : str) (cs : captures)
    (k : str -> captures -> option A) (x : A) :
  In kw [lit "acima"; lit "maior"; lit "superior"; lit "mais"] ->
  k rest cs = Some x ->
  run threshold_keyword (kw ++ rest) cs k = Some x.
Proof.
  intros I K. cbn [In] in I. destruct I as [<- | [<- | [<- | [<- | []]]]];
    eval_lits; unfold threshold_keyword; cbn [run app]; eval_char_tests;
    rewrite ?K; reflexivity.
Qed.

Lemma digit_differs (d x : char) :
  is_digit d = true -> is_digit x = false -> char_eqb x d = false.
Proof.
  intros D X. destruct (char_eqb x d) eqn:E; [ | reflexivity].
  apply char_eqb_eq in E. congruence.
Qed.

Lemma terminator_not_digit (c : char) :
  (char_eqb c "%" || is_space c)%bool = true -> is_digit c = false.
Proof. each_char c; vm_compute; intro H; (reflexivity || discriminate H). Qed.

(** The optional "de" or "que" of the threshold pattern. *)
Lemma run_threshold_particle (A : Type) (particle rest : str) (cs : captures)
    (k : str -> captures -> option A) (x : A) :
  In particle [lit "de"; lit "que"] -> k rest cs = Some x ->
  run (Opt (Alt (Cat (Lit "d") (Lit "e")) (Cat (Lit "q") (Cat (Lit "u") (Lit "e")))))
    (particle ++ rest) cs k = Some x.
Proof.
  intros I K. cbn [In] in I. destruct I as [<- | [<- | []]];
    eval_lits; cbn [run app]; eval_char_tests; rewrite ?K; reflexivity.
Qed.

Lemma run_threshold_no_particle (A : Type) (d : char) (rest : str) (cs : captures)
    (k : str -> captures -> option A) (x : A) :
  is_digit d = true -> k (d :: rest) cs = Some x ->
  run (Opt (Alt (Cat (Lit "d") (Lit "e")) (Cat (Lit "q") (Cat (Lit "u") (Lit "e")))))
    (d :: rest) cs k = Some x.
Proof.
  intros D K. cbn [run].
  now rewrite (digit_differs d "d" D eq_refl), (digit_differs d "q" D eq_refl).
Qed.

(** The digits and the terminator, after the separators. *)
Lemma run_threshold_digits (seps2 ds post : str) (c : char) (cs : captures) :
  Forall (fun a => is_separator a = true) seps2 ->
  ds <> [] -> Forall (fun a => is_digit a = true) ds ->
  (char_eqb c "%" || is_space c)%bool = true ->
  run (Cat (Star (Class [CChar ":"; CSpace]))
         (Cat (Group 1 (Plus (Class [CDigit]))) (Class [CChar "%"; CSpace])))
    (seps2 ++ ds ++ c :: post) cs (fun _ cs' => Some cs') = Some ((1, ds) :: cs).
Proof.
  intros FS2 ND FD T. rewrite run_cat. apply run_star_greedy.
  - eapply Forall_impl; [ | exact FS2]. intros a Ha. now rewrite separator_class.
  - intros a t' E. rewrite separator_class.
    destruct ds as [ | d ds']; [now elim ND | ].
    cbn [app] in E. inversion E; subst. inversion FD; subst.
    now apply digit_not_separator.
  - rewrite run_cat. apply run_group_plus_greedy.
    + exact ND.
    + eapply Forall_impl; [ | exact FD]. intros a Ha. now rewrite digit_class.
    + intros a t' E. inversion E; subst. rewrite digit_class.
      now apply terminator_not_digit.
    + cbn [run]. now rewrite terminator_class, T.
Qed.

(** X25: a threshold written after the first "acima", "maior", "superior" or
    "mais" of the text, as separators, "de" or "que" or neither, separators
    or nothing, digits and a percent sign or white space, is the number of
    the digits. *)
Theorem extract_threshold_reads (q pre kw seps particle seps2 ds post : str)
    (c : char) (default : Z) :
  lower q = pre ++ kw ++ seps ++ particle ++ seps2 ++ ds ++ c :: post ->
  contains (lit "acima") pre = false ->
  contains (lit "maior") pre = false ->
  contains (lit "superior") pre = false ->
  contains (lit "mais") pre = false ->
  In kw [lit "acima"; lit "maior"; lit "superior"; lit "mais"] ->
  seps <> [] -> Forall (fun a => is_separator a = true) seps ->
  In particle [lit "de"; lit "que"] \/ particle = [] /\ seps2 = [] ->
  Forall (fun a => is_separator a = true) seps2 ->
  ds <> [] -> Forall (fun a => is_digit a = true) ds ->
  (char_eqb c "%" || is_space c)%bool = true ->
  extract_threshold q default = Z.of_N (int_of_digits ds).
Proof.
  intros L P1 P2 P3 P4 I NS FS O FS2 ND FD T.
  destruct threshold_pattern_split as (E & ET).
  assert (M : re_match threshold_pattern
                (kw ++ seps ++ particle ++ seps2 ++ ds ++ c :: post) = Some [(1, ds)]).
  { rewrite E. unfold re_match. rewrite run_cat.
    apply run_threshold_keyword; [exact I | ]. rewrite run_cat.
    apply run_plus_greedy.
    - exact NS.
    - eapply Forall_impl; [ | exact FS]. intros a Ha. now rewrite separator_class.
    - intros a t' Ea. rewrite separator_class.
      destruct O as [O | [-> ->]].
      + cbn [In] in O. destruct O as [<- | [<- | []]]; inversion Ea; reflexivity.
      + destruct ds as [ | d ds']; [now elim ND | ].
        cbn [app] in Ea. inversion Ea; subst. inversion FD; subst.
        now apply digit_not_separator.
    - rewrite ET, run_cat. destruct O as [O | [-> ->]].
      + apply run_threshold_particle; [exact O | ].
        now apply run_threshold_digits.
      + destruct ds as [ | d ds'] eqn:D; [now elim ND | ].
        cbn [app]. apply run_threshold_no_particle; [now inversion FD | ].
        rewrite <- D in *.
        change (d :: ds' ++ c :: post) with ((d :: ds') ++ c :: post). rewrite <- D.
        apply (run_threshold_digits [] ds post c []); assumption. }
  unfold extract_threshold. rewrite L. rewrite E in *.
  rewrite (re_search_skip_separated threshold_keyword threshold_tail
             [lit "acima"; lit "maior"; lit "superior"; lit "mais"]);
    [rewrite (re_search_here _ _ _ M); reflexivity | reflexivity | | ].
  - intros w [<- | [<- | [<- | [<- | []]]]]; assumption.
  - clear - I NS FS. destruct seps as [ | s seps']; [now elim NS | ]. clear NS FS.
    cbn [In] in I.
    intros w [<- | [<- | [<- | [<- | []]]]];
      destruct I as [<- | [<- | [<- | [<- | []]]]]; vm_compute; reflexivity.
Qed.

Lemma extract_threshold_reads_witness :
  extract_threshold (lit "Hosts com CPU maior que 85% hoje") 80
  = Z.of_N (int_of_digits (lit "85")).
Proof.
  apply (extract_threshold_reads (lit "Hosts com CPU maior que 85% hoje")
           (lit "hosts com cpu ") (lit "maior") (lit " ") (lit "que") (lit " ")
           (lit "85") (lit " hoje") "%" 80).
  - vm_compute. reflexivity.
  - vm_compute. reflexivity.
  - vm_compute. reflexivity.
  - vm_compute. reflexivity.
  - vm_compute. reflexivity.
  - right. left. reflexivity.
  - discriminate.
  - repeat constructor.
  - left. right. left. reflexivity.
  - repeat constructor.
  - discriminate.
  - repeat constructor.
  - reflexivity.
Defined.

(** ** The case of the query *)

Section Case.

Variables q1 q2 : str.
Hypothesis same : lower q1 = lower q2.

Lemma detect_intent_case : detect_intent q1 = detect_intent q2.
Proof. unfold detect_intent. now rewrite same. Qed.

Lemma extract_host_case : extract_host q1 = extract_host q2.
Proof. unfold extract_host. now rewrite same. Qed.

Lemma extract_threshold_case (default : Z) :
  extract_threshold q1 default = extract_threshold q2 default.
Proof. unfold extract_threshold. now rewrite same. Qed.

Lemma extract_duration_case (default : Z) :
  extract_duration q1 default = extract_duration q2 default.
Proof. unfold extract_duration. now rewrite same. Qed.

Lemma extract_time_range_case (now : datetime) :
  extract_time_range now q1 = extract_time_range now q2.
Proof. unfold extract_time_range, period_token. now rewrite same. Qed.

Lemma extract_time_range_raises_case (now : datetime) :
  extract_time_range_raises now q1 = extract_time_range_raises now q2.
Proof. unfold extract_time_range_raises, period_token. now rewrite same. Qed.

Lemma generate_graph_data_case (now : datetime) :
  generate_graph_data now q1 = generate_graph_data now q2.
Proof. unfold generate_graph_data. now rewrite same, extract_host_case. Qed.

Lemma generate_api_call_case (now : datetime) :
  generate_api_call now q1 = generate_api_call now q2.
Proof.
  unfold generate_api_call.
  now rewrite detect_intent_case, extract_host_case, (extract_duration_case 60).
Qed.

(** The statement and the threshold of the context; the context also holds
    the query as it was typed. *)
Lemma generate_sql_case (now : datetime) :
  fst (generate_sql now q1) = fst (generate_sql now q2) /\
  dict_get "threshold" (snd (generate_sql now q1))
    = dict_get "threshold" (snd (generate_sql now q2)).
Proof.
  unfold generate_sql.
  rewrite detect_intent_case, extract_host_case, (extract_threshold_case 80),
    (extract_time_range_case now).
  generalize (extract_threshold q2 80) (extract_time_range now q2). intros threshold range.
  destruct (extract_host q2) as [[ | c h] | ];
    destruct (detect_intent q2); eval_intents;
    cbn [add_host_filter str_eqb negb fst snd]; split; reflexivity.
Qed.

End Case.

Lemma process_body_case (w : World) (q1 q2 : str) :
  lower q1 = lower q2 -> process_body w q1 = process_body w q2.
Proof.
  intro H. unfold process_body.
  destruct (generate_sql_case q1 q2 H (w_now w)) as [F T].
  rewrite (detect_intent_case q1 q2 H), (extract_host_case q1 q2 H),
    (extract_time_range_raises_case q1 q2 H (w_now w)),
    (extract_duration_case q1 q2 H 60), (generate_graph_data_case q1 q2 H (w_now w)),
    (generate_api_call_case q1 q2 H (w_now w)).
  destruct (generate_sql (w_now w) q1) as [s1 c1].
  destruct (generate_sql (w_now w) q2) as [s2 c2].
  cbn [fst snd] in F, T. subst s1. rewrite T. reflexivity.
Qed.

(** X26: the answer of the [/query] route depends on the query through its
    lower-case form only: two requests whose queries differ in case, with
    the same conversation id, get the same answer from the same readings
    of the clock, the settings, the random generator and the client. *)
Theorem process_query_case (w : World) (r1 r2 : ZabbiaQuery) :
  lower (query r1) = lower (query r2) ->
  request_conversation_id r1 = request_conversation_id r2 ->
  process_query w r1 = process_query w r2.
Proof.
  intros H C. unfold process_query.
  now rewrite (process_body_case w _ _ H), C.
Qed.

Lemma process_query_case_witness :
  process_query known_host_world (mkQuery (lit "Colocar HOST App01 em MANUTENÇÃO por 2 Horas") None)
  = process_query known_host_world (mkQuery scenario_3 None).
Proof.
  apply process_query_case.
  - vm_compute. reflexivity.
  - cbn [request_conversation_id]. reflexivity.
Defined.

(** ** The severities of [get_problems] *)

Lemma py_range_spec (lo hi s : Z) : In s (py_range lo hi) <-> (lo <= s < hi)%Z.
Proof.
  unfold py_range. rewrite in_map_iff. split.
  - intros (i & <- & I). apply in_seq in I. lia.
  - intro B. exists (Z.to_nat (s - lo)). split; [lia | ]. apply in_seq. lia.
Qed.

Lemma py_range_length (lo hi : Z) :
  List.length (py_range lo hi) = Z.to_nat (hi - lo).
Proof. unfold py_range. now rewrite length_map, length_seq. Qed.

Lemma py_range_sorted (lo hi : Z) : StronglySorted Z.lt (py_range lo hi).
Proof.
  unfold py_range. generalize (Z.to_nat (hi - lo)). intro n.
  generalize 0%nat. induction n as [ | n IH]; intro a; cbn [seq map]; constructor.
  - apply IH.
  - apply Forall_forall. intros x I. apply in_map_iff in I.
    destruct I as (i & <- & I). apply in_seq in I. lia.
Qed.

(** X27: [get_problems] sends no "severities" when neither bound is given;
    otherwise it sends exactly the integers from the lower bound (0 when
    absent) to the upper bound (5 when absent), in increasing order: none
    when the bounds are inverted, and severities outside 0..5 when a bound
    is. *)
Theorem get_problems_severities (severity_from severity_till : option Z) :
  let params := get_problems_params severity_from severity_till in
  let min_sev := match severity_from with Some s => s | None => 0%Z end in
  let max_sev := match severity_till with Some s => s | None => 5%Z end in
  (severity_from = None /\ severity_till = None ->
   dict_has "severities" params = false) /\
  (severity_from <> None \/ severity_till <> None ->
   exists severities,
     dict_get "severities" params = Some (VList (map VInt severities)) /\
     (forall s, In s severities <-> (min_sev <= s <= max_sev)%Z) /\
     StronglySorted Z.lt severities /\
     List.length severities = Z.to_nat (max_sev - min_sev + 1) /\
     ((max_sev < min_sev)%Z -> severities = [])).
Proof.
  cbv zeta. split.
  - intros [-> ->]. reflexivity.
  - intro G.
    exists (py_range (match severity_from with Some s => s | None => 0%Z end)
                     (match severity_till with Some s => s | None => 5%Z end + 1)).
    split; [ | split; [ | split; [ | split]]].
    + destruct severity_from, severity_till; try reflexivity.
      destruct G as [G | G]; now elim G.
    + intro s. rewrite py_range_spec. lia.
    + apply py_range_sorted.
    + rewrite py_range_length. f_equal. lia.
    + intro I. unfold py_range.
      replace (Z.to_nat _) with 0%nat by lia. reflexivity.
Qed.

Lemma get_problems_severities_witness :
  exists severities,
    dict_get "severities" (get_problems_params (Some 3%Z) None)
      = Some (VList (map VInt severities)) /\
    (forall s, In s severities <-> (3 <= s <= 5)%Z) /\
    StronglySorted Z.lt severities /\
    List.length severities = Z.to_nat (5 - 3 + 1) /\
    ((5 < 3)%Z -> severities = []).
Proof.
  apply (proj2 (get_problems_severities (Some 3%Z) None)).
  left. discriminate.
Defined.
